(* ===== verification/_CoqProject ===== *)
-Q . S2P
Prelude.v
PyBuiltins.v
Argparse.v
Cli.v
Format.v
World.v
Main.v
Locations.v
Context.v
Prompt.v
Dispatch.v
Render.v
Pipeline.v
