(* ===== verification/Prelude.v ===== *)
(** * cwhy: a verification development of the cwhy command-line tool

    cwhy (eddieantonio/cwhy) reads compiler diagnostics on standard input
    and asks a large language model to explain them or to propose a fix.
    The only source file of the repository under src/ is the entry point
    [src/cwhy/__main__.py]: it declares the argparse command line, builds
    the compiler-wrapper script from a template, and hands the standard
    input to [cwhy.evaluate].  The core behind [cwhy.evaluate] (location
    parsing, context assembly, prompt building, dispatch, rendering) is
    not under src/; it is modelled from the specification (spec.md) and
    every definition of it is marked spec_modelled in the manifest.

    ** How the parts interact

    [main()] parses argv with argparse into a namespace dict, then either
    (1) writes the wrapper script ([template.format(...)]) to a temporary
    file, makes it executable and prints its name, or (2) prints the
    version, or (3) reads stdin and, if it is non-empty, calls
    [cwhy.evaluate(args, stdin)].  The evaluator reads its configuration
    from the dict and runs LocationParser -> ContextAssembler ->
    PromptBuilder -> LLMDispatcher -> ModeRenderer (spec.md 4.1 to 4.5).
    Effects are explicit: every component that touches the world runs in
    the state-and-exception monad [World.io], which records each
    observable action (output, file access, temporary file, chmod, model
    call) in a trace, so theorems state what was done and in which order.

    ** Files (in dependency order) and what they model

    - [Prelude] (this file): the [cwhy_scope] notations, the [result]
      error monad with [let*], the [cwhy] hint and rewrite databases, the
      Ltac of the development, shared lemmas on strings.
    - [PyBuiltins]: Python values ([pyval]) with [str()]/[repr()] and
      truthiness ([repr()] of a str with CPython's quote choice and
      escapes), dicts as insertion-ordered association lists
      ([vars(args)]), [int()] on strings as CPython's [PyLong_FromString]
      reads base 10, and the string methods argparse uses.
    - [Argparse] (Module [Argparse]): CPython 3.11's argparse as [main()]
      uses it: the parser object and the calls that build it
      ([add_argument], [add_subparsers], [set_defaults]), and
      [parse_args]: [_parse_optional] with abbreviations and negative
      numbers, the option/positional pattern, [consume_optional] with
      explicit [=] arguments and single-dash chaining,
      [consume_positionals] with the sub-command action,
      [take_action]/[_get_values] with type conversion, and the errors
      (exit status 2); the step lemmas and the fuel lemmas of the loop.
    - [Cli] (Module [Cli], src lines 18-77): the parser [main()] builds
      ([cwhy_parser]) and the theorems about [parse_args] on it.
      Section [Invariant] proves the namespace invariant once for any
      parser.
    - [Format] (Module [Format], src line 15): CPython 3.11's
      [str.format] with keyword arguments: the template scanned in one
      pass as [MarkupIterator_next] and [parse_field] do, the fields
      evaluated as [get_field_object] does, with its errors; [World]
      raises a missing keyword or key as a plain [KeyError].
    - [World] (Module [World]): the process: standard input, files, the
      next temporary file name, the installed version, the LLM transport
      as an oracle, the trace; the [io] monad and one definition per
      primitive [main()] calls ([print], [sys.stdin.read], [open().read],
      [NamedTemporaryFile], [write], [os.chmod]); two predicates on a
      computation with a lemma per primitive and per combinator, in the
      style of a postcondition: [appends] (the footprint: the events a
      computation may append) and [raises_only] (the exceptions it may
      raise), with the tactics [footprint] and [raises].
    - [Main] (Module [Main], src lines 12-15 and 77-90): [wrapper(args)]
      and [main()], in Section [Run] over the evaluator, so its theorems
      hold for every [cwhy.evaluate].
    - [Locations] (spec 4.1, 9): the LocationParser as an ordered list of
      recognizer rules ([rule_drive], [rule_plain]) over the lines of the
      text, with continuation lines; [render_location] is the line
      [extract-sources] prints.
    - [Context] (spec 4.2): [assemble] reads the file through [World] and
      cuts a window of [window] = 3 lines on each side, clipped.
    - [Prompt] (spec 3, 4.3): [config], [payload], [build] (every location
      assembled, the first [max_context] snippets kept) and [messages].
    - [Dispatch] (spec 4.4): one call of the completion primitive, the
      reply classified into [dispatch_result].
    - [Render] (spec 4.5): [extract-sources] lines, the model text
      verbatim, or a failure line on stderr and exit status 1.
    - [Pipeline]: [evaluate] (the configuration read from the namespace,
      [--show-prompt] as its help text says) and [cwhy], which is
      [Main.main evaluate]: the whole program from argv to exit status.

    ** What the theorems show

    - Command line ([Cli]): the namespace of every successful parse has
      the eight keys in order with values of their options' types; any
      int is accepted for [--timeout] and [--max-context], negative ones
      included; a ['--'] right after an option that takes a value is an
      error; abbreviations of [--wrapper] are ambiguous, unique prefixes
      of [--llm] and [--wrapper-compiler] stand for them; options after
      the sub-command are rejected; the last value of a repeated option
      wins.  Lemmas of the models the command line rests on:
      [parse_args_terminates] (the fuel is enough, for every parser),
      [int(str(z)) = z] and [py_int_decimal] ([int()] of a signed decimal
      numeral agrees with a reference Horner evaluation).
    - [main()] ([Main]): the exact trace of the wrapper branch; the empty
      temporary file left behind when the template is missing; the
      version branch; an empty input is a no-op; a [KeyError] comes only
      from the evaluator or from [template.format], never from [main()]'s
      own lookups.
    - The whole program ([Pipeline]): in [explain]/[fix] mode exactly one
      model call carrying the instructions, the diagnostic, the first
      [max_context] snippets in order, the [--llm] model and the
      [--timeout]; the four outcomes (text printed verbatim and exit 0,
      or a failure line naming the kind on stderr, nothing on stdout, exit
      1); [extract-sources] calls nothing and prints the parsed
      locations, is a fixed point on its own output, and prints nothing
      for a diagnostic without locations; [--show-prompt] prints exactly
      the conversation of the payload it would send and calls nothing;
      an empty input is a no-op; a run only appends to the trace and
      touches the file system only when asked for the wrapper.
    - Components of the core: the parse/render round trip, the order of
      the locations, line numbers at least 1, continuation lines
      ([Locations]); a snippet never raises, is bounded by [2w+1] lines,
      is the clipped window, or empty and truncated for a missing file
      ([Context]); the snippet budget and earliest-first retention
      ([Prompt]); [extract-sources] output ([Render]).

    ** Bounds and fuel

    The argparse loop is the only recursion that is not structural; it
    runs with fuel [S (length argv)].  Each round consumes at least one
    argument, and a sub-parser takes the remaining arguments with the
    fuel that is left, so this fuel is enough; [parse_args_terminates]
    proves that [ErrFuel] never comes out.  Every other function is
    structural (the [str.format] scanner reads one character per step).
    Python ints are [Z] and line numbers [N]: nothing in the modelled
    code depends on a machine width.

    ** What is not modelled

    - argparse's help text, usage lines and error wording (the outcomes
      [Help] and [Failed] name the parser and the error), and prefix
      characters other than '-'.
    - Characters beyond code point 255: a model string is a list of
      bytes read as code points below 256, so [int()] sees ASCII digits
      and white space only and [repr()] escapes by the Latin-1 range.
    - Attribute fields ([{x.y}]) and format specs of [str.format] (they
      give [NotModelled]); the template [wrapper.py.in] itself, which is a
      file of the world.
    - The HTTP transport, authentication and the wall-clock timeout of
      the LLM provider (the transport is an oracle from requests to
      replies), and importlib.metadata (the version is a string of the
      world; a [PackageNotFoundError] is not modelled).
    - The wording of the instructions sent to the model, which spec.md
      does not give.
*)

From stdpp Require Export base list strings option.
From Stdlib Require Export Ascii ZArith.

Declare Scope cwhy_scope.
Delimit Scope cwhy_scope with cwhy.
Open Scope cwhy_scope.

(** ** The error monad used by every component *)

Inductive result (E A : Type) : Type :=
| Ok (a : A)
| Err (e : E).
Arguments Ok {E A} a.
Arguments Err {E A} e.

Definition rbind {E A B} (c : result E A) (k : A -> result E B) : result E B :=
  match c with
  | Ok a => k a
  | Err e => Err e
  end.

Definition rmap {E A B} (f : A -> B) (c : result E A) : result E B :=
  rbind c (fun a => Ok (f a)).

Notation "'let*' x ':=' c 'in' k" := (rbind c (fun x => k))
  (at level 10, x name, c at level 100, k at level 200) : cwhy_scope.
Notation "'let*' ' p ':=' c 'in' k" := (rbind c (fun x => match x with p => k end))
  (at level 10, p pattern, c at level 100, k at level 200) : cwhy_scope.

Lemma rbind_Ok {E A B} (c : result E A) (k : A -> result E B) b :
  rbind c k = Ok b <-> exists a, c = Ok a /\ k a = Ok b.
Proof.
  destruct c as [a|e]; simpl; split.
  - eauto.
  - intros (a' & [= ->] & H). exact H.
  - discriminate.
  - intros (a' & ? & _). discriminate.
Qed.

Lemma rbind_Err {E A B} (e : E) (k : A -> result E B) :
  rbind (Err e) k = Err e.
Proof. reflexivity. Qed.

(** ** Hint database and tactics of the development *)

Create HintDb cwhy discriminated.
Create Rewrite HintDb cwhy_rw.

Ltac invc H := inversion H; subst; clear H.

(** Destruct the scrutinee of the first [match] or [if] in the goal. *)
Ltac case_goal :=
  match goal with
  | |- context [match ?x with _ => _ end] =>
      let E := fresh "E" in destruct x eqn:E
  end.

Ltac simpl_result :=
  repeat match goal with
  | H : Ok _ = Ok _ |- _ => injection H as H
  | H : Err _ = Err _ |- _ => injection H as H
  | H : Ok _ = Err _ |- _ => discriminate H
  | H : Err _ = Ok _ |- _ => discriminate H
  | H : rbind _ _ = Ok _ |- _ =>
      apply rbind_Ok in H; destruct H as (? & ? & ?)
  end; subst.

(** ** Shared lemmas on strings *)

(** stdpp declares [String.append] [simpl never]; these two equations
    are the computation rules that proofs rewrite with. *)
Lemma string_app_nil_l (b : string) : "" +:+ b = b.
Proof. reflexivity. Qed.

Lemma string_app_cons x (a b : string) : String x a +:+ b = String x (a +:+ b).
Proof. reflexivity. Qed.

#[export] Hint Rewrite string_app_nil_l string_app_cons : cwhy_rw.

Lemma string_app_assoc (a b c : string) :
  (a +:+ b) +:+ c = a +:+ (b +:+ c).
Proof. induction a as [|x a IH]; autorewrite with cwhy_rw; congruence. Qed.

Lemma string_app_nil_r (a : string) : a +:+ "" = a.
Proof. induction a as [|x a IH]; autorewrite with cwhy_rw; congruence. Qed.

#[export] Hint Rewrite string_app_assoc string_app_nil_r : cwhy_rw.
