(* ===== verification/PyBuiltins.v ===== *)
(** * PyBuiltins: the Python builtins that src/cwhy/__main__.py relies on

    Values of the argparse namespace ([pyval]) with [str()] and
    truthiness, dicts as insertion-ordered association lists (the
    [vars(args)] dict of line 77, read by [args["wrapper"]] and friends),
    [int()] on strings (the [type=int] of lines 39 and 45), and the string
    methods argparse applies to option strings ([startswith], [split('=',
    1)], [in]).  Characters are ASCII; [int()] follows CPython 3.11's
    [PyLong_FromString] for base 10. *)

From S2P Require Import Prelude.
From Stdlib Require Import DecimalString DecimalN.

(** ** Values *)

Inductive pyval : Type :=
| PyBool (b : bool)
| PyInt (z : Z)
| PyStr (s : string)
| PyList (l : list pyval)
| PyNone.

(** ** Characters *)

Definition is_digit (c : ascii) : bool :=
  let n := nat_of_ascii c in (48 <=? n)%nat && (n <=? 57)%nat.

(** [Py_UNICODE_ISSPACE] restricted to ASCII: \t \n \v \f \r, the
    separators \x1c-\x1f and the space. *)
Definition is_py_space (c : ascii) : bool :=
  let n := nat_of_ascii c in
  ((9 <=? n)%nat && (n <=? 13)%nat) || ((28 <=? n)%nat && (n <=? 32)%nat).

Definition char_eqb (c d : ascii) : bool := bool_decide (c = d).

Lemma char_eqb_sym c d : char_eqb c d = char_eqb d c.
Proof. unfold char_eqb. apply bool_decide_ext. split; congruence. Qed.

(** Evaluate the character comparisons between literals in the goal. *)
Ltac simpl_chars :=
  repeat match goal with
  | |- context [char_eqb ?a ?b] =>
      is_ground a; is_ground b;
      let v := eval vm_compute in (char_eqb a b) in change (char_eqb a b) with v
  end; cbn iota beta.

(** ** String methods *)

(** [s.startswith(p)] *)
Definition startswith (s p : string) : bool := String.prefix p s.

(** [c in s] for a one-character [c] *)
Fixpoint str_has (c : ascii) (s : string) : bool :=
  match s with
  | "" => false
  | String d r => char_eqb c d || str_has c r
  end.

(** [s.split(c, 1)] when [c in s]: the text before the first [c] and the
    text after it. *)
Fixpoint split_once (c : ascii) (s : string) : option (string * string) :=
  match s with
  | "" => None
  | String d r =>
      if char_eqb c d then Some ("", r)
      else match split_once c r with
           | Some (a, b) => Some (String d a, b)
           | None => None
           end
  end.

Fixpoint str_forall (f : ascii -> bool) (s : string) : bool :=
  match s with
  | "" => true
  | String c r => f c && str_forall f r
  end.

(** [s.lstrip()] *)
Fixpoint lstrip (s : string) : string :=
  match s with
  | String c r => if is_py_space c then lstrip r else s
  | "" => ""
  end.

(** ** [str()] of an int *)

Definition digits_of_N (n : N) : string := NilEmpty.string_of_uint (N.to_uint n).

Definition py_str_int (z : Z) : string :=
  match z with
  | Zneg p => String "-" (digits_of_N (Npos p))
  | _ => digits_of_N (Z.to_N z)
  end.

(** [", ".join(l)] *)
Fixpoint join_comma (l : list string) : string :=
  match l with
  | [] => ""
  | [s] => s
  | s :: r => s +:+ ", " +:+ join_comma r
  end.

(** [repr()] of a str ([unicode_repr]), a character being a code point
    below 256: the quote is the single quote unless the text has a
    single quote and no double quote;
    the quote and the backslash are escaped, tab, newline and carriage
    return are written [\t], [\n], [\r], the other characters that are
    not printable (the C0 and C1 controls, DEL, the no-break space and
    the soft hyphen) as [\xhh]; the others stand for themselves. *)
Definition hex_digit (n : nat) : ascii :=
  ascii_of_nat (if (n <? 10)%nat then 48 + n else 87 + n).

Definition repr_char (q c : ascii) : string :=
  let n := nat_of_ascii c in
  if char_eqb c q || char_eqb c "\" then String "\" (String c "")
  else if (n =? 9)%nat then "\t"
  else if (n =? 10)%nat then "\n"
  else if (n =? 13)%nat then "\r"
  else if (n <? 32)%nat || (n =? 127)%nat || ((128 <=? n)%nat && (n <=? 160)%nat) || (n =? 173)%nat
  then String "\" (String "x" (String (hex_digit (n / 16)) (String (hex_digit (n mod 16)) "")))
  else String c "".

Fixpoint repr_chars (q : ascii) (s : string) : string :=
  match s with
  | "" => ""
  | String c r => repr_char q c +:+ repr_chars q r
  end.

Definition py_str_repr (s : string) : string :=
  let q := if str_has "'" s && negb (str_has "034" s) then "034"%char else "'"%char in
  String q (repr_chars q s +:+ String q "").

(** [repr()] *)
Fixpoint py_repr (v : pyval) : string :=
  match v with
  | PyBool true => "True"
  | PyBool false => "False"
  | PyInt z => py_str_int z
  | PyStr s => py_str_repr s
  | PyList l => "[" +:+ join_comma (map py_repr l) +:+ "]"
  | PyNone => "None"
  end.

(** [str()] *)
Definition py_str (v : pyval) : string :=
  match v with
  | PyStr s => s
  | _ => py_repr v
  end.

(** [bool(v)] *)
Definition py_truthy (v : pyval) : bool :=
  match v with
  | PyBool b => b
  | PyInt z => negb (Z.eqb z 0)
  | PyStr s => negb (String.eqb s "")
  | PyList l => negb (bool_decide (l = []))
  | PyNone => false
  end.

(** ** [int()] on a string, base 10 *)

(** The digit run of [PyLong_FromString]: digits with single underscores
    between them.  [us] says the previous character was an underscore.
    Returns the digits without underscores and the text after the run;
    [None] for a doubled or trailing underscore. *)
Fixpoint scan_decimal (us : bool) (s : string) : option (string * string) :=
  match s with
  | String c r =>
      if is_digit c then
        match scan_decimal false r with
        | Some (ds, rest) => Some (String c ds, rest)
        | None => None
        end
      else if char_eqb c "_" then
        if us then None else scan_decimal true r
      else if us then None else Some ("", s)
  | "" => if us then None else Some ("", "")
  end.

(** The sign after the leading white space. *)
Definition split_sign (s : string) : Z * string :=
  match s with
  | String c r =>
      if char_eqb c "-" then ((-1)%Z, r)
      else if char_eqb c "+" then (1%Z, r)
      else (1%Z, s)
  | "" => (1%Z, "")
  end.

Definition py_int (s : string) : option Z :=
  let '(sign, body) := split_sign (lstrip s) in
  match body with
  | String c _ =>
      if char_eqb c "_" then None
      else match scan_decimal false body with
           | Some (String d ds, rest) =>
               if str_forall is_py_space rest then
                 match NilEmpty.uint_of_string (String d ds) with
                 | Some u => Some (sign * Z.of_N (N.of_uint u))%Z
                 | None => None
                 end
               else None
           | _ => None
           end
  | "" => None
  end.

(** ** Dicts *)

(** A Python dict with string keys, in insertion order. *)
Definition dict := list (string * pyval).

(** [d[k]] (None stands for the KeyError) *)
Fixpoint dict_get (d : dict) (k : string) : option pyval :=
  match d with
  | [] => None
  | (k', v) :: r => if String.eqb k k' then Some v else dict_get r k
  end.

(** [d[k] = v]: an existing key keeps its place, a new key goes last. *)
Fixpoint dict_set (d : dict) (k : string) (v : pyval) : dict :=
  match d with
  | [] => [(k, v)]
  | (k', v') :: r =>
      if String.eqb k k' then (k, v) :: r else (k', v') :: dict_set r k v
  end.

(** [setdefault]-style initialisation: set only when the key is absent. *)
Definition dict_setdefault (d : dict) (k : string) (v : pyval) : dict :=
  match dict_get d k with
  | Some _ => d
  | None => dict_set d k v
  end.

(** Python's [==] on dicts: the same keys with the same values, in any
    insertion order. *)
Definition dict_equiv (d1 d2 : dict) : Prop := forall k, dict_get d1 k = dict_get d2 k.

(** The reference reading of a decimal numeral: the value of its
    digits, most significant first (Horner's rule), [int()]'s result
    as the Python language reference describes it for base 10. *)
Definition digit_value (c : ascii) : N := N.of_nat (nat_of_ascii c - 48).

Fixpoint decimal_value_acc (acc : N) (s : string) : N :=
  match s with
  | "" => acc
  | String c r => decimal_value_acc (10 * acc + digit_value c) r
  end.

Definition decimal_value (s : string) : N := decimal_value_acc 0 s.

(** ** Lemmas *)

Lemma scan_decimal_uint (u : Decimal.uint) :
  scan_decimal false (NilEmpty.string_of_uint u) = Some (NilEmpty.string_of_uint u, "").
Proof. induction u; simpl; try rewrite IHu; reflexivity. Qed.

Lemma to_uint_not_nil (n : N) : N.to_uint n <> Decimal.Nil.
Proof.
  intros H. pose proof (Unsigned.of_to n) as E. rewrite H in E.
  simpl in E. subst n. discriminate H.
Qed.

Lemma digit_not_special (d : ascii) :
  is_digit d = true ->
  is_py_space d = false /\ char_eqb d "-" = false /\ char_eqb d "+" = false /\
  char_eqb d "_" = false.
Proof. destruct d as [[] [] [] [] [] [] [] []]; vm_compute; intuition congruence. Qed.

Lemma string_of_uint_head (u : Decimal.uint) :
  u <> Decimal.Nil ->
  exists d r, NilEmpty.string_of_uint u = String d r /\ is_digit d = true.
Proof. destruct u; [congruence | ..]; intros _; eexists _, _; split; reflexivity. Qed.

Lemma py_int_unsigned (u : Decimal.uint) :
  u <> Decimal.Nil ->
  py_int (NilEmpty.string_of_uint u) = Some (Z.of_N (N.of_uint u)) /\
  py_int (String "-" (NilEmpty.string_of_uint u)) = Some (- Z.of_N (N.of_uint u))%Z.
Proof.
  intros Hu. pose proof (NilEmpty.usu u) as Hus. pose proof (scan_decimal_uint u) as Hs.
  destruct (string_of_uint_head u Hu) as (d & r & Hdr & Hd).
  destruct (digit_not_special d Hd) as (Hsp & Hm & Hp & Hus').
  rewrite Hdr in Hus, Hs |- *. unfold py_int. split.
  - cbn [lstrip]. rewrite Hsp. cbn [split_sign]. rewrite Hm, Hp. cbn match.
    rewrite Hus', Hs. cbn [str_forall]. cbn match. rewrite Hus.
    destruct (N.of_uint u); reflexivity.
  - cbn [lstrip]. replace (is_py_space "-") with false by reflexivity.
    cbn [split_sign]. replace (char_eqb "-" "-") with true by reflexivity. cbn match.
    rewrite Hus', Hs. cbn [str_forall]. cbn match. rewrite Hus.
    destruct (N.of_uint u); reflexivity.
Qed.

(** The library's digit reading agrees with Horner's rule. *)
Lemma decimal_value_acc_pos u acc :
  decimal_value_acc (Npos acc) (NilEmpty.string_of_uint u) = Npos (Pos.of_uint_acc u acc).
Proof.
  revert acc. induction u; intros acc;
    cbn [NilEmpty.string_of_uint decimal_value_acc Pos.of_uint_acc]; [done | ..];
    rewrite <- IHu; f_equal; unfold digit_value; simpl; lia.
Qed.

Lemma decimal_value_uint u : decimal_value (NilEmpty.string_of_uint u) = N.of_uint u.
Proof.
  unfold decimal_value. induction u; cbn [NilEmpty.string_of_uint decimal_value_acc]; [done | ..];
    [exact IHu | ..]; apply decimal_value_acc_pos.
Qed.

Lemma uint_of_digits ds : str_forall is_digit ds = true -> exists u, NilEmpty.uint_of_string ds = Some u.
Proof.
  induction ds as [|a ds IH]; [by eexists |]. cbn [str_forall]. intros (Ha & Hds)%andb_prop.
  destruct (IH Hds) as [u Hu]. cbn [NilEmpty.uint_of_string]. rewrite Hu.
  destruct a as [[] [] [] [] [] [] [] []]; vm_compute in Ha; try discriminate Ha; by eexists.
Qed.

Lemma space_not_digit c : is_py_space c = true -> is_digit c = false /\ char_eqb c "_" = false /\
  char_eqb c "-" = false /\ char_eqb c "+" = false.
Proof. destruct c as [[] [] [] [] [] [] [] []]; vm_compute; intuition congruence. Qed.

Lemma lstrip_spaces ws x : str_forall is_py_space ws = true -> lstrip (ws +:+ x) = lstrip x.
Proof.
  induction ws as [|c ws IH]; [by rewrite string_app_nil_l |].
  cbn [str_forall]. intros (Hc & Hws)%andb_prop. rewrite string_app_cons. cbn [lstrip].
  rewrite Hc. auto.
Qed.

Lemma scan_decimal_digits ds ws :
  str_forall is_digit ds = true -> str_forall is_py_space ws = true ->
  scan_decimal false (ds +:+ ws) = Some (ds, ws).
Proof.
  intros Hds Hws. induction ds as [|d ds IH].
  - rewrite string_app_nil_l. destruct ws as [|c ws]; [done |].
    cbn [str_forall] in Hws. apply andb_prop in Hws as [Hc _].
    destruct (space_not_digit c Hc) as (Hd & Hu & _). cbn. by rewrite Hd, Hu.
  - cbn [str_forall] in Hds. apply andb_prop in Hds as [Hd Hds].
    rewrite string_app_cons. cbn [scan_decimal]. rewrite Hd, IH; done.
Qed.

(** [int()] of a decimal numeral: [int(s)] of white space, an optional
    sign, a non-empty run of ASCII digits and white space is the
    reference value of the digits, negated after a minus sign. *)
Theorem py_int_decimal (ws1 sg ds ws2 : string) :
  str_forall is_py_space ws1 = true -> In sg [""; "+"; "-"] ->
  str_forall is_digit ds = true -> ds <> "" -> str_forall is_py_space ws2 = true ->
  py_int (ws1 +:+ sg +:+ ds +:+ ws2) =
    Some ((if String.eqb sg "-" then -1 else 1) * Z.of_N (decimal_value ds))%Z.
Proof.
  intros H1 Hsg Hds Hne H2.
  destruct (uint_of_digits ds Hds) as [u Hu].
  rewrite <- (NilEmpty.sus _ _ Hu) at 2. rewrite decimal_value_uint.
  pose proof (scan_decimal_digits ds ws2 Hds H2) as Hsc.
  destruct ds as [|d r]; [done |]. cbn [str_forall] in Hds. apply andb_prop in Hds as [Hd _].
  destruct (digit_not_special d Hd) as (Hsp & Hm & Hp & Hus).
  rewrite string_app_cons in Hsc |- *. unfold py_int. rewrite lstrip_spaces by exact H1.
  assert (Hs : is_py_space "+" = false /\ is_py_space "-" = false) by done.
  assert (Hc : char_eqb "+" "-" = false /\ char_eqb "+" "+" = true /\ char_eqb "-" "-" = true)
    by done.
  destruct Hs as [Hs1 Hs2]. destruct Hc as (Hc1 & Hc2 & Hc3).
  destruct Hsg as [<- | [<- | [<- | []]]];
    rewrite ?string_app_nil_l, ?string_app_cons, ?string_app_nil_l; cbn [lstrip];
    rewrite ?Hsp, ?Hs1, ?Hs2; unfold split_sign; rewrite ?Hm, ?Hp, ?Hc1, ?Hc2, ?Hc3;
    cbv iota beta; rewrite Hus, Hsc, H2, Hu; reflexivity.
Qed.

(** [int(str(z)) == z]: printing an int and reading it back with the
    [type=int] converter of argparse gives the same int. *)
Theorem py_int_py_str_int (z : Z) : py_int (py_str_int z) = Some z.
Proof.
  destruct z as [|p|p]; unfold py_str_int, digits_of_N.
  - reflexivity.
  - destruct (py_int_unsigned (N.to_uint (Z.to_N (Z.pos p))) (to_uint_not_nil _)) as [H _].
    rewrite H, Unsigned.of_to. reflexivity.
  - destruct (py_int_unsigned (N.to_uint (N.pos p)) (to_uint_not_nil _)) as [_ H].
    rewrite H, Unsigned.of_to. reflexivity.
Qed.

Lemma char_eqb_true c d : char_eqb c d = true <-> c = d.
Proof. unfold char_eqb. apply bool_decide_eq_true. Qed.

Lemma char_eqb_same c : char_eqb c c = true.
Proof. by apply char_eqb_true. Qed.

(** [s.split(c, 1)] of a text whose first [c] follows [p]. *)
Lemma split_once_app c p r : str_has c p = false -> split_once c (p +:+ String c r) = Some (p, r).
Proof.
  induction p as [|d p IH]; simpl; [by rewrite char_eqb_same |].
  rewrite char_eqb_sym. intros [Hd Hp]%orb_false_iff. rewrite Hd, IH; done.
Qed.

Lemma dict_get_set_eq (d : dict) k v : dict_get (dict_set d k v) k = Some v.
Proof.
  induction d as [|[k' v'] r IH]; simpl.
  - by rewrite String.eqb_refl.
  - destruct (String.eqb k k') eqn:E; simpl; [by rewrite String.eqb_refl | by rewrite E].
Qed.

Lemma dict_get_set_ne (d : dict) k k' v :
  k <> k' -> dict_get (dict_set d k v) k' = dict_get d k'.
Proof.
  intros Hne. induction d as [|[k1 v1] r IH]; simpl.
  - apply String.eqb_neq in Hne. rewrite String.eqb_sym, Hne. done.
  - destruct (String.eqb k k1) eqn:E; simpl.
    + apply String.eqb_eq in E as ->.
      by replace (String.eqb k' k1) with false by (symmetry; apply String.eqb_neq; congruence).
    + by rewrite IH.
Qed.

(** Setting a key that is present keeps the keys and their order. *)
Lemma dict_set_keys (d : dict) k v :
  is_Some (dict_get d k) -> map fst (dict_set d k v) = map fst d.
Proof.
  induction d as [|[k1 v1] r IH]; simpl; intros Hk; [by destruct Hk |].
  destruct (String.eqb k k1) eqn:E; simpl.
  - by apply String.eqb_eq in E as ->.
  - by rewrite IH.
Qed.

Lemma dict_set_set (d : dict) k v1 v2 : dict_set (dict_set d k v1) k v2 = dict_set d k v2.
Proof.
  induction d as [|[k' v'] r IH]; simpl.
  - by rewrite String.eqb_refl.
  - destruct (String.eqb k k') eqn:E; simpl; [by rewrite String.eqb_refl | by rewrite E, IH].
Qed.

#[export] Hint Rewrite dict_get_set_eq dict_set_set : cwhy_rw.

(** *** [dict_equiv] is a setoid, respected by reads and writes *)

#[export] Instance dict_equiv_equivalence : Equivalence dict_equiv.
Proof.
  split; [intros d k; done | intros d1 d2 H k; by rewrite H | intros d1 d2 d3 H1 H2 k; by rewrite H1, H2].
Qed.

#[export] Instance dict_get_proper : Proper (dict_equiv ==> eq ==> eq) dict_get.
Proof. intros d1 d2 H k ? <-. apply H. Qed.

#[export] Instance dict_set_proper : Proper (dict_equiv ==> eq ==> eq ==> dict_equiv) dict_set.
Proof.
  intros d1 d2 H k ? <- v ? <- k'. destruct (String.eqb k k') eqn:E.
  - apply String.eqb_eq in E as ->. by rewrite !dict_get_set_eq.
  - apply String.eqb_neq in E. by rewrite !dict_get_set_ne.
Qed.

(** Writing two different keys in either order gives equal dicts. *)
Lemma dict_set_comm d k1 v1 k2 v2 :
  k1 <> k2 -> dict_equiv (dict_set (dict_set d k1 v1) k2 v2) (dict_set (dict_set d k2 v2) k1 v1).
Proof.
  intros Hne k. destruct (String.eqb k1 k) eqn:E1; [apply String.eqb_eq in E1 as <- |].
  - rewrite dict_get_set_ne, !dict_get_set_eq by done. done.
  - apply String.eqb_neq in E1. rewrite (dict_get_set_ne _ k1 k) by done.
    destruct (String.eqb k2 k) eqn:E2; [apply String.eqb_eq in E2 as <- |].
    + by rewrite !dict_get_set_eq.
    + apply String.eqb_neq in E2. by rewrite !dict_get_set_ne.
Qed.
#[export] Hint Resolve dict_get_set_ne : cwhy.
