(* ===== verification/Argparse.v ===== *)
(** * Argparse: CPython 3.11's argparse, as [main()] uses it

    The parser object ([parser], [action]) as [ArgumentParser],
    [add_argument], [add_subparsers] and [set_defaults] build it, and the
    parsing algorithm of [parse_args]: [_parse_optional] and
    [_get_option_tuples] (classification of each argument as an option
    'O', a positional 'A' or the separator '-', with unique-prefix
    abbreviations), [consume_optional], [consume_positionals] with the
    sub-parsers action, [take_action] and [parse_known_args].  The loop
    runs with fuel; the lemmas here show what each step consumes and
    that no step exhausts the fuel, and [Cli] instantiates all of it with
    the parser of src/cwhy/__main__.py. *)

From S2P Require Import Prelude PyBuiltins.
From Stdlib Require Import DecimalString.

Module Argparse.
(** ** The parser object *)

(** The [type=] converter of a stored option. *)
Inductive conv : Type := ConvStr | ConvInt.

(** An [ArgumentParser] (its [prog], its [_actions] in order and its
    [_defaults]), an [Action] (option strings, [dest] and [default],
    [None] standing for [SUPPRESS]) and the action classes used by
    cwhy: [_HelpAction], [_StoreTrueAction], [_StoreAction] and
    [_SubParsersAction] with its name-to-parser map. *)
Inductive parser : Type :=
| Parser (prog : string) (actions : list action) (defaults : dict)
with action : Type :=
| Action (option_strings : list string) (dest : option string)
         (default : option pyval) (kind : kind)
with kind : Type :=
| KHelp
| KStoreTrue
| KStore (c : conv)
| KParsers (choices : list (string * parser)).

Definition p_prog (p : parser) : string := let 'Parser s _ _ := p in s.
Definition p_actions (p : parser) : list action := let 'Parser _ a _ := p in a.
Definition p_defaults (p : parser) : dict := let 'Parser _ _ d := p in d.
Definition a_strings (a : action) : list string := let 'Action s _ _ _ := a in s.
Definition a_dest (a : action) : option string := let 'Action _ d _ _ := a in d.
Definition a_default (a : action) : option pyval := let 'Action _ _ v _ := a in v.
Definition a_kind (a : action) : kind := let 'Action _ _ _ k := a in k.

(** [dest] of an optional ([_get_optional_kwargs]): the first long option
    string (else the first one), without its leading dashes, with the
    inner dashes replaced by underscores. *)
Fixpoint lstrip_dashes (s : string) : string :=
  match s with
  | String c r => if char_eqb c "-" then lstrip_dashes r else s
  | "" => ""
  end.

Fixpoint dashes_to_underscores (s : string) : string :=
  match s with
  | String c r =>
      String (if char_eqb c "-" then "_"%char else c) (dashes_to_underscores r)
  | "" => ""
  end.

Definition is_long_option (s : string) : bool :=
  match s with
  | String c (String d _) => char_eqb c "-" && char_eqb d "-"
  | _ => false
  end.

Definition derive_dest (strings : list string) : string :=
  let chosen :=
    match filter (fun s => is_long_option s = true) strings with
    | s :: _ => s
    | [] => default "" (head strings)
    end in
  dashes_to_underscores (lstrip_dashes chosen).

(** [ArgumentParser(prog=...)]: [add_help=True] adds [-h/--help]. *)
Definition help_action : action := Action ["-h"; "--help"] None None KHelp.

Definition new_parser (prog : string) : parser := Parser prog [help_action] [].

(** One [add_argument] call: option strings, action class, default. *)
Record arg_spec : Type := ArgSpec {
  spec_strings : list string;
  spec_kind : kind;
  spec_default : pyval
}.

Definition add_argument (p : parser) (a : arg_spec) : parser :=
  Parser (p_prog p)
    (p_actions p ++ [Action (spec_strings a) (Some (derive_dest (spec_strings a)))
                            (Some (spec_default a)) (spec_kind a)])
    (p_defaults p).

(** [add_subparsers(title=..., dest=...)] followed by the [add_parser]
    calls: the sub-parsers action is a positional with default [None];
    [add_parser] mutates it in place before the parser is used, so its
    final choices are given at once. *)
Definition add_subparsers (p : parser) (dest : string)
    (choices : list (string * parser)) : parser :=
  Parser (p_prog p)
    (p_actions p ++ [Action [] (Some dest) (Some PyNone) (KParsers choices)])
    (p_defaults p).

(** [set_defaults(k=v)]: the parser default, and the default of every
    action whose dest is [k]. *)
Definition set_defaults (p : parser) (k : string) (v : pyval) : parser :=
  Parser (p_prog p)
    (map (fun a => if decide (a_dest a = Some k)
                   then Action (a_strings a) (a_dest a) (Some v) (a_kind a) else a)
         (p_actions p))
    (dict_set (p_defaults p) k v).

(** ** Outcomes and errors *)

Inductive cli_error : Type :=
| ErrAmbiguous (arg : string) (matches : list string)
| ErrExpectedOne (a : action)
| ErrIgnoredExplicit (a : action) (explicit : string)
| ErrInvalidInt (a : action) (value : string)
| ErrInvalidChoice (value : string) (choices : list string)
| ErrUnrecognized (args : list string)
| ErrFuel.

(** Why parsing stops early: the help action ([print_help(); exit(0)])
    or an [ArgumentError] ([error(...)]: usage on stderr, exit 2). *)
Inductive stop : Type :=
| SHelp (prog : string)
| SErr (e : cli_error).

(** ** Classification of the argument strings *)

(** [_option_string_actions]: every option string with its action, in
    the order the actions were added. *)
Definition option_table (p : parser) : list (string * action) :=
  flat_map (fun a => map (fun s => (s, a)) (a_strings a)) (p_actions p).

Fixpoint table_lookup (t : list (string * action)) (s : string) : option action :=
  match t with
  | [] => None
  | (s', a) :: r => if String.eqb s s' then Some a else table_lookup r s
  end.

(** The positional actions (no option strings), in order. *)
Definition positionals (p : parser) : list action :=
  filter (fun a => a_strings a = []) (p_actions p).

(** An option tuple [(action, option_string, explicit_arg)]; the action
    is [None] for an unknown option. *)
Inductive opt_tuple : Type :=
| OptTuple (a : option action) (option_string : string) (explicit : option string).

Definition tuple_string (t : opt_tuple) : string := let 'OptTuple _ s _ := t in s.

(** The pattern character of an argument: 'O', 'A' or '-'. *)
Inductive cls : Type :=
| COpt (t : opt_tuple)
| CPos
| CSep.

(** [_negative_number_matcher]: [re.match('^-\d+$|^-\d*\.\d+$', s)],
    where [$] matches at the end or before a final newline. *)
Definition at_end (s : string) : bool :=
  String.eqb s "" || String.eqb s (String "010"%char "").

(** [\d*$] after at least one digit *)
Fixpoint digits_end (s : string) : bool :=
  at_end s ||
  match s with
  | String c r => is_digit c && digits_end r
  | "" => false
  end.

(** [\d+$] *)
Definition int_part (s : string) : bool :=
  match s with
  | String c r => is_digit c && digits_end r
  | "" => false
  end.

(** [\d*\.\d+$] *)
Fixpoint frac_part (s : string) : bool :=
  match s with
  | String c r =>
      if is_digit c then frac_part r
      else char_eqb c "." && int_part r
  | "" => false
  end.

Definition is_negative_number (s : string) : bool :=
  match s with
  | String c body => char_eqb c "-" && (int_part body || frac_part body)
  | "" => false
  end.

(** [_has_negative_number_optionals] *)
Definition has_neg_optionals (p : parser) : bool :=
  existsb (fun e => is_negative_number (fst e)) (option_table p).

(** [_get_option_tuples] (allow_abbrev=True, prefix_chars='-'): with
    two leading dashes, every option string that starts with the text
    before a '='; with one dash, the option equal to the first two
    characters (the rest being its argument) or starting with the whole
    string.  [parse_optional] only calls it on strings of at least two
    characters that start with '-', so the error branch of the source
    ([unexpected option string]) is unreachable and gives no tuple. *)
Definition get_option_tuples (p : parser) (arg : string) : list opt_tuple :=
  match arg with
  | String c0 (String c1 rest) =>
      if char_eqb c0 "-" && char_eqb c1 "-" then
        let '(prefix, explicit) :=
          match split_once "=" arg with
          | Some (a, b) => (a, Some b)
          | None => (arg, None)
          end in
        map (fun e => OptTuple (Some (snd e)) (fst e) explicit)
            (filter (fun e => startswith (fst e) prefix = true) (option_table p))
      else if char_eqb c0 "-" then
        let short := String c0 (String c1 "") in
        flat_map (fun e =>
                    if String.eqb (fst e) short then [OptTuple (Some (snd e)) (fst e) (Some rest)]
                    else if startswith (fst e) arg then [OptTuple (Some (snd e)) (fst e) None]
                    else [])
                 (option_table p)
      else []
  | _ => []
  end.

(** [_parse_optional]: [None] for a positional, an option tuple for an
    option (known or not); an ambiguous abbreviation is an error. *)
Definition parse_optional (p : parser) (arg : string) : result stop (option opt_tuple) :=
  match arg with
  | "" => Ok None
  | String c rest =>
      if negb (char_eqb c "-") then Ok None else
      match table_lookup (option_table p) arg with
      | Some a => Ok (Some (OptTuple (Some a) arg None))
      | None =>
          if String.eqb rest "" then Ok None else
          let by_eq :=
            match split_once "=" arg with
            | Some (os, e) =>
                match table_lookup (option_table p) os with
                | Some a => Some (OptTuple (Some a) os (Some e))
                | None => None
                end
            | None => None
            end in
          match by_eq with
          | Some t => Ok (Some t)
          | None =>
              match get_option_tuples p arg with
              | [t] => Ok (Some t)
              | [] =>
                  if is_negative_number arg && negb (has_neg_optionals p) then Ok None
                  else if str_has " " arg then Ok None
                  else Ok (Some (OptTuple None arg None))
              | ts => Err (SErr (ErrAmbiguous arg (map tuple_string ts)))
              end
          end
      end
  end.

(** The pattern string of [_parse_known_args]: after the first ["--"],
    everything is a positional. *)
Fixpoint classify (p : parser) (args : list string) : result stop (list (cls * string)) :=
  match args with
  | [] => Ok []
  | s :: r =>
      if String.eqb s "--" then Ok ((CSep, s) :: map (fun x => (CPos, x)) r)
      else
        let* o := parse_optional p s in
        let* cr := classify p r in
        Ok ((match o with Some t => COpt t | None => CPos end, s) :: cr)
  end.

(** ** Consuming an option and its arguments *)

Fixpoint count_seps (cs : list cls) : nat :=
  match cs with
  | CSep :: r => S (count_seps r)
  | _ => O
  end.

(** The argument of a stored option: [_get_nargs_pattern] gives the
    pattern "-* A -*" (without the spaces) for [nargs=None] and, the
    action being an optional, removes its "-*" parts, leaving "A": the
    option takes exactly the next string, which must be a positional; a
    ['--'] before or after it is not consumed. *)
Definition match_one (cs : list cls) : option nat :=
  match cs with
  | CPos :: _ => Some 1
  | _ => None
  end.

Definition nargs_zero (k : kind) : bool :=
  match k with
  | KHelp | KStoreTrue => true
  | _ => false
  end.

(** [_match_argument] for an optional. *)
Definition match_argument (a : action) (cs : list cls) : option nat :=
  if nargs_zero (a_kind a) then Some O else match_one cs.

(** [consume_optional] without an explicit argument: the arguments are
    taken from the following strings. *)
Definition consume_none (a : action) (acc : list (action * list string))
    (cs : list cls) (ss : list string) : result stop (list (action * list string) * nat) :=
  match match_argument a cs with
  | Some n => Ok (acc ++ [(a, take n ss)], n)
  | None => Err (SErr (ErrExpectedOne a))
  end.

(** [consume_optional] with an explicit argument ([--opt=value], or the
    rest of a single-dash string such as [-hx]): a flag followed by more
    characters chains to the single-dash option they name. *)
Fixpoint consume_explicit (p : parser) (a : action) (os : string) (e : string)
    (acc : list (action * list string)) (cs : list cls) (ss : list string)
    {struct e} : result stop (list (action * list string) * nat) :=
  if nargs_zero (a_kind a) then
    match e with
    | String c e' =>
        if is_long_option os then Err (SErr (ErrIgnoredExplicit a e)) else
        let os' := String "-" (String c "") in
        match table_lookup (option_table p) os' with
        | Some a' =>
            if String.eqb e' "" then consume_none a' (acc ++ [(a, [])]) cs ss
            else consume_explicit p a' os' e' (acc ++ [(a, [])]) cs ss
        | None => Err (SErr (ErrIgnoredExplicit a e))
        end
    | "" => Err (SErr (ErrIgnoredExplicit a e))
    end
  else Ok (acc ++ [(a, [e])], O).

(** ** Taking an action *)

(** [list.remove('--')]: the first occurrence only. *)
Fixpoint remove_first (x : string) (l : list string) : list string :=
  match l with
  | [] => []
  | y :: r => if String.eqb x y then r else y :: remove_first x r
  end.

(** [_get_value]: the [type=] converter; [int()] failing is an error. *)
Definition convert (a : action) (c : conv) (s : string) : result stop pyval :=
  match c with
  | ConvStr => Ok (PyStr s)
  | ConvInt =>
      match py_int s with
      | Some z => Ok (PyInt z)
      | None => Err (SErr (ErrInvalidInt a s))
      end
  end.

Fixpoint convert_all (a : action) (c : conv) (l : list string) : result stop (list pyval) :=
  match l with
  | [] => Ok []
  | s :: r => let* v := convert a c s in let* vs := convert_all a c r in Ok (v :: vs)
  end.

(** [setattr(namespace, action.dest, value)] *)
Definition set_dest (a : action) (v : pyval) (ns : dict) : dict :=
  match a_dest a with
  | Some d => dict_set ns d v
  | None => ns
  end.

(** [take_action] with [_get_values]: one string is converted, any other
    count (after removing a ["--"]) gives a list. *)
Definition take_action (p : parser) (a : action) (args : list string) (ns : dict)
    : result stop dict :=
  match a_kind a with
  | KHelp => Err (SHelp (p_prog p))
  | KStoreTrue => Ok (set_dest a (PyBool true) ns)
  | KStore c =>
      match remove_first "--" args with
      | [s] => let* v := convert a c s in Ok (set_dest a v ns)
      | l => let* vs := convert_all a c l in Ok (set_dest a (PyList vs) ns)
      end
  | KParsers _ => Ok ns
  end.

Fixpoint take_actions (p : parser) (ts : list (action * list string)) (ns : dict)
    : result stop dict :=
  match ts with
  | [] => Ok ns
  | (a, args) :: r => let* ns' := take_action p a args ns in take_actions p r ns'
  end.

(** ** Positionals: the sub-command *)

Definition is_opt (x : cls * string) : bool :=
  match fst x with
  | COpt _ => true
  | _ => false
  end.

(** [re.match('-*A[-AO]*', pattern)]: from the first positional on, the
    sub-parsers action takes every remaining string. *)
Definition match_parser (cs : list cls) : bool :=
  match drop (count_seps cs) cs with
  | CPos :: _ => true
  | _ => false
  end.

Fixpoint assoc_lookup {A} (l : list (string * A)) (k : string) : option A :=
  match l with
  | [] => None
  | (k', v) :: r => if String.eqb k k' then Some v else assoc_lookup r k
  end.

(** [consume_positionals] for the parsers of cwhy, whose only positional
    is the sub-parsers action.  [recur] parses the remaining strings with
    the chosen sub-parser ([parse_known_args]).  Returns the namespace,
    the number of strings consumed, the sub-parser's unrecognized strings
    and the positionals left. *)
Definition consume_positionals
    (recur : parser -> list string -> result stop (dict * list string))
    (items : list (cls * string)) (ns : dict) (pend : list action)
    : result stop (dict * nat * list string * list action) :=
  match pend with
  | a :: pend' =>
      match a_kind a with
      | KParsers choices =>
          if match_parser (map fst items) then
            match map snd items with
            | v0 :: vs =>
                match assoc_lookup choices v0 with
                | Some sub =>
                    let ns1 := set_dest a (PyStr v0) ns in
                    let* '(subns, subx) := recur sub vs in
                    Ok (fold_left (fun n e => dict_set n (fst e) (snd e)) subns ns1,
                        length items, subx, pend')
                | None => Err (SErr (ErrInvalidChoice v0 (map fst choices)))
                end
            | [] => Ok (ns, O, [], pend)
            end
          else Ok (ns, O, [], pend)
      | _ => Ok (ns, O, [], pend)
      end
  | [] => Ok (ns, O, [], pend)
  end.

(** ** The parsing loop *)

(** The namespace defaults of [parse_known_args]: action defaults, then
    parser defaults, each only when the name is not set yet. *)
Definition init_defaults (p : parser) (ns : dict) : dict :=
  let ns := fold_left (fun n a =>
              match a_dest a, a_default a with
              | Some d, Some v => dict_setdefault n d v
              | _, _ => n
              end) (p_actions p) ns in
  fold_left (fun n e => dict_setdefault n (fst e) (snd e)) (p_defaults p) ns.

Fixpoint leading_non_opts (items : list (cls * string)) : list string :=
  match items with
  | x :: r => if is_opt x then [] else snd x :: leading_non_opts r
  | [] => []
  end.

(** The [while start_index <= max_option_string_index] loop of
    [_parse_known_args] and the final [consume_positionals], over the
    classified strings that remain. *)
Fixpoint parse_loop (fuel : nat) (p : parser) (items : list (cls * string)) (ns : dict)
    (extras : list string) (pend : list action) {struct fuel}
    : result stop (dict * list string) :=
  match fuel with
  | O => Err (SErr ErrFuel)
  | S fuel' =>
      let recur := fun sub args =>
        let* items' := classify sub args in
        parse_loop fuel' sub items' (init_defaults sub []) [] (positionals sub) in
      if negb (existsb is_opt items) then
        let* '(ns', k, subx, _) := consume_positionals recur items ns pend in
        Ok (ns', extras ++ map snd (drop k items) ++ subx)
      else
        match items with
        | (COpt (OptTuple None _ _), s) :: rest =>
            parse_loop fuel' p rest ns (extras ++ [s]) pend
        | (COpt (OptTuple (Some a) os e), _) :: rest =>
            let cs := map fst rest in
            let ss := map snd rest in
            let* '(ts, n) :=
              match e with
              | Some e => consume_explicit p a os e [] cs ss
              | None => consume_none a [] cs ss
              end in
            let* ns' := take_actions p ts ns in
            parse_loop fuel' p (drop n rest) ns' extras pend
        | _ =>
            let* '(ns', k, subx, pend') := consume_positionals recur items ns pend in
            if Nat.ltb O k then parse_loop fuel' p (drop k items) ns' (extras ++ subx) pend'
            else
              let pre := leading_non_opts items in
              parse_loop fuel' p (drop (length pre) items) ns (extras ++ pre) pend
        end
  end.

Definition parse_known_args (fuel : nat) (p : parser) (args : list string) (ns : dict)
    : result stop (dict * list string) :=
  let* items := classify p args in
  parse_loop fuel p items (init_defaults p ns) [] (positionals p).

(** What [parse_args()] does: a namespace, or the help printed (exit 0),
    or an error printed with the usage (exit 2). *)
Inductive outcome : Type :=
| Parsed (ns : dict)
| Help (prog : string)
| Failed (e : cli_error).

Definition parse_args (p : parser) (argv : list string) : outcome :=
  match parse_known_args (S (length argv)) p argv [] with
  | Ok (ns, []) => Parsed ns
  | Ok (_, extras) => Failed (ErrUnrecognized extras)
  | Err (SHelp prog) => Help prog
  | Err (SErr e) => Failed e
  end.

(** ** Lemmas: classification of argument strings *)

Lemma table_lookup_in (t : list (string * action)) s a :
  table_lookup t s = Some a -> In (s, a) t.
Proof.
  induction t as [|[s' a'] r IH]; simpl; [discriminate |].
  destruct (String.eqb s s') eqn:E; [apply String.eqb_eq in E as ->; intros [= ->]; by left |].
  intros H. right. by apply IH.
Qed.

Lemma split_once_spec c s a b :
  split_once c s = Some (a, b) -> s = a +:+ String c b.
Proof.
  revert a. induction s as [|d r IH]; intros a; simpl; [discriminate |].
  destruct (char_eqb c d) eqn:E.
  - intros [= <- <-]. unfold char_eqb in E. apply bool_decide_eq_true in E. by subst.
  - destruct (split_once c r) as [[a' b']|]; [| discriminate].
    intros [= <- ->]. rewrite string_app_cons. f_equal. by apply IH.
Qed.

(** A string that does not start with '-' is a positional. *)
Definition not_dash (s : string) : bool :=
  match s with
  | String c _ => negb (char_eqb c "-")
  | "" => true
  end.

Lemma parse_optional_not_dash p s : not_dash s = true -> parse_optional p s = Ok None.
Proof. destruct s as [|c r]; simpl; [done |]. intros H. unfold parse_optional. by rewrite H. Qed.

Lemma not_dash_not_sep s : not_dash s = true -> String.eqb s "--" = false.
Proof.
  intros H. apply String.eqb_neq. intros ->. discriminate H.
Qed.

Lemma classify_not_dash p l :
  Forall (fun s => not_dash s = true) l -> classify p l = Ok (map (fun s => (CPos, s)) l).
Proof.
  induction 1 as [|s l Hs Hl IH]; simpl; [done |].
  rewrite not_dash_not_sep, parse_optional_not_dash by done. simpl. by rewrite IH.
Qed.

(** The character after the '-' of a negative number is a digit or '.'. *)
Lemma negative_number_second s :
  is_negative_number s = true ->
  exists c r, s = String "-" (String c r) /\ (is_digit c || char_eqb c ".") = true.
Proof.
  destruct s as [|c0 [|c r]]; simpl; try discriminate.
  - by rewrite andb_false_r.
  - intros H. apply andb_prop in H as [H0 H].
    unfold char_eqb in H0. apply bool_decide_eq_true in H0 as ->.
    exists c, r. split; [done |].
    unfold int_part in H. simpl in H.
    destruct (is_digit c); [done |]. simpl in H. by destruct (char_eqb c ".").
Qed.

(** ** Lemmas: what each step may fail with, and how much it consumes *)

(** A step result that is not the fuel-exhaustion error. *)
Definition no_fuel {A} (r : result stop A) : Prop := r <> Err (SErr ErrFuel).

Lemma no_fuel_Ok {A} (a : A) : no_fuel (Ok a).
Proof. unfold no_fuel. discriminate. Qed.

Lemma no_fuel_bind {A B} (c : result stop A) (k : A -> result stop B) :
  no_fuel c -> (forall a, c = Ok a -> no_fuel (k a)) -> no_fuel (rbind c k).
Proof.
  intros H1 H2. destruct c; simpl; [by apply H2 |].
  intros [= ->]. by apply H1.
Qed.

#[export] Hint Resolve no_fuel_Ok : cwhy.

Ltac no_fuel_step :=
  repeat first
    [ solve [eauto with cwhy]
    | apply no_fuel_Ok
    | apply no_fuel_bind; [| intros ? ?]
    | case_goal
    | unfold no_fuel; discriminate ].

Lemma count_seps_le (cs : list cls) : count_seps cs <= length cs.
Proof. induction cs as [|[] r IH]; simpl; lia. Qed.

Lemma match_one_le (cs : list cls) n : match_one cs = Some n -> n <= length cs.
Proof. unfold match_one. destruct cs as [|[] r]; intros H; simplify_eq/=; lia. Qed.

Lemma consume_none_spec a acc cs ss ts n :
  consume_none a acc cs ss = Ok (ts, n) -> n <= length cs.
Proof.
  unfold consume_none, match_argument. case_goal; intros H; [| discriminate].
  injection H as _ <-. destruct (nargs_zero (a_kind a)); [injection E as <-; lia |].
  by apply match_one_le.
Qed.

Lemma consume_none_no_fuel a acc cs ss : no_fuel (consume_none a acc cs ss).
Proof. unfold consume_none. no_fuel_step. Qed.

Lemma consume_explicit_spec p a os e acc cs ss ts n :
  consume_explicit p a os e acc cs ss = Ok (ts, n) -> n <= length cs.
Proof.
  revert a os acc. induction e as [|c e IH]; intros a os acc; simpl.
  - destruct (nargs_zero (a_kind a)); [discriminate | intros [= _ <-]; lia].
  - destruct (nargs_zero (a_kind a)); [| intros [= _ <-]; lia].
    destruct (is_long_option os); [discriminate |].
    destruct (table_lookup _ _); [| discriminate].
    destruct (String.eqb e ""); [apply consume_none_spec | apply IH].
Qed.

Lemma consume_explicit_no_fuel p a os e acc cs ss :
  no_fuel (consume_explicit p a os e acc cs ss).
Proof.
  revert a os acc. induction e as [|c e IH]; intros a os acc; simpl;
    no_fuel_step; auto using consume_none_no_fuel.
Qed.

Lemma convert_no_fuel a c s : no_fuel (convert a c s).
Proof. unfold convert. no_fuel_step. Qed.

#[export] Hint Resolve convert_no_fuel : cwhy.

Lemma convert_all_no_fuel a c l : no_fuel (convert_all a c l).
Proof. induction l as [|s r IH]; simpl; no_fuel_step. Qed.

#[export] Hint Resolve convert_all_no_fuel : cwhy.

Lemma take_action_no_fuel p a args ns : no_fuel (take_action p a args ns).
Proof. unfold take_action. no_fuel_step. Qed.

#[export] Hint Resolve take_action_no_fuel : cwhy.

Lemma take_actions_no_fuel p ts ns : no_fuel (take_actions p ts ns).
Proof. revert ns. induction ts as [|[a args] r IH]; intros ns; simpl; no_fuel_step. Qed.

Lemma classify_no_fuel p args : no_fuel (classify p args).
Proof.
  induction args as [|s r IH]; simpl; no_fuel_step; auto.
  unfold parse_optional. no_fuel_step.
Qed.

Lemma classify_length p args items :
  classify p args = Ok items -> length items = length args.
Proof.
  revert items. induction args as [|s r IH]; simpl; intros items.
  - by intros [= <-].
  - destruct (String.eqb s "--"); [intros [= <-]; simpl; by rewrite length_map |].
    intros H. simpl_result. simpl. f_equal. by apply IH.
Qed.

Lemma consume_positionals_spec recur items ns pend ns' k subx pend' :
  consume_positionals recur items ns pend = Ok (ns', k, subx, pend') ->
  k = O \/ k = length items.
Proof.
  unfold consume_positionals.
  repeat (case_goal; try (intros [= _ <- _ _]; by left)).
  intros H. simpl_result. destruct x as [subns subx0]. simpl in *.
  injection H0 as _ <- _ _. by right.
Qed.

Lemma consume_positionals_no_fuel recur items ns pend :
  (forall sub vs, length vs < length items -> no_fuel (recur sub vs)) ->
  no_fuel (consume_positionals recur items ns pend).
Proof.
  intros Hrec. unfold consume_positionals. no_fuel_step.
  apply Hrec. pose proof (f_equal length E2) as L. rewrite length_map in L.
  simpl in L. lia.
Qed.

Lemma leading_non_opts_length items :
  existsb is_opt items = true ->
  (forall x r, items = x :: r -> is_opt x = false) ->
  0 < length (leading_non_opts items) <= length items.
Proof.
  intros Hex Hhd. destruct items as [|x r]; [discriminate |].
  specialize (Hhd x r eq_refl). simpl. rewrite Hhd. simpl.
  clear. induction r as [|y r IH]; simpl; [lia |].
  destruct (is_opt y); simpl; lia.
Qed.

(** ** Termination: the loop never runs out of fuel *)

(** With more fuel than strings left, [parse_loop] never exhausts it:
    every round consumes at least one string, and the sub-parser gets
    fewer strings than the round that calls it. *)
Lemma parse_loop_no_fuel fuel p items ns extras pend :
  length items < fuel -> no_fuel (parse_loop fuel p items ns extras pend).
Proof.
  revert p items ns extras pend.
  induction fuel as [|fuel IH]; intros p items ns extras pend Hlen; [lia |].
  simpl. set (recur := fun sub args => _).
  assert (Hrec : forall sub vs, length vs < length items -> no_fuel (recur sub vs)).
  { intros sub vs Hvs. subst recur. simpl. apply no_fuel_bind; [apply classify_no_fuel |].
    intros items' Hc. apply IH. apply classify_length in Hc. lia. }
  destruct (existsb is_opt items) eqn:Hex; simpl.
  2: { apply no_fuel_bind; [by apply consume_positionals_no_fuel |].
       intros [[[? ?] ?] ?] _. apply no_fuel_Ok. }
  destruct items as [|[c s] rest]; [discriminate |].
  destruct c as [[[a|] os [e|]]| |].
  - apply no_fuel_bind; [apply consume_explicit_no_fuel |]. intros [ts n] Hts.
    apply consume_explicit_spec in Hts. rewrite length_map in Hts.
    apply no_fuel_bind; [apply take_actions_no_fuel |]. intros ns' _.
    apply IH. rewrite length_drop. simpl in Hlen. lia.
  - apply no_fuel_bind; [apply consume_none_no_fuel |]. intros [ts n] Hts.
    apply consume_none_spec in Hts. rewrite length_map in Hts.
    apply no_fuel_bind; [apply take_actions_no_fuel |]. intros ns' _.
    apply IH. rewrite length_drop. simpl in Hlen. lia.
  - apply IH. simpl in Hlen. lia.
  - apply IH. simpl in Hlen. lia.
  - apply no_fuel_bind; [by apply consume_positionals_no_fuel |].
    intros [[[ns' k] subx] pend'] Hcp. apply consume_positionals_spec in Hcp.
    destruct (Nat.ltb_spec 0 k).
    + apply IH. rewrite length_drop. simpl in *. lia.
    + pose proof (leading_non_opts_length ((CPos, s) :: rest) Hex) as L.
      apply IH. rewrite length_drop. simpl in *.
      destruct L as [L1 L2]; [by intros ? ? [= <- _] |]. lia.
  - apply no_fuel_bind; [by apply consume_positionals_no_fuel |].
    intros [[[ns' k] subx] pend'] Hcp. apply consume_positionals_spec in Hcp.
    destruct (Nat.ltb_spec 0 k).
    + apply IH. rewrite length_drop. simpl in *. lia.
    + pose proof (leading_non_opts_length ((CSep, s) :: rest) Hex) as L.
      apply IH. rewrite length_drop. simpl in *.
      destruct L as [L1 L2]; [by intros ? ? [= <- _] |]. lia.
Qed.

(** ** Step lemmas: one round of the loop *)

(** No strings left: the sub-command default stays, nothing is extra. *)
Lemma parse_loop_nil f p ns ex pend : parse_loop (S f) p [] ns ex pend = Ok (ns, ex).
Proof.
  simpl. unfold consume_positionals.
  destruct pend as [|a pend]; simpl; [by rewrite List.app_nil_r |].
  destruct (a_kind a); simpl; by rewrite List.app_nil_r.
Qed.

(** A stored option followed by its value. *)
Lemma parse_loop_store f p a c os s v rest ns ex pend :
  a_kind a = KStore c -> String.eqb v "--" = false ->
  parse_loop (S f) p ((COpt (OptTuple (Some a) os None), s) :: (CPos, v) :: rest) ns ex pend =
  let* v' := convert a c v in parse_loop f p rest (set_dest a v' ns) ex pend.
Proof.
  intros Hk Hv. cbn -[String.eqb convert]. unfold consume_none, match_argument, match_one.
  rewrite Hk. cbn -[String.eqb convert].
  unfold take_action. rewrite Hk. cbn -[String.eqb convert].
  rewrite String.eqb_sym, Hv. simpl. destruct (convert a c v); simpl; reflexivity.
Qed.

(** A [store_true] flag. *)
Lemma parse_loop_flag f p a os s rest ns ex pend :
  a_kind a = KStoreTrue ->
  parse_loop (S f) p ((COpt (OptTuple (Some a) os None), s) :: rest) ns ex pend =
  parse_loop f p rest (set_dest a (PyBool true) ns) ex pend.
Proof.
  intros Hk. simpl. unfold consume_none, match_argument. rewrite Hk. simpl.
  unfold take_action. by rewrite Hk.
Qed.

Lemma classify_cons p s l :
  classify p (s :: l) =
  if String.eqb s "--" then Ok ((CSep, s) :: map (fun x => (CPos, x)) l)
  else let* o := parse_optional p s in
       let* cr := classify p l in
       Ok ((match o with Some t => COpt t | None => CPos end, s) :: cr).
Proof. reflexivity. Qed.

(** An error while classifying a string is reported whatever follows, as
    long as no ["--"] came before it. *)
Lemma classify_app_err p pre s post e :
  Forall (fun x => String.eqb x "--" = false /\ exists o, parse_optional p x = Ok o) pre ->
  String.eqb s "--" = false -> parse_optional p s = Err e ->
  classify p (pre ++ s :: post) = Err e.
Proof.
  intros Hpre Hs He. induction Hpre as [|x pre [Hx [o Ho]] _ IH]; simpl.
  - by rewrite Hs, He.
  - rewrite Hx, Ho. simpl. by rewrite IH.
Qed.

Lemma parse_optional_exact p s a :
  not_dash s = false -> table_lookup (option_table p) s = Some a ->
  parse_optional p s = Ok (Some (OptTuple (Some a) s None)).
Proof.
  intros Hd Ha. destruct s as [|c r]; [discriminate |].
  unfold parse_optional. simpl in Hd. rewrite Hd. simpl. by rewrite Ha.
Qed.

End Argparse.
