(* ===== verification/Cli.v ===== *)
(** * Cli: the argparse command line of src/cwhy/__main__.py

    [main()] (lines 19-77) builds an [argparse.ArgumentParser] with seven
    options, a sub-command positional ([add_subparsers], three sub-parsers)
    and a parser default, then calls [parse_args()] and takes [vars()] of
    the namespace.  This file builds that parser ([cwhy_parser]) with the
    [Argparse] model of the calls of lines 19-75, evaluates the facts
    about it the proofs need, and proves what [parse_args] gives on it:
    the namespace always has the eight keys with values of their types,
    the fuel is never exhausted, integers are read with [int()], a
    ['--'] after an option that takes a value is an error,
    abbreviations, the last value of a repeated option, and what
    becomes of options after the sub-command. *)

From S2P Require Import Prelude PyBuiltins Argparse.
From Stdlib Require Import DecimalString.
Import Argparse.

Module Cli.

(** ** The parser built by [main()] *)

Definition arg_version : arg_spec := ArgSpec ["--version"] KStoreTrue (PyBool false).
Definition arg_llm : arg_spec := ArgSpec ["--llm"] (KStore ConvStr) (PyStr "gpt-3.5-turbo").
Definition arg_timeout : arg_spec := ArgSpec ["--timeout"] (KStore ConvInt) (PyInt 60).
Definition arg_max_context : arg_spec := ArgSpec ["--max-context"] (KStore ConvInt) (PyInt 30).
Definition arg_show_prompt : arg_spec := ArgSpec ["--show-prompt"] KStoreTrue (PyBool false).
Definition arg_wrapper : arg_spec := ArgSpec ["--wrapper"] KStoreTrue (PyBool false).
Definition arg_wrapper_compiler : arg_spec :=
  ArgSpec ["--wrapper-compiler"] (KStore ConvStr) (PyStr "c++").

Definition subcommands : list (string * parser) :=
  [("explain", new_parser "cwhy explain");
   ("fix", new_parser "cwhy fix");
   ("extract-sources", new_parser "cwhy extract-sources")].

Definition cwhy_parser : parser :=
  let p := new_parser "cwhy" in
  let p := add_argument p arg_version in
  let p := add_argument p arg_llm in
  let p := add_argument p arg_timeout in
  let p := add_argument p arg_max_context in
  let p := add_argument p arg_show_prompt in
  let p := add_argument p arg_wrapper in
  let p := add_argument p arg_wrapper_compiler in
  let p := add_subparsers p "subcommand" subcommands in
  set_defaults p "subcommand" (PyStr "explain").

(** No option string of cwhy's parser is a negative number, and none
    continues its '-' with a digit or '.'. *)
Lemma digit_or_dot_cases c :
  (is_digit c || char_eqb c ".") = true ->
  In c ["0"; "1"; "2"; "3"; "4"; "5"; "6"; "7"; "8"; "9"; "."]%char.
Proof.
  destruct c as [[] [] [] [] [] [] [] []]; vm_compute;
    first [discriminate | intros _; tauto].
Qed.

Lemma get_option_tuples_cwhy_digit c r :
  (is_digit c || char_eqb c ".") = true ->
  get_option_tuples cwhy_parser (String "-" (String c r)) = [].
Proof.
  intros H. apply digit_or_dot_cases in H.
  repeat destruct H as [<-|H]; [reflexivity .. | destruct H].
Qed.

Lemma table_lookup_cwhy_negative s :
  is_negative_number s = true -> table_lookup (option_table cwhy_parser) s = None.
Proof.
  intros H. destruct (table_lookup _ s) as [a|] eqn:E; [| done].
  apply table_lookup_in in E. vm_compute in E.
  repeat destruct E as [E|E]; try injection E as <- _; try done.
Qed.

Lemma split_once_cwhy_negative s os e a :
  is_negative_number s = true -> split_once "=" s = Some (os, e) ->
  table_lookup (option_table cwhy_parser) os <> Some a.
Proof.
  intros H Hs Ht. apply split_once_spec in Hs as ->. apply table_lookup_in in Ht.
  vm_compute in Ht. repeat destruct Ht as [Ht|Ht]; try injection Ht as <- _; try done.
Qed.

(** A negative number such as "-5" is a positional for cwhy's parser:
    the parser has no option string that looks like a negative number. *)
Lemma parse_optional_cwhy_negative s :
  is_negative_number s = true -> parse_optional cwhy_parser s = Ok None.
Proof.
  intros H. pose proof (table_lookup_cwhy_negative s H) as Ht.
  destruct (negative_number_second s H) as (c & r & -> & Hc).
  unfold parse_optional. rewrite Ht.
  replace (char_eqb "-" "-") with true by reflexivity. simpl negb. cbn iota.
  destruct (split_once "=" (String "-" (String c r))) as [[os e]|] eqn:Hs.
  - destruct (table_lookup _ os) as [a|] eqn:Ha;
      [exfalso; by apply (split_once_cwhy_negative _ _ _ a H Hs) |].
    rewrite get_option_tuples_cwhy_digit by done. by rewrite H.
  - rewrite get_option_tuples_cwhy_digit by done. by rewrite H.
Qed.

(** ** Facts about the parser of [main()], by evaluation *)

(** The namespace before any argument is taken into account. *)
Definition cwhy_defaults : dict :=
  [("version", PyBool false); ("llm", PyStr "gpt-3.5-turbo"); ("timeout", PyInt 60);
   ("max_context", PyInt 30); ("show_prompt", PyBool false); ("wrapper", PyBool false);
   ("wrapper_compiler", PyStr "c++"); ("subcommand", PyStr "explain")].

Definition subparsers_action : action :=
  Action [] (Some "subcommand") (Some (PyStr "explain")) (KParsers subcommands).

Lemma cwhy_init_defaults : init_defaults cwhy_parser [] = cwhy_defaults.
Proof. vm_compute. reflexivity. Qed.

Lemma cwhy_positionals : positionals cwhy_parser = [subparsers_action].
Proof. vm_compute. reflexivity. Qed.

(** ** Sub-parsers: strings they do not know become extras *)

(** An unknown option or a positional: what a parser without positionals
    can only set aside. *)
Definition unknown_or_pos (x : cls * string) : bool :=
  match fst x with
  | COpt (OptTuple None _ _) | CPos => true
  | _ => false
  end.

Lemma leading_non_opts_split items :
  map snd items = leading_non_opts items ++ map snd (drop (length (leading_non_opts items)) items).
Proof.
  induction items as [|x r IH]; simpl; [done |].
  destruct (is_opt x); simpl; [done |]. by rewrite IH at 1.
Qed.

Lemma forallb_drop {A} (f : A -> bool) n l : forallb f l = true -> forallb f (drop n l) = true.
Proof.
  revert l. induction n as [|n IH]; intros [|x l]; simpl; try done.
  intros H. apply andb_prop in H as [_ H]. by apply IH.
Qed.

(** A parser with no positional left sets aside every unknown option and
    positional, in order. *)
Lemma parse_loop_extras fuel p items ns ex :
  length items < fuel -> forallb unknown_or_pos items = true ->
  parse_loop fuel p items ns ex [] = Ok (ns, ex ++ map snd items).
Proof.
  revert items ns ex. induction fuel as [|fuel IH]; intros items ns ex Hlen Hall; [lia |].
  simpl. destruct (existsb is_opt items) eqn:Hex; simpl; [| by rewrite List.app_nil_r].
  destruct items as [|[c s] rest]; [discriminate |].
  simpl in Hall. apply andb_prop in Hall as [Hc Hall]. simpl in Hlen.
  destruct c as [[[a|] os e]| |]; try discriminate; simpl.
  - rewrite IH by (done || lia). by rewrite <- List.app_assoc.
  - rewrite IH; [| rewrite length_drop; lia | by apply forallb_drop].
    rewrite <- List.app_assoc. simpl. by rewrite <- leading_non_opts_split.
Qed.

(** The sub-command round: the sub-parsers action takes the first
    positional and every string after it, parses them with the chosen
    sub-parser, and copies the sub-namespace. *)
Lemma parse_loop_subcommand f p a choices v0 sub items ns ex pend :
  a_kind a = KParsers choices -> assoc_lookup choices v0 = Some sub ->
  parse_loop (S (S f)) p ((CPos, v0) :: items) ns ex (a :: pend) =
  let* '(subns, subx) :=
    (let* items' := classify sub (map snd items) in
     parse_loop (S f) sub items' (init_defaults sub []) [] (positionals sub)) in
  Ok (fold_left (fun n e => dict_set n (fst e) (snd e)) subns (set_dest a (PyStr v0) ns),
      ex ++ subx).
Proof.
  intros Hk Hs. remember (S f) as g eqn:Hg.
  cbn [parse_loop existsb is_opt fst orb negb].
  unfold consume_positionals. rewrite Hk. cbn [match_parser map fst count_seps drop snd].
  rewrite Hs. destruct (classify sub (map snd items)) as [items'|e]; cbn [rbind];
    [| by destruct (existsb is_opt items)].
  destruct (parse_loop g sub items' (init_defaults sub []) [] (positionals sub))
    as [[subns subx]|e]; cbn [rbind]; [| by destruct (existsb is_opt items)].
  destruct (existsb is_opt items); simpl.
  - subst g. rewrite drop_all, parse_loop_nil. done.
  - by rewrite drop_all.
Qed.

Definition cls_of (o : option opt_tuple) : cls :=
  match o with
  | Some t => COpt t
  | None => CPos
  end.

(** Classifying strings that each classify without error and without
    ["--"] keeps them in order; [P] follows each one's class. *)
Lemma classify_forall p (P : cls -> Prop) l :
  Forall (fun s => String.eqb s "--" = false /\
                   exists o, parse_optional p s = Ok o /\ P (cls_of o)) l ->
  exists items, classify p l = Ok items /\ map snd items = l /\ Forall (fun x => P (fst x)) items.
Proof.
  induction 1 as [|s l [Hs (o & Ho & HP)] _ (items & Hc & Hm & HF)].
  - by exists [].
  - exists ((cls_of o, s) :: items). rewrite classify_cons, Hs, Ho, Hc. simpl.
    destruct o; simpl; rewrite Hm; auto.
Qed.

(** The long options of [main()]'s parser, other than [--help]. *)
Definition main_long_options : list string :=
  ["--version"; "--llm"; "--timeout"; "--max-context"; "--show-prompt"; "--wrapper";
   "--wrapper-compiler"].

(** The prefixes of a string, the empty one and the string included. *)
Fixpoint prefixes (s : string) : list string :=
  "" :: match s with "" => [] | String c r => map (String c) (prefixes r) end.

Lemma startswith_prefixes opt s : startswith opt s = true -> In s (prefixes opt).
Proof.
  unfold startswith. revert s. induction opt as [|c opt IH]; intros [|d s]; simpl; auto.
  - discriminate.
  - destruct (ascii_dec d c) as [->|]; [| discriminate]. intros H. right. apply in_map. by apply IH.
Qed.

(** A string a sub-parser does not know: a positional, or an option of
    the main parser. *)
Definition foreign (s : string) : Prop := not_dash s = true \/ In s main_long_options.

Lemma foreign_main s :
  foreign s -> String.eqb s "--" = false /\
  exists o, parse_optional cwhy_parser s = Ok o /\ True.
Proof.
  intros [Hd|Hin].
  - split; [by apply not_dash_not_sep |]. exists None. by rewrite parse_optional_not_dash.
  - repeat destruct Hin as [<-|Hin]; try destruct Hin; (split; [reflexivity | eexists; split; [vm_compute; reflexivity | done]]).
Qed.

Lemma foreign_sub prog s :
  foreign s -> String.eqb s "--" = false /\
  exists o, parse_optional (new_parser prog) s = Ok o /\ unknown_or_pos (cls_of o, "") = true.
Proof.
  intros [Hd|Hin].
  - split; [by apply not_dash_not_sep |]. exists None. by rewrite parse_optional_not_dash.
  - repeat destruct Hin as [<-|Hin]; try destruct Hin; (split; [reflexivity | eexists; split; [reflexivity | reflexivity]]).
Qed.

(** ** Invariants of the loop *)

(** An option tuple's action belongs to the parser. *)
Definition item_ok (p : parser) (x : cls * string) : Prop :=
  match fst x with
  | COpt (OptTuple (Some a) _ _) => In a (p_actions p)
  | _ => True
  end.

Lemma option_table_actions p s a : In (s, a) (option_table p) -> In a (p_actions p).
Proof.
  unfold option_table. rewrite in_flat_map. intros (a' & Ha' & Hin).
  apply in_map_iff in Hin as (s' & [= _ <-] & _). exact Ha'.
Qed.

Lemma table_lookup_actions p s a :
  table_lookup (option_table p) s = Some a -> In a (p_actions p).
Proof. intros H. apply table_lookup_in in H. by eapply option_table_actions. Qed.

Lemma get_option_tuples_actions p arg a os e :
  In (OptTuple (Some a) os e) (get_option_tuples p arg) -> In a (p_actions p).
Proof.
  unfold get_option_tuples. destruct arg as [|c0 [|c1 rest]]; try (intros []).
  destruct (char_eqb c0 "-" && char_eqb c1 "-").
  - destruct (split_once "=" _) as [[pre ex]|]; rewrite in_map_iff;
      intros ([s a'] & [= <- _ _] & Hin); apply list_elem_of_In, list_elem_of_filter in Hin
        as [_ Hin]; apply list_elem_of_In in Hin; by eapply option_table_actions.
  - destruct (char_eqb c0 "-"); [| intros []].
    rewrite in_flat_map. intros ([s a'] & Hin & Ht). apply option_table_actions in Hin.
    simpl in Ht. destruct (String.eqb s _); [| destruct (startswith s _)];
      simpl in Ht; intuition congruence.
Qed.

Lemma parse_optional_actions p s o :
  parse_optional p s = Ok o -> item_ok p (cls_of o, s).
Proof.
  unfold parse_optional. cbv zeta. destruct s as [|c rest]; [by intros [= <-] |].
  destruct (negb (char_eqb c "-")); [by intros [= <-] |].
  destruct (table_lookup _ _) eqn:Ht; [intros [= <-]; simpl; by eapply table_lookup_actions |].
  destruct (String.eqb rest ""); [by intros [= <-] |].
  assert (Hg : forall t, get_option_tuples p (String c rest) = [t] -> item_ok p (cls_of (Some t), String c rest)).
  { intros [[a|] os' e'] Eg; [| done]. simpl.
    apply (get_option_tuples_actions p (String c rest) a os' e'). rewrite Eg. by left. }
  destruct (split_once "=" _) as [[os e]|];
    [destruct (table_lookup _ os) eqn:Ht2; [intros [= <-]; simpl; by eapply table_lookup_actions |] |].
  all: destruct (get_option_tuples p _) as [|t [|t' ts]] eqn:Eg;
    [repeat case_goal; by intros [= <-] | intros [= <-]; by apply Hg | discriminate].
Qed.

Lemma classify_items_ok p args items :
  classify p args = Ok items -> Forall (item_ok p) items.
Proof.
  revert items. induction args as [|s r IH]; intros items; simpl.
  - intros [= <-]. constructor.
  - destruct (String.eqb s "--").
    + intros [= <-]. constructor; [done |]. apply Forall_forall. intros x Hx.
      apply in_map_iff in Hx as (? & <- & _). done.
    + intros H. simpl_result. constructor; [| by apply IH].
      by apply (parse_optional_actions p s x).
Qed.

Lemma consume_none_actions p a acc cs ss ts n :
  In a (p_actions p) -> Forall (fun t => In (fst t) (p_actions p)) acc ->
  consume_none a acc cs ss = Ok (ts, n) -> Forall (fun t => In (fst t) (p_actions p)) ts.
Proof.
  intros Ha Hacc. unfold consume_none. case_goal; intros [= <- _].
  apply Forall_app; split; [done | by repeat constructor].
Qed.

Lemma consume_explicit_actions p a os e acc cs ss ts n :
  In a (p_actions p) -> Forall (fun t => In (fst t) (p_actions p)) acc ->
  consume_explicit p a os e acc cs ss = Ok (ts, n) ->
  Forall (fun t => In (fst t) (p_actions p)) ts.
Proof.
  revert a os acc. induction e as [|c e IH]; intros a os acc Ha Hacc; simpl.
  - destruct (nargs_zero (a_kind a)); [discriminate |].
    intros [= <- _]. apply Forall_app; split; [done | by repeat constructor].
  - destruct (nargs_zero (a_kind a)).
    + destruct (is_long_option os); [discriminate |].
      destruct (table_lookup _ _) as [a'|] eqn:Ha'; [| discriminate].
      apply table_lookup_actions in Ha'.
      assert (Hacc' : Forall (fun t => In (fst t) (p_actions p)) (acc ++ [(a, [])]))
        by (apply Forall_app; split; [done | by repeat constructor]).
      destruct (String.eqb e ""); [by apply consume_none_actions | by apply IH].
    + intros [= <- _]. apply Forall_app; split; [done | by repeat constructor].
Qed.

Section Invariant.
Context (P : dict -> Prop) (p : parser).

(** Taking an action of [p] keeps [P]. *)
Hypothesis take_ok : forall a args ns0 ns1,
  In a (p_actions p) -> P ns0 -> take_action p a args ns0 = Ok ns1 -> P ns1.

(** Setting the sub-command and copying what a sub-parser returned
    keeps [P]. *)
Hypothesis sub_ok : forall a choices v0 sub ns0 f args items' subns subx,
  In a (p_actions p) -> a_kind a = KParsers choices -> assoc_lookup choices v0 = Some sub ->
  P ns0 -> classify sub args = Ok items' ->
  parse_loop f sub items' (init_defaults sub []) [] (positionals sub) = Ok (subns, subx) ->
  P (fold_left (fun n e => dict_set n (fst e) (snd e)) subns (set_dest a (PyStr v0) ns0)).

Lemma take_actions_inv ts ns ns' :
  Forall (fun t => In (fst t) (p_actions p)) ts -> P ns ->
  take_actions p ts ns = Ok ns' -> P ns'.
Proof.
  intros Hts. revert ns. induction Hts as [|[a args] ts Ha _ IH]; intros ns HP; simpl.
  - by intros [= <-].
  - intros H. simpl_result. eauto.
Qed.

Lemma consume_positionals_inv f items ns pend ns' k subx pend' :
  (forall a, In a pend -> In a (p_actions p)) -> P ns ->
  consume_positionals
    (fun sub args => let* items' := classify sub args in
                     parse_loop f sub items' (init_defaults sub []) [] (positionals sub))
    items ns pend = Ok (ns', k, subx, pend') ->
  P ns' /\ (forall a, In a pend' -> In a (p_actions p)).
Proof.
  intros Hpend HP. unfold consume_positionals.
  destruct pend as [|a pend0]; [by intros [= <- _ _ <-] |].
  destruct (a_kind a) as [| | |choices] eqn:Hk; try by intros [= <- _ _ <-].
  destruct (match_parser _); [| by intros [= <- _ _ <-]].
  destruct (map snd items) as [|v0 vs]; [by intros [= <- _ _ <-] |].
  destruct (assoc_lookup choices v0) as [sub|] eqn:Hs; [| discriminate].
  destruct (classify sub vs) as [items'|e] eqn:Hc; [| discriminate]. cbn [rbind].
  destruct (parse_loop f sub items' (init_defaults sub []) [] (positionals sub))
    as [[subns subx0]|e] eqn:Hl; [| discriminate].
  cbn [rbind]. intros [= <- _ _ <-]. split.
  - eapply sub_ok; eauto. apply Hpend. by left.
  - intros a' Ha'. apply Hpend. by right.
Qed.

Lemma parse_loop_inv fuel items ns ex pend ns' ex' :
  Forall (item_ok p) items -> (forall a, In a pend -> In a (p_actions p)) -> P ns ->
  parse_loop fuel p items ns ex pend = Ok (ns', ex') -> P ns'.
Proof.
  revert items ns ex pend. induction fuel as [|fuel IH]; intros items ns ex pend Hit Hpend HP;
    [discriminate |].
  simpl. destruct (existsb is_opt items) eqn:Hex; simpl.
  2: { intros H. apply rbind_Ok in H as ([[[ns0 k] subx] pend0] & Hcp & H).
       injection H as <- _. by apply consume_positionals_inv in Hcp as []. }
  destruct items as [|[c s] rest]; [discriminate |].
  pose proof Hit as Hit0. apply Forall_cons_iff in Hit0 as [Hc Hrest].
  destruct c as [[[a|] os [e|]]| |]; simpl in Hc; intros H.
  - apply rbind_Ok in H as ([ts n] & Hts & H). apply rbind_Ok in H as (ns0 & Hta & H).
    eapply IH; [by apply Forall_drop | done | | exact H].
    eapply take_actions_inv; [| done | done]. eapply consume_explicit_actions; [exact Hc | constructor | exact Hts].
  - apply rbind_Ok in H as ([ts n] & Hts & H). apply rbind_Ok in H as (ns0 & Hta & H).
    eapply IH; [by apply Forall_drop | done | | exact H].
    eapply take_actions_inv; [| done | done]. eapply consume_none_actions; [exact Hc | constructor | exact Hts].
  - exact (IH _ _ _ _ Hrest Hpend HP H).
  - exact (IH _ _ _ _ Hrest Hpend HP H).
  - apply rbind_Ok in H as ([[[ns0 k] subx] pend0] & Hcp & H).
    apply consume_positionals_inv in Hcp as [HP0 Hp0]; [| done | done].
    destruct (Nat.ltb 0 k).
    + refine (IH _ _ _ _ _ Hp0 HP0 H). by apply Forall_drop.
    + refine (IH _ _ _ _ _ Hpend HP H). by apply Forall_drop.
  - apply rbind_Ok in H as ([[[ns0 k] subx] pend0] & Hcp & H).
    apply consume_positionals_inv in Hcp as [HP0 Hp0]; [| done | done].
    destruct (Nat.ltb 0 k).
    + refine (IH _ _ _ _ _ Hp0 HP0 H). by apply Forall_drop.
    + refine (IH _ _ _ _ _ Hpend HP H). by apply Forall_drop.
Qed.
End Invariant.

(** ** The namespace schema of cwhy's parser *)

Definition is_bool (v : pyval) : bool := match v with PyBool _ => true | _ => false end.
Definition is_str (v : pyval) : bool := match v with PyStr _ => true | _ => false end.
Definition is_int (v : pyval) : bool := match v with PyInt _ => true | _ => false end.

(** A stored option holds a converted value, or the list [_get_values]
    builds when the count of strings is not one (e.g. [--llm=--]). *)
Definition stored (ty : pyval -> bool) (v : pyval) : bool :=
  ty v || match v with PyList l => forallb ty l | _ => false end.

Definition is_choice (v : pyval) : bool :=
  match v with
  | PyStr s => bool_decide (s ∈ map fst subcommands)
  | _ => false
  end.

Definition conv_ty (c : conv) : pyval -> bool :=
  match c with
  | ConvStr => is_str
  | ConvInt => is_int
  end.

(** The keys of [vars(args)], in order, with the values each may hold. *)
Definition cwhy_schema : list (string * (pyval -> bool)) :=
  [("version", is_bool); ("llm", stored is_str); ("timeout", stored is_int);
   ("max_context", stored is_int); ("show_prompt", is_bool); ("wrapper", is_bool);
   ("wrapper_compiler", stored is_str); ("subcommand", is_choice)].

Definition entry_ok (e : string * (pyval -> bool)) (x : string * pyval) : Prop :=
  fst e = fst x /\ snd e (snd x) = true.

Definition cwhy_typed (ns : dict) : Prop := Forall2 entry_ok cwhy_schema ns.

Lemma dict_set_schema schema (ns : dict) k ty v :
  Forall2 entry_ok schema ns -> assoc_lookup schema k = Some ty -> ty v = true ->
  Forall2 entry_ok schema (dict_set ns k v).
Proof.
  induction 1 as [|[k0 ty0] [k1 v0] schema ns [Hk Hv] Hrest IH]; simpl; [discriminate |].
  simpl in Hk. subst k1. destruct (String.eqb k k0) eqn:E.
  - intros [= <-] Htv. apply String.eqb_eq in E as ->. constructor; [by split | exact Hrest].
  - intros Hl Htv. constructor; [done | by apply IH].
Qed.

Lemma typed_get schema (ns : dict) k ty :
  Forall2 entry_ok schema ns -> assoc_lookup schema k = Some ty ->
  exists v, dict_get ns k = Some v /\ ty v = true.
Proof.
  induction 1 as [|[k0 ty0] [k1 v0] schema ns [Hk Hv] _ IH]; simpl; [discriminate |].
  simpl in Hk. subst k1. destruct (String.eqb k k0); [intros [= <-]; by exists v0 | exact IH].
Qed.

Lemma assoc_lookup_in {A} (l : list (string * A)) k v :
  assoc_lookup l k = Some v -> In (k, v) l.
Proof.
  induction l as [|[k' v'] r IH]; simpl; [discriminate |].
  destruct (String.eqb k k') eqn:E; [apply String.eqb_eq in E as ->; intros [= ->]; by left |].
  intros H. right. by apply IH.
Qed.

Lemma convert_ty a c s v : convert a c s = Ok v -> conv_ty c v = true.
Proof. destruct c; simpl; [by intros [= <-] | destruct (py_int s); [by intros [= <-] | done]]. Qed.

Lemma convert_all_ty a c l vs : convert_all a c l = Ok vs -> forallb (conv_ty c) vs = true.
Proof.
  revert vs. induction l as [|s r IH]; simpl; intros vs; [by intros [= <-] |].
  intros H. simpl_result. simpl. apply andb_true_intro. split; [by eapply convert_ty | by apply IH].
Qed.

Lemma take_action_store p a c args ns ns' :
  a_kind a = KStore c -> take_action p a args ns = Ok ns' ->
  exists v, ns' = set_dest a v ns /\ stored (conv_ty c) v = true.
Proof.
  intros Hk. unfold take_action. rewrite Hk.
  destruct (remove_first "--" args) as [|s [|s' l]] eqn:E; intros H;
    apply rbind_Ok in H as (v & Hv & [= <-]); eexists; (split; [reflexivity |]); unfold stored.
  - apply orb_true_intro. right. by eapply convert_all_ty.
  - by erewrite convert_ty.
  - apply orb_true_intro. right. by eapply convert_all_ty.
Qed.

(** A sub-parser of cwhy (only [-h/--help]) returns an empty namespace. *)
Lemma sub_namespace_empty prog args items f subns subx :
  classify (new_parser prog) args = Ok items ->
  parse_loop f (new_parser prog) items (init_defaults (new_parser prog) []) []
    (positionals (new_parser prog)) = Ok (subns, subx) ->
  subns = [].
Proof.
  intros Hc. apply (parse_loop_inv (fun ns => ns = []) (new_parser prog)).
  - intros a args' ns0 ns1 [<-|[]] _ Ht. discriminate Ht.
  - intros a ? ? ? ? ? ? ? ? ? [<-|[]] Hk. discriminate Hk.
  - by eapply classify_items_ok.
  - intros a [].
  - reflexivity.
Qed.

(** [str(n)] of an int is a positional for cwhy's parser, negative or not. *)
Lemma digits_end_uint u : digits_end (NilEmpty.string_of_uint u) = true.
Proof. induction u; simpl; try rewrite IHu; try reflexivity. all: by rewrite orb_true_r. Qed.

Lemma int_part_uint u : u <> Decimal.Nil -> int_part (NilEmpty.string_of_uint u) = true.
Proof. destruct u; [done | ..]; intros _; simpl; by rewrite digits_end_uint. Qed.

Lemma py_str_int_positional n :
  String.eqb (py_str_int n) "--" = false /\ parse_optional cwhy_parser (py_str_int n) = Ok None.
Proof.
  destruct n as [|p|p]; unfold py_str_int, digits_of_N.
  - split; reflexivity.
  - destruct (string_of_uint_head (N.to_uint (Z.to_N (Z.pos p))) (to_uint_not_nil _)) as (d & r & E & Hd).
    rewrite E. destruct (digit_not_special d Hd) as (_ & Hm & _ & _).
    assert (not_dash (String d r) = true) by (simpl; by rewrite Hm).
    split; [by apply not_dash_not_sep | by apply parse_optional_not_dash].
  - split.
    + destruct (string_of_uint_head (N.to_uint (N.pos p)) (to_uint_not_nil _)) as (d & r & E & Hd).
      rewrite E. destruct (digit_not_special d Hd) as (_ & Hm & _ & _).
      apply String.eqb_neq. intros [= Hd']. subst d. discriminate Hm.
    + apply parse_optional_cwhy_negative. unfold is_negative_number.
      by rewrite int_part_uint by apply to_uint_not_nil.
Qed.

(** ** Theorems *)

(** [parse_args] never runs out of fuel: the argparse loop it models
    terminates on every argument list, for every parser. *)
Theorem parse_args_terminates (p : parser) (argv : list string) :
  parse_args p argv <> Failed ErrFuel.
Proof.
  unfold parse_args.
  assert (H : no_fuel (parse_known_args (S (length argv)) p argv [])).
  { unfold parse_known_args. apply no_fuel_bind; [apply classify_no_fuel |].
    intros items Hc. apply parse_loop_no_fuel. apply classify_length in Hc. lia. }
  destruct (parse_known_args _ p argv []) as [[ns [|x r]]|[prog|e]]; try discriminate.
  intros [= ->]. by apply H.
Qed.

(** C9: an int option ([--timeout], [--max-context]) accepts every int,
    negative ones included: ["-5"] is read as a value, not as an option,
    and [int()] gives back the number that was printed. *)
Theorem int_option_any_int (opt dest : string) (n : Z) :
  In (opt, dest) [("--timeout", "timeout"); ("--max-context", "max_context")] ->
  parse_args cwhy_parser [opt; py_str_int n] = Parsed (dict_set cwhy_defaults dest (PyInt n)).
Proof.
  intros Hin. destruct (py_str_int_positional n) as [H1 H2].
  assert (Ha : exists a, table_lookup (option_table cwhy_parser) opt = Some a /\
                 a_kind a = KStore ConvInt /\ a_dest a = Some dest /\
                 not_dash opt = false /\ String.eqb opt "--" = false)
    by (destruct Hin as [[= <- <-]|[[= <- <-]|[]]]; eexists; vm_compute; auto).
  destruct Ha as (a & Ha & Hk & Hd & Hnd & Hsep).
  unfold parse_args, parse_known_args.
  rewrite !classify_cons, Hsep, (parse_optional_exact _ _ _ Hnd Ha), H1, H2.
  cbn [rbind classify]. rewrite cwhy_init_defaults, cwhy_positionals.
  rewrite (parse_loop_store _ _ _ ConvInt) by done. unfold convert. rewrite py_int_py_str_int.
  cbn [rbind length]. rewrite parse_loop_nil. unfold set_dest. by rewrite Hd.
Qed.

(** C15: the options of the main parser given after the sub-command are
    not accepted: the sub-parsers action takes every string from the
    sub-command on, the sub-parser knows only [-h/--help], and
    [parse_args] fails with "unrecognized arguments". *)
Theorem options_after_subcommand (sc : string) (rest : list string) :
  In sc ["explain"; "fix"; "extract-sources"] -> rest <> [] -> Forall foreign rest ->
  parse_args cwhy_parser (sc :: rest) = Failed (ErrUnrecognized rest).
Proof.
  intros Hsc Hne Hrest.
  destruct (classify_forall cwhy_parser (fun _ => True) rest) as (items & Hc & Hm & _).
  { eapply Forall_impl; [apply foreign_main | exact Hrest]. }
  unfold parse_args, parse_known_args. rewrite classify_cons, Hc.
  destruct Hsc as [<-|[<-|[<-|[]]]]; cbn [length];
    (rewrite parse_optional_not_dash, not_dash_not_sep by reflexivity; cbn [rbind cls_of];
     rewrite cwhy_init_defaults, cwhy_positionals;
     rewrite (parse_loop_subcommand (length rest) _ _ subcommands _ (new_parser _)) by reflexivity;
     rewrite Hm;
     match goal with |- context [classify (new_parser ?pr) _] =>
       destruct (classify_forall (new_parser pr) (fun c => unknown_or_pos (c, "") = true) rest)
         as (items2 & Hc2 & Hm2 & HF2) end;
     [eapply Forall_impl; [intros s Hs; apply (foreign_sub _ _ Hs) | exact Hrest] |];
     rewrite Hc2; cbn [rbind];
     rewrite parse_loop_extras;
     [ cbn; destruct rest; [done | by rewrite Hm2]
     | apply classify_length in Hc2; lia
     | apply forallb_forall; intros x Hx; rewrite Forall_forall in HF2;
       destruct x as [c ?]; apply (HF2 (c, s) Hx) ]).
Qed.

Lemma options_after_subcommand_witness :
  In "explain" ["explain"; "fix"; "extract-sources"] /\ ["--llm"; "gpt-4"] <> [] /\
  Forall foreign ["--llm"; "gpt-4"] /\
  parse_args cwhy_parser ["explain"; "--llm"; "gpt-4"] = Failed (ErrUnrecognized ["--llm"; "gpt-4"]).
Proof.
  assert (H : Forall foreign ["--llm"; "gpt-4"]).
  { constructor; [right; simpl; auto | constructor; [left; reflexivity | constructor]]. }
  split; [left; reflexivity | split; [discriminate | split; [exact H |]]].
  apply options_after_subcommand; [left; reflexivity | discriminate | exact H].
Defined.

(** C19: An option that takes a value does not take a ['--'] for it: a
    ['--'] right after [--llm], [--timeout], [--max-context] or
    [--wrapper-compiler] is the separator, the option has no argument,
    and the parse fails with "expected one argument", whatever follows. *)
Theorem separator_after_option (s : string) (rest : list string) :
  In s ["--llm"; "--timeout"; "--max-context"; "--wrapper-compiler"] ->
  exists a, table_lookup (option_table cwhy_parser) s = Some a /\
            parse_args cwhy_parser (s :: "--" :: rest) = Failed (ErrExpectedOne a).
Proof.
  intros Hs.
  assert (Ha : exists a c, table_lookup (option_table cwhy_parser) s = Some a /\ a_kind a = KStore c /\
                           not_dash s = false /\ String.eqb s "--" = false)
    by (repeat destruct Hs as [<- | Hs]; try destruct Hs; eexists _, _; split_and!; reflexivity).
  destruct Ha as (a & c & Ha & Hk & Hd & Hsep). exists a. split; [exact Ha |].
  unfold parse_args, parse_known_args.
  rewrite classify_cons, Hsep, (parse_optional_exact _ _ _ Hd Ha). cbn [rbind].
  rewrite classify_cons, String.eqb_refl. cbn [rbind].
  cbn [length parse_loop existsb is_opt fst negb orb map].
  unfold consume_none, match_argument. rewrite Hk. reflexivity.
Qed.

Lemma separator_after_option_witness :
  exists a, table_lookup (option_table cwhy_parser) "--llm" = Some a /\
            parse_args cwhy_parser ["--llm"; "--"; "gpt-4"] = Failed (ErrExpectedOne a).
Proof. apply (separator_after_option "--llm" ["gpt-4"]). left. reflexivity. Defined.

(** C16: an ambiguous abbreviation of [--wrapper] / [--wrapper-compiler]
    is an error wherever it stands, after the sub-command too: argparse
    classifies every string before it consumes any. *)
Theorem ambiguous_abbreviation (pre post : list string) (s : string) :
  In s ["--w"; "--wr"; "--wra"; "--wrap"; "--wrapp"; "--wrappe"] ->
  Forall (fun x => String.eqb x "--" = false /\ exists o, parse_optional cwhy_parser x = Ok o) pre ->
  parse_args cwhy_parser (pre ++ s :: post) =
    Failed (ErrAmbiguous s ["--wrapper"; "--wrapper-compiler"]).
Proof.
  intros Hs Hpre. unfold parse_args, parse_known_args.
  rewrite (classify_app_err _ _ _ _ (SErr (ErrAmbiguous s ["--wrapper"; "--wrapper-compiler"])));
    [done | exact Hpre | ..]; repeat destruct Hs as [<-|Hs]; try destruct Hs; reflexivity.
Qed.

Lemma ambiguous_abbreviation_witness :
  In "--wrap" ["--w"; "--wr"; "--wra"; "--wrap"; "--wrapp"; "--wrappe"] /\
  Forall (fun x => String.eqb x "--" = false /\ exists o, parse_optional cwhy_parser x = Ok o)
    ["explain"] /\
  parse_args cwhy_parser (["explain"] ++ ["--wrap"; "cc"]) =
    Failed (ErrAmbiguous "--wrap" ["--wrapper"; "--wrapper-compiler"]).
Proof.
  assert (H : Forall (fun x => String.eqb x "--" = false /\
                               exists o, parse_optional cwhy_parser x = Ok o) ["explain"]).
  { constructor; [split; [reflexivity | eexists; reflexivity] | constructor]. }
  split; [simpl; tauto | split; [exact H |]].
  apply ambiguous_abbreviation; [simpl; tauto | exact H].
Defined.

(** C18: when a string option is given twice, the last value is kept
    ([store] overwrites the namespace entry in place). *)
Theorem last_value_wins (opt dest v1 v2 : string) :
  In (opt, dest) [("--llm", "llm"); ("--wrapper-compiler", "wrapper_compiler")] ->
  not_dash v1 = true -> not_dash v2 = true ->
  parse_args cwhy_parser [opt; v1; opt; v2] = Parsed (dict_set cwhy_defaults dest (PyStr v2)).
Proof.
  intros Hin H1 H2.
  assert (Ha : exists a, table_lookup (option_table cwhy_parser) opt = Some a /\
                 a_kind a = KStore ConvStr /\ a_dest a = Some dest /\
                 not_dash opt = false /\ String.eqb opt "--" = false)
    by (destruct Hin as [[= <- <-]|[[= <- <-]|[]]]; eexists; vm_compute; auto).
  destruct Ha as (a & Ha & Hk & Hd & Hnd & Hsep).
  unfold parse_args, parse_known_args.
  rewrite !classify_cons, Hsep, (parse_optional_exact _ _ _ Hnd Ha), !not_dash_not_sep,
    !parse_optional_not_dash by done.
  cbn [rbind classify cls_of length]. rewrite cwhy_init_defaults, cwhy_positionals.
  rewrite (parse_loop_store _ _ _ ConvStr) by (done || by apply not_dash_not_sep).
  cbn [rbind convert]. rewrite (parse_loop_store _ _ _ ConvStr) by (done || by apply not_dash_not_sep).
  cbn [rbind convert]. rewrite parse_loop_nil. unfold set_dest. rewrite Hd. by rewrite dict_set_set.
Qed.

Lemma last_value_wins_witness :
  In ("--llm", "llm") [("--llm", "llm"); ("--wrapper-compiler", "wrapper_compiler")] /\
  not_dash "gpt-3.5-turbo" = true /\ not_dash "gpt-4" = true /\
  parse_args cwhy_parser ["--llm"; "gpt-3.5-turbo"; "--llm"; "gpt-4"] =
    Parsed (dict_set cwhy_defaults "llm" (PyStr "gpt-4")).
Proof.
  split; [left; reflexivity | split; [reflexivity | split; [reflexivity |]]].
  apply last_value_wins; [left | ..]; reflexivity.
Defined.

(** C17: unique prefixes ([allow_abbrev], on by default): a prefix of
    [--llm] or [--wrapper-compiler] longer than [--] that starts no other
    option string of the parser stands for that option, and its value is
    stored as if the option had been written in full. *)
Theorem abbreviation_unique (opt dest s v : string) :
  In (opt, dest) [("--llm", "llm"); ("--wrapper-compiler", "wrapper_compiler")] ->
  startswith opt s = true -> 2 < String.length s ->
  forallb (fun o => negb (startswith o s) || String.eqb o opt) (map fst (option_table cwhy_parser)) = true ->
  not_dash v = true ->
  parse_args cwhy_parser [s; v] = Parsed (dict_set cwhy_defaults dest (PyStr v)).
Proof.
  intros Hin Hp Hl Hu Hv.
  assert (Ha : exists a, parse_optional cwhy_parser s = Ok (Some (OptTuple (Some a) opt None)) /\
                 a_kind a = KStore ConvStr /\ a_dest a = Some dest /\
                 not_dash s = false /\ String.eqb s "--" = false).
  { apply startswith_prefixes in Hp.
    destruct Hin as [[= <- <-]|[[= <- <-]|[]]]; vm_compute in Hp;
      repeat destruct Hp as [<-|Hp]; try destruct Hp; vm_compute in Hl, Hu;
      try discriminate; try (exfalso; lia); eexists; vm_compute; auto. }
  destruct Ha as (a & Ha & Hk & Hd & Hnd & Hsep).
  unfold parse_args, parse_known_args.
  rewrite !classify_cons, Hsep, Ha, !not_dash_not_sep, !parse_optional_not_dash by done.
  cbn [rbind classify cls_of length]. rewrite cwhy_init_defaults, cwhy_positionals.
  rewrite (parse_loop_store _ _ _ ConvStr) by (done || by apply not_dash_not_sep).
  cbn [rbind convert]. rewrite parse_loop_nil. unfold set_dest. by rewrite Hd.
Qed.

Lemma abbreviation_unique_witness :
  parse_args cwhy_parser ["--wrapper-c"; "clang++"] =
    Parsed (dict_set cwhy_defaults "wrapper_compiler" (PyStr "clang++")).
Proof.
  apply (abbreviation_unique "--wrapper-compiler" "wrapper_compiler"); [right; left | ..]; try reflexivity.
  vm_compute. lia.
Defined.

(** The namespace of a successful parse fits [cwhy_schema]. *)
Lemma parse_args_schema (argv : list string) (ns : dict) :
  parse_args cwhy_parser argv = Parsed ns -> cwhy_typed ns.
Proof.
  unfold parse_args, parse_known_args.
  destruct (classify cwhy_parser argv) as [items|[]] eqn:Hc; cbn [rbind]; try discriminate.
  destruct (parse_loop _ _ _ _ _ _) as [[ns0 [|x ex]]|[]] eqn:Hl; try discriminate.
  intros [= <-]. revert Hl. apply (parse_loop_inv cwhy_typed cwhy_parser).
  - intros a args ns1 ns2 Hin HP Ht. vm_compute in Hin.
    repeat destruct Hin as [<-|Hin]; try destruct Hin.
    all: first
      [ discriminate Ht
      | apply (take_action_store _ _ ConvStr) in Ht as (v & -> & Hv); [| reflexivity];
        (eapply dict_set_schema; [exact HP | reflexivity | exact Hv])
      | apply (take_action_store _ _ ConvInt) in Ht as (v & -> & Hv); [| reflexivity];
        (eapply dict_set_schema; [exact HP | reflexivity | exact Hv])
      | injection Ht as <-; (eapply dict_set_schema; [exact HP | reflexivity | reflexivity])
      | injection Ht as <-; exact HP ].
  - intros a choices v0 sub ns1 f args items' subns subx Hin Hk Hs HP Hc' Hl'.
    vm_compute in Hin. repeat destruct Hin as [<-|Hin]; try destruct Hin; try discriminate Hk.
    injection Hk as <-. pose proof (assoc_lookup_in _ _ _ Hs) as Hin.
    assert (Hv : In v0 (map fst subcommands)) by (apply (in_map fst) in Hin; exact Hin).
    simpl in Hin. repeat destruct Hin as [[= <- <-]|Hin]; try destruct Hin;
      rewrite (sub_namespace_empty _ _ _ _ _ _ Hc' Hl'); simpl;
      (eapply dict_set_schema; [exact HP | reflexivity | reflexivity]).
  - by eapply classify_items_ok.
  - rewrite cwhy_positionals. intros a [<-|[]]. vm_compute. tauto.
  - rewrite cwhy_init_defaults. repeat constructor.
Qed.

Lemma typed_keys schema (ns : dict) : Forall2 entry_ok schema ns -> map fst ns = map fst schema.
Proof. induction 1 as [|e x schema ns [Hk _] _ IH]; simpl; [done |]. by rewrite Hk, IH. Qed.

Lemma typed_lookup schema (ns : dict) k v :
  Forall2 entry_ok schema ns -> dict_get ns k = Some v ->
  exists ty, assoc_lookup schema k = Some ty /\ ty v = true.
Proof.
  induction 1 as [|[k0 ty0] [k1 v0] schema ns [Hk Hv] _ IH]; simpl; [discriminate |].
  simpl in Hk. subst k1. destruct (String.eqb k k0); [intros [= <-]; by exists ty0 | exact IH].
Qed.

(** C8: type invariant of the namespace: whatever the command line,
    a successful [parse_args] yields [vars(args)] with exactly the keys
    version, llm, timeout, max_context, show_prompt, wrapper,
    wrapper_compiler and subcommand, in this order, each with a value of
    its option's type in [cwhy_schema]: Booleans for the flags, a string
    (or the list [--llm=--] stores) for llm and wrapper_compiler, an int
    (or such a list) for timeout and max_context, one of the three
    sub-command names for subcommand. *)
Theorem parse_args_typed (argv : list string) (ns : dict) :
  parse_args cwhy_parser argv = Parsed ns ->
  map fst ns = ["version"; "llm"; "timeout"; "max_context"; "show_prompt"; "wrapper";
                "wrapper_compiler"; "subcommand"] /\
  (forall k v, dict_get ns k = Some v -> exists ty, assoc_lookup cwhy_schema k = Some ty /\ ty v = true).
Proof.
  intros H. apply parse_args_schema in H. split; [by rewrite (typed_keys _ _ H) |].
  intros k v. by apply typed_lookup.
Qed.

Lemma parse_args_typed_witness :
  parse_args cwhy_parser ["--timeout"; "10"; "fix"] =
    Parsed (dict_set (dict_set cwhy_defaults "timeout" (PyInt 10)) "subcommand" (PyStr "fix")) /\
  map fst (dict_set (dict_set cwhy_defaults "timeout" (PyInt 10)) "subcommand" (PyStr "fix")) =
    ["version"; "llm"; "timeout"; "max_context"; "show_prompt"; "wrapper";
     "wrapper_compiler"; "subcommand"].
Proof.
  assert (H : parse_args cwhy_parser ["--timeout"; "10"; "fix"] =
    Parsed (dict_set (dict_set cwhy_defaults "timeout" (PyInt 10)) "subcommand" (PyStr "fix")))
    by (vm_compute; reflexivity).
  split; [exact H | exact (proj1 (parse_args_typed _ _ H))].
Defined.

Lemma int_option_any_int_witness :
  In ("--timeout", "timeout") [("--timeout", "timeout"); ("--max-context", "max_context")] /\
  parse_args cwhy_parser ["--timeout"; py_str_int (-5)] =
    Parsed (dict_set cwhy_defaults "timeout" (PyInt (-5))).
Proof. split; [left; reflexivity | apply int_option_any_int; left; reflexivity]. Defined.

End Cli.
