(* ===== verification/Format.v ===== *)
(** * Format: [template.format(compiler=..., args=args)] (line 15)

    [wrapper(args)] reads the template [wrapper.py.in] and calls
    [str.format] on it with two keyword arguments.  This file models
    CPython 3.11's [str.format] (Objects/stringlib/unicode_format.h):
    [scan] reads the format string in one pass as [MarkupIterator_next]
    and [parse_field] do (literal text, the escapes [{{] and [}}], a
    field name that ends at '}', ':' or '!' outside square brackets and
    skips from a '[' to the next ']', the conversion character, the
    format spec with its nested braces); [render_field] evaluates a
    field as [get_field_object] does, with any chain of [[key]]
    subscripts, and applies the conversions [!s], [!r], [!a].  The
    errors are those CPython raises: a single [}] or [{], a missing
    [}], an unexpected [{] in a field name, a missing [\]], an unknown
    keyword or key ([KeyError]), a positional field ([IndexError]: no
    positional argument is passed).  Attribute access ([.name]) and a
    non-empty format spec are outside the model and give
    [NotModelled]. *)

From S2P Require Import Prelude PyBuiltins.

Module Format.

(** The objects a field can denote: a string, a namespace value, the
    [args] dict. *)
Inductive obj : Type :=
| OVal (v : pyval)
| ODict (d : dict).

Inductive fmt_error : Type :=
| SingleClose                (** "Single '}' encountered in format string" *)
| SingleOpen                 (** "Single '{' encountered in format string" *)
| ExpectedClose              (** "expected '}' before end of string" *)
| UnexpectedOpen             (** "unexpected '{' in field name" *)
| EndConversion              (** "end of string while looking for conversion specifier" *)
| ExpectedColon              (** "expected ':' after conversion specifier" *)
| UnmatchedSpec              (** "unmatched '{' in format spec" *)
| UnknownConversion (c : ascii)
| EmptyAttribute             (** "Empty attribute in format string" *)
| MissingBracket             (** "Missing ']' in format string" *)
| AfterBracket               (** "Only '.' or '[' may follow ']' in format field specifier" *)
| KeyError (k : string)
| IndexError
| TypeError
| NotModelled.

(** ** [MarkupIterator_next] and [parse_field]: literal text and fields *)

(** One piece of a format string: literal text, or a replacement field
    with its field name, its conversion character and its format spec. *)
Inductive piece : Type :=
| Lit (s : string)
| Field (name : string) (conv : option ascii) (spec : string).

(** Where the scanner is in the format string:
    - [InText]: in literal text;
    - [AfterOpen], [AfterClose]: just after a '{' or a '}' of the text;
    - [InName n]: in a field name, [n] read so far ([parse_field]'s
      first loop);
    - [InBracket n]: after a '[' of the field name, skipping to the next
      ']' (the inner [for] loop, which skips every other character);
    - [AfterBang n]: after the '!', before the conversion character;
    - [AfterConv n c]: after the conversion character;
    - [InSpec n c d sp]: in the format spec, [d] braces deeper than the
      field's own (the [count] of [parse_field] minus one). *)
Inductive scan_state : Type :=
| InText
| AfterOpen
| AfterClose
| InName (name : string)
| InBracket (name : string)
| AfterBang (name : string)
| AfterConv (name : string) (conv : ascii)
| InSpec (name : string) (conv : option ascii) (depth : nat) (spec : string).

(** The pieces in order, up to the first markup error, and that error.
    Each character is read once, as [MarkupIterator_next] and
    [parse_field] of CPython 3.11 read it. *)
Fixpoint scan (st : scan_state) (s : string) : list piece * option fmt_error :=
  match s with
  | "" =>
      match st with
      | InText => ([], None)
      | AfterOpen => ([], Some SingleOpen)
      | AfterClose => ([], Some SingleClose)
      | InName _ | InBracket _ => ([], Some ExpectedClose)
      | AfterBang _ => ([], Some EndConversion)
      | AfterConv _ _ | InSpec _ _ _ _ => ([], Some UnmatchedSpec)
      end
  | String c r =>
      let emit p st' := let '(ps, e) := scan st' r in (p :: ps, e) in
      let in_name n :=
        if char_eqb c "{" then ([], Some UnexpectedOpen)
        else if char_eqb c "[" then scan (InBracket (n +:+ String c "")) r
        else if char_eqb c "}" then emit (Field n None "") InText
        else if char_eqb c ":" then scan (InSpec n None 0 "") r
        else if char_eqb c "!" then scan (AfterBang n) r
        else scan (InName (n +:+ String c "")) r in
      match st with
      | InText =>
          if char_eqb c "{" then scan AfterOpen r
          else if char_eqb c "}" then scan AfterClose r
          else emit (Lit (String c "")) InText
      | AfterOpen => if char_eqb c "{" then emit (Lit "{") InText else in_name ""
      | AfterClose =>
          if char_eqb c "}" then emit (Lit "}") InText else ([], Some SingleClose)
      | InName n => in_name n
      | InBracket n =>
          if char_eqb c "]" then scan (InName (n +:+ "]")) r
          else scan (InBracket (n +:+ String c "")) r
      | AfterBang n => scan (AfterConv n c) r
      | AfterConv n cv =>
          if char_eqb c "}" then emit (Field n (Some cv) "") InText
          else if char_eqb c ":" then scan (InSpec n (Some cv) 0 "") r
          else ([], Some ExpectedColon)
      | InSpec n cv d sp =>
          if char_eqb c "{" then scan (InSpec n cv (S d) (sp +:+ "{")) r
          else if char_eqb c "}" then
            match d with
            | O => emit (Field n cv sp) InText
            | S d' => scan (InSpec n cv d' (sp +:+ "}")) r
            end
          else scan (InSpec n cv d (sp +:+ String c "")) r
      end
  end.

(** ** [field_name_split] and the [FieldNameIterator] *)

(** The first part of a field name: up to the first '.' or '['. *)
Fixpoint split_first (s acc : string) : string * string :=
  match s with
  | "" => (acc, "")
  | String c r =>
      if char_eqb c "." || char_eqb c "[" then (acc, s)
      else split_first r (acc +:+ String c "")
  end.

Inductive accessor : Type :=
| Attr (name : string)
| Item (key : string).

Inductive acc_state : Type :=
| AccStart
| AccAttr (acc : string)
| AccItem (acc : string).

(** The accessors after the first part, up to the first syntax error,
    and that error. *)
Fixpoint accessors (st : acc_state) (s : string) : list accessor * option fmt_error :=
  match s with
  | "" =>
      match st with
      | AccStart => ([], None)
      | AccAttr "" => ([], Some EmptyAttribute)
      | AccAttr a => ([Attr a], None)
      | AccItem _ => ([], Some MissingBracket)
      end
  | String c r =>
      let start c r :=
        if char_eqb c "." then accessors (AccAttr "") r
        else if char_eqb c "[" then accessors (AccItem "") r
        else ([], Some AfterBracket) in
      match st with
      | AccStart => start c r
      | AccAttr a =>
          if char_eqb c "." || char_eqb c "[" then
            if String.eqb a "" then ([], Some EmptyAttribute)
            else let '(l, e) := start c r in (Attr a :: l, e)
          else accessors (AccAttr (a +:+ String c "")) r
      | AccItem k =>
          if char_eqb c "]" then
            if String.eqb k "" then ([], Some EmptyAttribute)
            else let '(l, e) := accessors AccStart r in (Item k :: l, e)
          else accessors (AccItem (k +:+ String c "")) r
      end
  end.

(** [get_integer]: a non-empty run of decimal digits. *)
Definition is_decimal (s : string) : bool := str_forall is_digit s && negb (String.eqb s "").

(** ** Evaluating a field *)

Fixpoint repr_dict_items (d : dict) : list string :=
  match d with
  | [] => []
  | (k, v) :: r => (py_str_repr k +:+ ": " +:+ py_repr v) :: repr_dict_items r
  end.

Definition obj_repr (o : obj) : string :=
  match o with
  | OVal v => py_repr v
  | ODict d => "{" +:+ join_comma (repr_dict_items d) +:+ "}"
  end.

Definition obj_str (o : obj) : string :=
  match o with
  | OVal v => py_str v
  | ODict _ => obj_repr o
  end.

(** [obj[key]]: an int key for a string of digits, a str key otherwise. *)
Definition get_item (o : obj) (k : string) : result fmt_error obj :=
  let idx := if is_decimal k then option_map Z.to_nat (py_int k) else None in
  match o, idx with
  | ODict d, _ =>
      if is_decimal k then Err (KeyError k)
      else match dict_get d k with
           | Some v => Ok (OVal v)
           | None => Err (KeyError k)
           end
  | OVal (PyStr s), Some n =>
      match String.get n s with
      | Some c => Ok (OVal (PyStr (String c "")))
      | None => Err IndexError
      end
  | OVal (PyList l), Some n =>
      match nth_error l n with
      | Some v => Ok (OVal v)
      | None => Err IndexError
      end
  | _, _ => Err TypeError
  end.

Fixpoint apply_accessors (o : obj) (l : list accessor) : result fmt_error obj :=
  match l with
  | [] => Ok o
  | Attr _ :: _ => Err NotModelled
  | Item k :: r => let* o' := get_item o k in apply_accessors o' r
  end.

Fixpoint kw_lookup (kw : list (string * obj)) (k : string) : option obj :=
  match kw with
  | [] => None
  | (k', o) :: r => if String.eqb k k' then Some o else kw_lookup r k
  end.

(** [get_field_object] then the conversion and [format(obj, spec)]. *)
Definition render_field (kw : list (string * obj)) (name : string) (conv : option ascii)
    (spec : string) : result fmt_error string :=
  let '(first, rest) := split_first name "" in
  let* o :=
    if String.eqb first "" || is_decimal first then Err IndexError
    else match kw_lookup kw first with
         | Some o => Ok o
         | None => Err (KeyError first)
         end in
  let '(accs, acc_err) := accessors AccStart rest in
  let* o := apply_accessors o accs in
  let* _ := match acc_err with Some e => Err e | None => Ok tt end in
  let* text :=
    match conv with
    | None => Ok (obj_str o)
    | Some c =>
        if char_eqb c "s" then Ok (obj_str o)
        else if char_eqb c "r" || char_eqb c "a" then Ok (obj_repr o)
        else Err (UnknownConversion c)
    end in
  if String.eqb spec "" then Ok text else Err NotModelled.

Fixpoint render_pieces (kw : list (string * obj)) (ps : list piece) : result fmt_error string :=
  match ps with
  | [] => Ok ""
  | Lit s :: r => let* out := render_pieces kw r in Ok (s +:+ out)
  | Field n cv sp :: r =>
      let* t := render_field kw n cv sp in
      let* out := render_pieces kw r in
      Ok (t +:+ out)
  end.

(** [template.format(...)] with the keyword arguments [kw] *)
Definition py_format (template : string) (kw : list (string * obj)) : result fmt_error string :=
  let '(ps, e) := scan InText template in
  let* out := render_pieces kw ps in
  match e with
  | Some e => Err e
  | None => Ok out
  end.

End Format.
