(* ===== verification/World.v ===== *)
(** * World: the effects of [main()] and of the pipeline it calls

    A small state-and-exception monad [io] over a [world]: standard input
    (consumed by the first read), the files by path, the name the next
    [NamedTemporaryFile] gets, the installed version, and the LLM
    transport as an oracle from requests to replies.  Every observable
    action is appended to the [trace] as an [event], so theorems state
    what was printed, read, written and called, and in which order.
    Python exceptions are values of [exn]; [SystemExit] carries the
    process exit status.  [appends] and [raises_only] say which events a
    computation may append and which exceptions it may raise; their
    lemmas compose along [bind] and [try_catch]. *)

From S2P Require Import Prelude PyBuiltins Argparse Format.

Module World.

(** ** Messages and the transport contract of spec.md section 6 *)

(** One message of the conversation: [{role, content}]. *)
Record message : Type := Message { role : string; content : string }.

(** [complete(messages, model, timeout_seconds)]. *)
Record request : Type := Request {
  req_messages : list message;
  req_model : string;
  req_timeout : Z
}.

(** What the transport does with one request: the text, or it signals a
    timeout, a network/authentication failure, or a failure the
    provider reports. *)
Inductive reply : Type :=
| Completed (text : string)
| TimedOut
| TransportFailed (detail : string)
| ModelFailed (detail : string).

(** ** Observable events *)

Inductive event : Type :=
| Stdout (s : string)                    (** text written to standard output *)
| Stderr (s : string)                    (** text written to standard error *)
| HelpShown (prog : string)              (** argparse's help of [prog] on stdout *)
| UsageError (e : Argparse.cli_error)          (** usage and error message on stderr *)
| ReadStdin
| ReadFile (path : string)
| CreateTemp (path : string)
| WriteFile (path : string) (contents : string)
| Chmod (path : string) (mode : Z)
| Call (r : request).                    (** one call of the completion primitive *)

(** ** Exceptions *)

(** The Python exceptions of a run, by class: [SystemExit],
    [FileNotFoundError], [KeyError] (of a dict lookup [args[k]] or of
    [str.format]), the other exceptions [str.format] raises
    ([ValueError] for a malformed template, [IndexError], [TypeError]),
    the transport's failures, and the [TypeError] of a namespace value
    of the wrong type. *)
Inductive exn : Type :=
| SystemExit (code : Z)
| FileNotFound (path : string)
| KeyErr (key : string)
| FormatErr (e : Format.fmt_error)
| TransportExn (r : reply)
| TypeErr (key : string).

(** The exception [template.format(...)] raises for a format error: a
    missing keyword or key is a plain [KeyError]. *)
Definition exn_of_fmt (e : Format.fmt_error) : exn :=
  match e with
  | Format.KeyError k => KeyErr k
  | e => FormatErr e
  end.

(** ** The world *)

Record world : Type := World {
  w_stdin : string;
  w_files : list (string * string);
  w_tmpname : string;
  w_version : string;
  w_llm : request -> reply;
  w_trace : list event
}.

Definition io (A : Type) : Type := world -> result exn A * world.

Definition ret {A} (a : A) : io A := fun w => (Ok a, w).

Definition bind {A B} (c : io A) (k : A -> io B) : io B :=
  fun w => match c w with
           | (Ok a, w') => k a w'
           | (Err e, w') => (Err e, w')
           end.

Definition raise {A} (e : exn) : io A := fun w => (Err e, w).

(** [try: c except e: h(e)] for the exceptions [h] handles ([Some]). *)
Definition try_catch {A} (c : io A) (h : exn -> option (io A)) : io A :=
  fun w => match c w with
           | (Err e, w') => match h e with Some k => k w' | None => (Err e, w') end
           | r => r
           end.

Notation "x <- c ;; k" := (bind c (fun x => k))
  (at level 100, c at next level, right associativity) : cwhy_scope.
Notation "c ;; k" := (bind c (fun _ => k))
  (at level 100, right associativity) : cwhy_scope.

Definition with_trace (w : world) (t : list event) : world :=
  World (w_stdin w) (w_files w) (w_tmpname w) (w_version w) (w_llm w) t.

Definition emit (e : event) : io unit :=
  fun w => (Ok tt, with_trace w (w_trace w ++ [e])).

(** [print(s)] *)
Definition print (s : string) : io unit := emit (Stdout (s +:+ String "010"%char "")).

(** [print(s, file=sys.stderr)] *)
Definition eprint (s : string) : io unit := emit (Stderr (s +:+ String "010"%char "")).

(** [sys.stdin.read()]: the whole input, which is then consumed. *)
Definition read_stdin : io string :=
  fun w => (Ok (w_stdin w),
            World "" (w_files w) (w_tmpname w) (w_version w) (w_llm w) (w_trace w ++ [ReadStdin])).

Fixpoint file_lookup (fs : list (string * string)) (p : string) : option string :=
  match fs with
  | [] => None
  | (p', c) :: r => if String.eqb p p' then Some c else file_lookup r p
  end.

(** [open(path).read()]: [FileNotFoundError] when there is no such file. *)
Definition read_file (p : string) : io string :=
  emit (ReadFile p) ;;
  fun w => match file_lookup (w_files w) p with
           | Some c => (Ok c, w)
           | None => (Err (FileNotFound p), w)
           end.

(** [NamedTemporaryFile(mode="w", delete=False)]: an empty file with a
    fresh name. *)
Definition create_temp : io string :=
  fun w => (Ok (w_tmpname w),
            World (w_stdin w) ((w_tmpname w, "") :: w_files w) (w_tmpname w) (w_version w)
                  (w_llm w) (w_trace w ++ [CreateTemp (w_tmpname w)])).

(** [f.write(s)] on a file opened for writing, closed at the end of the
    [with] block. *)
Definition write_file (p s : string) : io unit :=
  fun w => (Ok tt,
            World (w_stdin w) ((p, s) :: w_files w) (w_tmpname w) (w_version w)
                  (w_llm w) (w_trace w ++ [WriteFile p s])).

Definition chmod (p : string) (mode : Z) : io unit := emit (Chmod p mode).

(** [importlib.metadata.metadata('cwhy')['Version']] *)
Definition get_version : io string := fun w => (Ok (w_version w), w).

(** [args[k]] *)
Definition lookup (d : dict) (k : string) : io pyval :=
  match dict_get d k with
  | Some v => ret v
  | None => raise (KeyErr k)
  end.

(** The completion primitive: one [Call] event, then the transport's
    reply; every reply but a text is signalled as an exception. *)
Definition complete (r : request) : io string :=
  emit (Call r) ;;
  fun w => match w_llm w r with
           | Completed t => (Ok t, w)
           | other => (Err (TransportExn other), w)
           end.

(** The exit status of a run: 0 on normal return, the [SystemExit]
    code, or 1 for an uncaught exception (Python prints a traceback). *)
Definition exit_status {A} (r : result exn A) : Z :=
  match r with
  | Ok _ => 0
  | Err (SystemExit c) => c
  | Err _ => 1
  end.


(** What a trace wrote to standard output, and to standard error. *)
Fixpoint stdout_of (t : list event) : string :=
  match t with
  | [] => ""
  | Stdout s :: r => s +:+ stdout_of r
  | _ :: r => stdout_of r
  end.

Fixpoint stderr_of (t : list event) : string :=
  match t with
  | [] => ""
  | Stderr s :: r => s +:+ stderr_of r
  | _ :: r => stderr_of r
  end.

(** The requests a trace sent to the completion primitive. *)
Fixpoint calls_of (t : list event) : list request :=
  match t with
  | [] => []
  | Call r :: t' => r :: calls_of t'
  | _ :: t' => calls_of t'
  end.

(** The events that change the file system: creating, writing and
    changing the mode of a file. *)
Definition writes_file (e : event) : bool :=
  match e with
  | CreateTemp _ | WriteFile _ _ | Chmod _ _ => true
  | _ => false
  end.

(** [c] only appends to the trace, and every event it appends satisfies
    [ok]: the footprint of a computation, used to show what a branch of
    the program never does (read standard input, call the model). *)
Definition appends {A} (ok : event -> Prop) (c : io A) : Prop :=
  forall w, exists l, w_trace (snd (c w)) = w_trace w ++ l /\ Forall ok l.

(** ** Monad laws and trace lemmas *)

Lemma bind_ret {A B} (a : A) (k : A -> io B) w : bind (ret a) k w = k a w.
Proof. reflexivity. Qed.

Lemma bind_assoc {A B C} (c : io A) (k1 : A -> io B) (k2 : B -> io C) w :
  bind (bind c k1) k2 w = bind c (fun a => bind (k1 a) k2) w.
Proof. unfold bind. destruct (c w) as [[a|e] w']; reflexivity. Qed.

Lemma bind_raise {A B} (e : exn) (k : A -> io B) w : bind (raise e) k w = (Err e, w).
Proof. reflexivity. Qed.

Lemma emit_trace e w : snd (emit e w) = with_trace w (w_trace w ++ [e]).
Proof. reflexivity. Qed.


Section Footprint.
Context (ok : event -> Prop).

Lemma appends_ret {A} (a : A) : appends ok (ret a).
Proof. intros w. exists []. by rewrite List.app_nil_r. Qed.

Lemma appends_raise {A} e : appends ok (@raise A e).
Proof. intros w. exists []. by rewrite List.app_nil_r. Qed.

Lemma appends_emit e : ok e -> appends ok (emit e).
Proof. intros He w. exists [e]. split; [done | by constructor]. Qed.

Lemma appends_bind {A B} (c : io A) (k : A -> io B) :
  appends ok c -> (forall a, appends ok (k a)) -> appends ok (bind c k).
Proof.
  intros Hc Hk w. unfold bind. destruct (Hc w) as (l1 & H1 & F1).
  destruct (c w) as [[a|e] w']; simpl in *; [| by exists l1].
  destruct (Hk a w') as (l2 & H2 & F2). exists (l1 ++ l2).
  rewrite H2, H1, List.app_assoc. split; [done | by apply Forall_app].
Qed.

Lemma appends_lookup d k : appends ok (lookup d k).
Proof. unfold lookup. destruct (dict_get d k); [apply appends_ret | apply appends_raise]. Qed.

Lemma appends_get_version : appends ok get_version.
Proof. intros w. exists []. by rewrite List.app_nil_r. Qed.

Lemma appends_read_file p : ok (ReadFile p) -> appends ok (read_file p).
Proof.
  intros Hp. apply appends_bind; [by apply appends_emit |]. intros _ w.
  exists []. rewrite List.app_nil_r. by destruct (file_lookup (w_files w) p).
Qed.

Lemma appends_create_temp : (forall p, ok (CreateTemp p)) -> appends ok create_temp.
Proof. intros Hp w. exists [CreateTemp (w_tmpname w)]. split; [done | by constructor]. Qed.

Lemma appends_write_file p s : ok (WriteFile p s) -> appends ok (write_file p s).
Proof. intros Hp w. exists [WriteFile p s]. split; [done | by constructor]. Qed.

Lemma appends_read_stdin : ok ReadStdin -> appends ok read_stdin.
Proof. intros Hp w. exists [ReadStdin]. split; [done | by constructor]. Qed.

Lemma appends_complete r : ok (Call r) -> appends ok (complete r).
Proof.
  intros Hr. apply appends_bind; [by apply appends_emit |]. intros _ w.
  exists []. rewrite List.app_nil_r. by destruct (w_llm w r).
Qed.

Lemma appends_weaken {A} (ok' : event -> Prop) (c : io A) :
  (forall e, ok' e -> ok e) -> appends ok' c -> appends ok c.
Proof.
  intros Hw Hc w. destruct (Hc w) as (l & Hl & F). exists l.
  split; [done | by eapply Forall_impl; [apply Hw | exact F]].
Qed.

Lemma appends_try_catch {A} (c : io A) (h : exn -> option (io A)) :
  appends ok c -> (forall e k, h e = Some k -> appends ok k) -> appends ok (try_catch c h).
Proof.
  intros Hc Hh w. unfold try_catch. destruct (Hc w) as (l1 & H1 & F1).
  destruct (c w) as [[a|e] w']; simpl in *; [by exists l1 |].
  destruct (h e) as [k|] eqn:He; [| by exists l1].
  destruct (Hh e k He w') as (l2 & H2 & F2). exists (l1 ++ l2).
  rewrite H2, H1, List.app_assoc. split; [done | by apply Forall_app].
Qed.
End Footprint.

(** [c] raises only exceptions satisfying [P]: the exceptional
    postcondition of a computation, used to bound the exit status. *)
Definition raises_only {A} (P : exn -> Prop) (c : io A) : Prop :=
  forall w, match fst (c w) with Err e => P e | Ok _ => True end.

Section Raises.
Context (P : exn -> Prop).

Lemma raises_ret {A} (a : A) : raises_only P (ret a).
Proof. intros w. exact I. Qed.

Lemma raises_raise {A} e : P e -> raises_only P (@raise A e).
Proof. intros He w. exact He. Qed.

Lemma raises_emit e : raises_only P (emit e).
Proof. intros w. exact I. Qed.

Lemma raises_bind {A B} (c : io A) (k : A -> io B) :
  raises_only P c -> (forall a, raises_only P (k a)) -> raises_only P (bind c k).
Proof.
  intros Hc Hk w. specialize (Hc w). unfold bind.
  destruct (c w) as [[a|e] w']; [apply Hk | done].
Qed.

Lemma raises_try_catch {A} (c : io A) (h : exn -> option (io A)) :
  raises_only P c -> (forall e k, h e = Some k -> raises_only P k) ->
  raises_only P (try_catch c h).
Proof.
  intros Hc Hh w. specialize (Hc w). unfold try_catch.
  destruct (c w) as [[a|e] w']; [done |].
  destruct (h e) as [k|] eqn:He; [by eapply Hh | done].
Qed.

Lemma raises_weaken {A} (P' : exn -> Prop) (c : io A) :
  (forall e, P' e -> P e) -> raises_only P' c -> raises_only P c.
Proof. intros Hw Hc w. specialize (Hc w). destruct (fst (c w)); auto. Qed.

(** A computation that returns in every world raises nothing. *)
Lemma raises_total {A} (c : io A) :
  (forall w, exists a w', c w = (Ok a, w')) -> raises_only P c.
Proof. intros Hc w. destruct (Hc w) as (a & w' & ->). exact I. Qed.

Lemma raises_lookup d k : P (KeyErr k) -> raises_only P (lookup d k).
Proof. intros Hk. unfold lookup. destruct (dict_get d k); [apply raises_ret | by apply raises_raise]. Qed.

(** A lookup that succeeds passes its value on. *)
Lemma raises_bind_lookup {B} d k v (f : pyval -> io B) :
  dict_get d k = Some v -> raises_only P (f v) -> raises_only P (bind (lookup d k) f).
Proof. intros Hv Hf. unfold lookup. by rewrite Hv. Qed.

Lemma raises_get_version : raises_only P get_version.
Proof. intros w. exact I. Qed.

Lemma raises_read_file p : P (FileNotFound p) -> raises_only P (read_file p).
Proof. intros Hp w. unfold read_file, bind, emit. cbn. by destruct (file_lookup (w_files w) p). Qed.

Lemma raises_create_temp : raises_only P create_temp.
Proof. intros w. exact I. Qed.

Lemma raises_write_file p s : raises_only P (write_file p s).
Proof. intros w. exact I. Qed.

Lemma raises_read_stdin : raises_only P read_stdin.
Proof. intros w. exact I. Qed.

Lemma raises_complete r : (forall x, P (TransportExn x)) -> raises_only P (complete r).
Proof. intros Hr w. unfold complete, bind, emit. cbn. destruct (w_llm w r); simpl; auto. Qed.
End Raises.

(** What a run that ends in an exception tells. *)
Lemma raises_only_elim {A} (P : exn -> Prop) (c : io A) w e :
  raises_only P c -> fst (c w) = Err e -> P e.
Proof. intros Hc He. specialize (Hc w). by rewrite He in Hc. Qed.

(** From here on [raises_only] is handled through its lemmas only, so
    that [apply] does not unfold it while matching. *)
#[global] Opaque raises_only.

(** Every event of a run of [c] is an event of the start or an event [c]
    may append. *)
Lemma appends_in {A} (ok : event -> Prop) (c : io A) w r w' e :
  appends ok c -> c w = (r, w') -> In e (w_trace w') -> In e (w_trace w) \/ ok e.
Proof.
  intros Hc Hr Hin. destruct (Hc w) as (l & Hl & F). rewrite Hr in Hl. simpl in Hl.
  rewrite Hl in Hin. apply in_app_or in Hin as [Hin | Hin]; [by left |].
  right. by eapply Forall_forall in F.
Qed.

Lemma with_trace_twice w t1 t2 : with_trace (with_trace w t1) t2 = with_trace w t2.
Proof. reflexivity. Qed.

Lemma with_trace_same w : with_trace w (w_trace w) = w.
Proof. by destruct w. Qed.

Lemma stdout_of_app t1 t2 : stdout_of (t1 ++ t2) = stdout_of t1 +:+ stdout_of t2.
Proof.
  induction t1 as [|[] t1 IH]; simpl; rewrite ?IH, ?string_app_nil_l, ?string_app_assoc; done.
Qed.

Lemma stderr_of_app t1 t2 : stderr_of (t1 ++ t2) = stderr_of t1 +:+ stderr_of t2.
Proof.
  induction t1 as [|[] t1 IH]; simpl; rewrite ?IH, ?string_app_nil_l, ?string_app_assoc; done.
Qed.

Lemma calls_of_app t1 t2 : calls_of (t1 ++ t2) = calls_of t1 ++ calls_of t2.
Proof. induction t1 as [|[] t1 IH]; simpl; rewrite ?IH; done. Qed.

Lemma bind_ret_eq {A B} (a : A) (k : A -> io B) : bind (ret a) k = k a.
Proof. reflexivity. Qed.

Lemma lookup_Some d k v : dict_get d k = Some v -> lookup d k = ret v.
Proof. unfold lookup. by intros ->. Qed.

#[export] Hint Resolve appends_ret appends_raise appends_emit appends_bind appends_lookup
  appends_get_version appends_read_file appends_create_temp appends_write_file
  appends_read_stdin appends_complete appends_try_catch : cwhy.

(** Prove a footprint: split the binds and the matches, then close the
    primitives, their side conditions by [discriminate] after beta. *)
Ltac footprint_with tac :=
  unfold print, eprint, chmod;
  solve [repeat first
    [ apply appends_ret | apply appends_raise | apply appends_emit | apply appends_lookup
    | apply appends_get_version | apply appends_read_file | apply appends_create_temp; intros ?
    | apply appends_write_file | apply appends_read_stdin | apply appends_complete
    | apply appends_bind; [| intros ?] | apply appends_try_catch; [| intros ? ? ?]
    | case_match | cbv beta; discriminate | solve [cbv beta; tac] ]].
Ltac footprint := footprint_with fail.

(** Prove an exceptional postcondition the same way. *)
Ltac raises_with tac :=
  unfold print, eprint, chmod;
  solve [repeat first
    [ apply raises_ret | apply raises_raise | apply raises_emit | apply raises_lookup
    | apply raises_get_version | apply raises_read_file | apply raises_create_temp
    | apply raises_write_file | apply raises_read_stdin | apply raises_complete
    | apply raises_bind; [| intros ?] | apply raises_try_catch; [| intros ? ? ?]
    | case_match | cbv beta; discriminate | solve [cbv beta; tac] ]].
Ltac raises := raises_with fail.

End World.
