(* ===== verification/Main.v ===== *)
(** * Main: [main()] of src/cwhy/__main__.py (lines 12-15 and 79-90)

    After [parse_args], [main()] takes one of three branches on the
    namespace dict: with [--wrapper] it writes the wrapper script
    ([wrapper(args)]: the template [wrapper.py.in] formatted with
    [compiler=args["wrapper_compiler"]] and [args=args]) into a
    [NamedTemporaryFile], makes it executable and prints its name; with
    [--version] it prints the version; otherwise it reads standard input
    and, when it is not empty, calls [cwhy.evaluate(args, stdin)].  The
    evaluator is a [Context] of the section: the theorems hold for every
    evaluator, and [Pipeline] instantiates it with the model of the core.
    The temporary file is created when the [with] block is entered, that
    is before [wrapper(args)] runs. *)

From S2P Require Import Prelude PyBuiltins Argparse Cli Format World.
Import World.

Module Main.

(** The template next to [__main__.py]. *)
Definition template_path : string := "wrapper.py.in".

(** [wrapper(args)] (lines 12-15). *)
Definition wrapper (args : dict) : io string :=
  template <- read_file template_path ;;
  compiler <- lookup args "wrapper_compiler" ;;
  match Format.py_format template
          [("compiler", Format.OVal compiler); ("args", Format.ODict args)] with
  | Ok s => ret s
  | Err e => raise (exn_of_fmt e)
  end.

(** Concrete worlds for the witnesses: the given input and files, and a
    transport that times out. *)
Definition main_world (stdin : string) (files : list (string * string)) : world :=
  World stdin files "/tmp/tmpk3x9" "0.4.2" (fun _ => TimedOut) [].

(** A template in the style of [wrapper.py.in]. *)
Definition demo_template : string := "exec {compiler} {args[llm]}".

(** An evaluator that does nothing. *)
Definition quiet (_ : dict) (_ : string) : io unit := ret tt.

(** The command line asks for the wrapper script. *)
Definition wrapper_requested (argv : list string) : Prop :=
  exists args, Argparse.parse_args Cli.cwhy_parser argv = Argparse.Parsed args /\
               dict_get args "wrapper" = Some (PyBool true).

Section Run.
(** [cwhy.evaluate(args, stdin)] *)
Context (evaluate : dict -> string -> io unit).

(** [main()] after the parser is built (lines 77-90); [0o755] is 493. *)
Definition main (argv : list string) : io unit :=
  match Argparse.parse_args Cli.cwhy_parser argv with
  | Argparse.Help prog => emit (HelpShown prog) ;; raise (SystemExit 0)
  | Argparse.Failed e => emit (UsageError e) ;; raise (SystemExit 2)
  | Argparse.Parsed args =>
      wr <- lookup args "wrapper" ;;
      if py_truthy wr then
        name <- create_temp ;;
        script <- wrapper args ;;
        write_file name script ;;
        chmod name 493 ;;
        print name
      else
        ver <- lookup args "version" ;;
        if py_truthy ver then
          v <- get_version ;; print ("cwhy version " +:+ v)
        else
          stdin <- read_stdin ;;
          if String.eqb stdin "" then ret tt else evaluate args stdin
  end.

(** ** Lemmas *)

(** The namespace of a successful parse has Boolean [wrapper] and
  [version] entries and a [wrapper_compiler] entry. *)
Lemma parsed_flags argv args :
Argparse.parse_args Cli.cwhy_parser argv = Argparse.Parsed args ->
(exists b, dict_get args "wrapper" = Some (PyBool b)) /\
(exists b, dict_get args "version" = Some (PyBool b)) /\
(exists v, dict_get args "wrapper_compiler" = Some v).
Proof.
intros H. apply Cli.parse_args_schema in H.
destruct (Cli.typed_get _ _ "wrapper" _ H eq_refl) as ([] & Hw & Hwt); try discriminate.
destruct (Cli.typed_get _ _ "version" _ H eq_refl) as ([] & Hv & Hvt); try discriminate.
destruct (Cli.typed_get _ _ "wrapper_compiler" _ H eq_refl) as (c & Hc & _).
eauto 6.
Qed.

(** Unfold the monad and the primitives of a run of [main]. *)
Ltac run_main :=
cbv [main bind ret raise emit lookup create_temp wrapper read_file write_file chmod
     print get_version read_stdin with_trace];
cbn [w_stdin w_files w_tmpname w_version w_llm w_trace file_lookup].

(** ** Theorems *)

(** C6: the wrapper branch, when the template renders: the temporary
  file is created, the template read, the script written, the file
  made executable ([0o755]), and only then its name printed; standard
  input is not read and the version is not printed, even with
  [--version] also given. *)
Theorem main_wrapper_trace (argv : list string)
  (args : dict) (w : world) (t script : string) (cv : pyval) :
Argparse.parse_args Cli.cwhy_parser argv = Argparse.Parsed args ->
dict_get args "wrapper" = Some (PyBool true) ->
w_tmpname w <> template_path ->
file_lookup (w_files w) template_path = Some t ->
dict_get args "wrapper_compiler" = Some cv ->
Format.py_format t [("compiler", Format.OVal cv); ("args", Format.ODict args)] = Ok script ->
main argv w =
  (Ok tt, World (w_stdin w) ((w_tmpname w, script) :: (w_tmpname w, "") :: w_files w)
            (w_tmpname w) (w_version w) (w_llm w)
            (w_trace w ++ [CreateTemp (w_tmpname w); ReadFile template_path;
                           WriteFile (w_tmpname w) script; Chmod (w_tmpname w) 493;
                           Stdout (w_tmpname w +:+ String "010"%char "")])).
Proof.
intros Hp Hw Hn Ht Hc Hf. run_main. rewrite Hp, Hw. cbn -[String.eqb].
apply String.eqb_neq in Hn. rewrite String.eqb_sym, Hn, Ht, Hc. cbn -[String.eqb].
rewrite Hf. cbn. by rewrite <- !List.app_assoc.
Qed.

(** C5: when the template cannot be read, [main] has already created the
  temporary file (the [with] block is entered before [wrapper(args)]
  runs): the empty file is left behind, no name is printed, and the
  run ends with the uncaught [FileNotFoundError] (exit status 1). *)
Theorem main_wrapper_leaks_temp (argv : list string) (args : dict) (w : world) :
Argparse.parse_args Cli.cwhy_parser argv = Argparse.Parsed args ->
dict_get args "wrapper" = Some (PyBool true) ->
w_tmpname w <> template_path ->
file_lookup (w_files w) template_path = None ->
main argv w =
  (Err (FileNotFound template_path),
   World (w_stdin w) ((w_tmpname w, "") :: w_files w) (w_tmpname w) (w_version w) (w_llm w)
         (w_trace w ++ [CreateTemp (w_tmpname w); ReadFile template_path])).
Proof.
intros Hp Hw Hn Ht. run_main. rewrite Hp, Hw. cbn -[String.eqb].
apply String.eqb_neq in Hn. rewrite String.eqb_sym, Hn, Ht. cbn -[String.eqb].
by rewrite <- !List.app_assoc.
Qed.



(** With neither [--wrapper] nor [--version], [main] reads standard
  input, then stops on an empty input or hands the parsed namespace and
  the whole input to [cwhy.evaluate]; nothing is printed before. *)
Lemma main_run_stdin (argv : list string) (args : dict) (w : world) :
Argparse.parse_args Cli.cwhy_parser argv = Argparse.Parsed args ->
dict_get args "wrapper" = Some (PyBool false) ->
dict_get args "version" = Some (PyBool false) ->
main argv w =
  (if String.eqb (w_stdin w) "" then ret tt else evaluate args (w_stdin w))
    (World "" (w_files w) (w_tmpname w) (w_version w) (w_llm w) (w_trace w ++ [ReadStdin])).
Proof. intros Hp Hw Hv. run_main. by rewrite Hp, Hw, Hv. Qed.


(** What [main()] does to the file system: a run only appends to the
  trace, and when the evaluator writes no file, [main()] creates,
  writes or changes the mode of a file only on a command line that asks
  for the wrapper. *)
Lemma main_footprint (argv : list string) :
(forall a s, appends (fun e => writes_file e = false) (evaluate a s)) ->
appends (fun e => writes_file e = false \/ wrapper_requested argv) (main argv).
Proof.
intros He. unfold main.
destruct (Argparse.parse_args _ argv) as [args|prog|err] eqn:Hp;
  [| apply (appends_weaken _ (fun e => writes_file e = false)); [by left | footprint_with ltac:(reflexivity)] ..].
destruct (parsed_flags _ _ Hp) as ((bw & Hw) & (bv & Hv) & _).
rewrite (lookup_Some _ _ _ Hw), bind_ret_eq.
destruct bw; cbn [py_truthy].
- apply (appends_weaken _ (fun _ => True)); [intros e _; right; by exists args |].
  unfold wrapper. footprint_with ltac:(exact I).
- apply (appends_weaken _ (fun e => writes_file e = false)); [by left |].
  rewrite (lookup_Some _ _ _ Hv), bind_ret_eq. destruct bv; cbn [py_truthy]; [footprint_with ltac:(reflexivity) |].
  apply appends_bind; [by apply appends_read_stdin | intros s].
  repeat case_match; first [apply appends_ret | apply He].
Qed.

(** C10: [--version] without [--wrapper] prints [cwhy version <v>] with the
    installed version and does nothing else: standard input is not read
    and the evaluator is not called. *)
Theorem main_version (argv : list string) (args : dict) (w : world) :
  Argparse.parse_args Cli.cwhy_parser argv = Argparse.Parsed args ->
  dict_get args "wrapper" = Some (PyBool false) ->
  dict_get args "version" = Some (PyBool true) ->
  main argv w =
    (Ok tt, with_trace w (w_trace w ++ [Stdout ("cwhy version " +:+ w_version w +:+ String "010"%char "")])).
Proof. intros Hp Hw Hv. run_main. by rewrite Hp, Hw, Hv. Qed.

End Run.

(** ** Witnesses *)

Lemma main_wrapper_trace_witness :
  main quiet ["--wrapper"] (main_world "" [(template_path, demo_template)]) =
    (Ok tt, World "" [("/tmp/tmpk3x9", "exec c++ gpt-3.5-turbo"); ("/tmp/tmpk3x9", "");
                      (template_path, demo_template)]
              "/tmp/tmpk3x9" "0.4.2" (fun _ => TimedOut)
              ([] ++ [CreateTemp "/tmp/tmpk3x9"; ReadFile template_path;
                      WriteFile "/tmp/tmpk3x9" "exec c++ gpt-3.5-turbo"; Chmod "/tmp/tmpk3x9" 493;
                      Stdout ("/tmp/tmpk3x9" +:+ String "010"%char "")])).
Proof.
  apply (main_wrapper_trace quiet ["--wrapper"] (dict_set Cli.cwhy_defaults "wrapper" (PyBool true))
           (main_world "" [(template_path, demo_template)]) demo_template
           "exec c++ gpt-3.5-turbo" (PyStr "c++")); by vm_compute.
Defined.

Lemma main_wrapper_leaks_temp_witness :
  main quiet ["--wrapper"] (main_world "" []) =
    (Err (FileNotFound template_path),
     World "" [("/tmp/tmpk3x9", "")] "/tmp/tmpk3x9" "0.4.2" (fun _ => TimedOut)
           ([] ++ [CreateTemp "/tmp/tmpk3x9"; ReadFile template_path])).
Proof.
  apply (main_wrapper_leaks_temp quiet ["--wrapper"]
           (dict_set Cli.cwhy_defaults "wrapper" (PyBool true)) (main_world "" [])); by vm_compute.
Defined.




Lemma main_version_witness :
  main quiet ["--version"] (main_world "" []) =
    (Ok tt, with_trace (main_world "" [])
              ([] ++ [Stdout ("cwhy version " +:+ "0.4.2" +:+ String "010"%char "")])).
Proof.
  apply (main_version quiet ["--version"] (dict_set Cli.cwhy_defaults "version" (PyBool true))
           (main_world "" [])); by vm_compute.
Defined.

End Main.
