(* ===== verification/Locations.v ===== *)
(** * Locations: the LocationParser of spec.md section 4.1

    [cwhy.evaluate] is not under src/; this component is modelled from the
    specification.  The diagnostic text is split into lines (Python's
    [str.split('\n')] without a final empty piece); each line is offered
    to an ordered list of recognizer rules (spec.md section 9), the first
    that yields a location wins; a line no rule recognizes is appended to
    the message of the last location, or dropped before the first one.
    A location line is [path:line[:column]: message], where [path]
    contains no colon apart from a drive prefix [X:\] or [X:/], [line] is
    at least 1, and one space after the separator belongs to it.
    [render_location] is the line [extract-sources] prints. *)

From S2P Require Import Prelude PyBuiltins.
From Stdlib Require Import DecimalString DecimalN.

Module Locations.

(** ** Data *)

(** [SourceLocation] (spec.md section 3). *)
Record location : Type := Loc {
  path : string;
  line : N;
  column : option N;
  message : string
}.

#[export] Instance location_eq_dec : EqDecision location.
Proof. solve_decision. Defined.

Definition nl : ascii := "010"%char.

(** ** Lines of the text *)

(** [s.split('\n')]: at least one piece. *)
Fixpoint split_nl (s : string) : list string :=
  match s with
  | "" => [""]
  | String c r =>
      let rest := split_nl r in
      if char_eqb c nl then "" :: rest
      else match rest with
           | h :: t => String c h :: t
           | [] => [String c ""]
           end
  end.

(** The lines of the text: a final empty piece (the text ends with a
    newline, or is empty) is not a line. *)
Definition lines_of (s : string) : list string :=
  let l := split_nl s in
  match rev l with
  | "" :: r => rev r
  | _ => l
  end.

(** ** Numbers *)

(** The longest run of digits at the start, and the rest. *)
Fixpoint span_digits (s : string) : string * string :=
  match s with
  | String c r =>
      if is_digit c then let '(ds, rest) := span_digits r in (String c ds, rest)
      else ("", s)
  | "" => ("", "")
  end.

(** A decimal number at the start of the text, and the text after it. *)
Definition number (s : string) : option (N * string) :=
  match span_digits s with
  | ("", _) => None
  | (ds, rest) =>
      match NilEmpty.uint_of_string ds with
      | Some u => Some (N.of_uint u, rest)
      | None => None
      end
  end.

(** One space after the separator belongs to it. *)
Definition drop_space (s : string) : string :=
  match s with
  | String c r => if char_eqb c " " then r else s
  | "" => ""
  end.

(** ** Recognizer rules *)

(** A rule yields a location from one line, or declines. *)
Definition recognizer := string -> option location.

(** The text after [path:]: [line[:column]:] then the message.  A line
    number 0 declines. *)
Definition after_path (p : string) (s : string) : option location :=
  match number s with
  | Some (ln, String c r) =>
      if char_eqb c ":" && negb (N.eqb ln 0) then
        match number r with
        | Some (col, String c' r') =>
            if char_eqb c' ":" then Some (Loc p ln (Some col) (drop_space r'))
            else Some (Loc p ln None (drop_space r))
        | _ => Some (Loc p ln None (drop_space r))
        end
      else None
  | _ => None
  end.

Definition is_alpha (c : ascii) : bool :=
  let n := nat_of_ascii c in ((65 <=? n)%nat && (n <=? 90)%nat) || ((97 <=? n)%nat && (n <=? 122)%nat).

Definition is_slash (c : ascii) : bool := char_eqb c "/" || char_eqb c "092".

(** A Windows path: drive letter, colon, slash, then a path up to the
    next colon. *)
Definition rule_drive : recognizer := fun s =>
  match s with
  | String d (String c (String sl r)) =>
      if is_alpha d && char_eqb c ":" && is_slash sl then
        match split_once ":" r with
        | Some (p, rest) => after_path (String d (String c (String sl p))) rest
        | None => None
        end
      else None
  | _ => None
  end.

(** A path up to the first colon. *)
Definition rule_plain : recognizer := fun s =>
  match split_once ":" s with
  | Some ("", _) => None
  | Some (p, rest) => after_path p rest
  | None => None
  end.

Definition rules : list recognizer := [rule_drive; rule_plain].

(** The first rule that yields a location. *)
Fixpoint first_rule (rs : list recognizer) (s : string) : option location :=
  match rs with
  | [] => None
  | r :: rs' => match r s with Some l => Some l | None => first_rule rs' s end
  end.

Definition recognize : string -> option location := first_rule rules.

(** What a recognizer rule promises the parser (spec.md section 9: new
    dialects are new rules): every location it yields has a line number
    of at least 1.  A list of rules keeps the promise when each rule
    does; instance resolution builds the proof for [rules]. *)
Class LawfulRule (r : recognizer) : Prop :=
  rule_line_pos : forall s l, r s = Some l -> line l <> 0%N.

Class LawfulRules (rs : list recognizer) : Prop :=
  rules_line_pos : forall s l, first_rule rs s = Some l -> line l <> 0%N.

(** ** The parser *)

Definition append_message (l : location) (s : string) : location :=
  Loc (path l) (line l) (column l) (message l +:+ String nl s).

(** [acc] holds the locations seen so far, the most recent first. *)
Fixpoint parse_lines (ls : list string) (acc : list location) : list location :=
  match ls with
  | [] => rev acc
  | s :: ls' =>
      match recognize s with
      | Some l => parse_lines ls' (l :: acc)
      | None =>
          match acc with
          | [] => parse_lines ls' []
          | a :: acc' => parse_lines ls' (append_message a s :: acc')
          end
      end
  end.

(** [parse(raw_text)] *)
Definition parse (text : string) : list location := parse_lines (lines_of text) [].

(** ** Rendering (spec.md section 4.5, [extract-sources]) *)

Definition render_location (l : location) : string :=
  path l +:+ ":" +:+ digits_of_N (line l) +:+
  match column l with Some c => ":" +:+ digits_of_N c | None => "" end +:+
  ": " +:+ message l.

(** The text of lines printed one after the other. *)
Definition unlines (xs : list string) : string := foldr (fun x acc => x +:+ String nl acc) "" xs.

(** The standard output of [extract-sources]: one printed line each. *)
Definition render_all (ls : list location) : string := unlines (map render_location ls).

(** What identifies a location: everything but the message. *)
Definition key (l : location) : string * N * option N := (path l, line l, column l).

(** ** Well-formed locations *)

Definition no_colon (s : string) : bool := negb (str_has ":" s).

(** A path [parse] reads back: not empty, no newline, no colon apart
    from a drive prefix. *)
Definition path_ok (p : string) : bool :=
  negb (String.eqb p "") && negb (str_has nl p) &&
  match p with
  | String d (String c (String sl r)) =>
      if is_alpha d && char_eqb c ":" && is_slash sl then no_colon r else no_colon p
  | _ => no_colon p
  end.

Definition location_ok (l : location) : bool :=
  path_ok (path l) && negb (N.eqb (line l) 0) && negb (str_has nl (message l)).

(** A Windows path with a column, and a location repeated. *)
Definition demo_locations : list location :=
  [Loc "C:\src\main.c" 12 (Some 3%N) "error: expected ';'";
   Loc "/usr/include/vector" 7 None "note: in instantiation";
   Loc "/usr/include/vector" 7 None "note: in instantiation"].

(** ** Lemmas *)

Lemma span_digits_uint u c r :
  is_digit c = false ->
  span_digits (NilEmpty.string_of_uint u +:+ String c r) = (NilEmpty.string_of_uint u, String c r).
Proof. intros Hc. induction u; simpl; rewrite ?IHu; try done. by rewrite Hc. Qed.

Lemma number_digits n c r :
  is_digit c = false -> number (digits_of_N n +:+ String c r) = Some (n, String c r).
Proof.
  intros Hc. unfold number, digits_of_N. rewrite span_digits_uint by done.
  pose proof (NilEmpty.usu (N.to_uint n)) as Hu.
  destruct (string_of_uint_head (N.to_uint n) (to_uint_not_nil n)) as (d & ds & Hd & _).
  rewrite Hd in Hu |- *. by rewrite Hu, Unsigned.of_to.
Qed.

Lemma number_space m : number (String " " m) = None.
Proof. reflexivity. Qed.

(** What follows the path's colon in a rendered location. *)
Lemma after_path_render p ln col m :
  ln <> 0%N ->
  after_path p (digits_of_N ln +:+
                match col with Some c => ":" +:+ digits_of_N c | None => "" end +:+ ": " +:+ m)
  = Some (Loc p ln col m).
Proof.
  intros Hln. apply N.eqb_neq in Hln. unfold after_path.
  destruct col as [c|]; rewrite ?string_app_cons, ?string_app_nil_l;
    rewrite number_digits by done; simpl_chars; rewrite Hln; cbn.
  - rewrite number_digits by done. reflexivity.
  - reflexivity.
Qed.

Lemma rule_plain_render l :
  negb (String.eqb (path l) "") && no_colon (path l) = true -> negb (N.eqb (line l) 0) = true ->
  rule_plain (render_location l) = Some l.
Proof.
  intros [Hne Hp]%andb_true_iff Hln. unfold rule_plain, render_location.
  change (":" +:+ ?x) with (String ":" x). apply negb_true_iff in Hp.
  rewrite split_once_app by done. destruct l as [p ln col m]; simpl in *.
  apply negb_true_iff, String.eqb_neq in Hne. destruct p; [done |].
  apply after_path_render. apply negb_true_iff, N.eqb_neq in Hln. done.
Qed.

Lemma render_location_eq l :
  render_location l =
  path l +:+ String ":" (digits_of_N (line l) +:+
    match column l with Some c => ":" +:+ digits_of_N c | None => "" end +:+ ": " +:+ message l).
Proof. reflexivity. Qed.

Lemma digit_not_slash c : is_digit c = true -> is_slash c = false.
Proof.
  unfold is_slash. intros Hd.
  destruct (char_eqb c "/") eqn:E1; [apply char_eqb_true in E1 as ->; discriminate |].
  destruct (char_eqb c "092") eqn:E2; [apply char_eqb_true in E2 as ->; discriminate | done].
Qed.

(** The drive rule declines a line whose path has no colon. *)
Lemma rule_drive_declines p t :
  p <> "" -> no_colon p = true -> (exists d t', t = String d t' /\ is_digit d = true) ->
  rule_drive (p +:+ String ":" t) = None.
Proof.
  intros Hne Hp (dg & t' & -> & Hdg). unfold no_colon in Hp. apply negb_true_iff in Hp.
  destruct p as [|d [|c [|sl r]]]; [done | | |]; cbn in Hp |- *;
    rewrite ?string_app_cons, ?string_app_nil_l; simpl_chars; cbn [rule_drive].
  - by rewrite (digit_not_slash dg Hdg), andb_false_r.
  - apply orb_false_iff in Hp as [_ Hc]. apply orb_false_iff in Hc as [Hc _].
    by rewrite char_eqb_sym, Hc, andb_false_r.
  - apply orb_false_iff in Hp as [_ Hc]. apply orb_false_iff in Hc as [Hc _].
    by rewrite char_eqb_sym, Hc, andb_false_r.
Qed.

Lemma digits_head n : exists d t, digits_of_N n = String d t /\ is_digit d = true.
Proof. unfold digits_of_N. apply string_of_uint_head, to_uint_not_nil. Qed.

(** A path [parse] reads back either has a drive prefix or no colon. *)
Lemma path_ok_cases p :
  path_ok p = true ->
  (exists d sl r, p = String d (String ":" (String sl r)) /\ is_alpha d = true /\
                  is_slash sl = true /\ no_colon r = true) \/
  (p <> "" /\ no_colon p = true).
Proof.
  unfold path_ok. intros [[Hne _]%andb_true_iff Hp]%andb_true_iff.
  apply negb_true_iff, String.eqb_neq in Hne.
  destruct p as [|d [|c [|sl r]]]; [done | by right | by right |].
  destruct (is_alpha d && char_eqb c ":" && is_slash sl) eqn:E; [| by right].
  apply andb_true_iff in E as [[Ha Hc]%andb_true_iff Hs]. apply char_eqb_true in Hc as ->.
  left. by eexists _, _, _.
Qed.

(** Every well-formed location is recognized from its rendered line. *)
Lemma recognize_render l : location_ok l = true -> recognize (render_location l) = Some l.
Proof.
  intros Hl. pose proof Hl as Hl'.
  unfold location_ok in Hl. apply andb_true_iff in Hl as [[Hp Hln]%andb_true_iff _].
  destruct (path_ok_cases _ Hp) as [(d & sl & r & Hpe & Ha & Hs & Hr) | [Hne Hnc]].
  - unfold recognize. cbn [first_rule rules].
    rewrite render_location_eq, Hpe. do 3 rewrite string_app_cons. cbn [rule_drive]. rewrite Ha, Hs, char_eqb_same. cbn.
    unfold no_colon in Hr. apply negb_true_iff in Hr. rewrite split_once_app by done.
    rewrite after_path_render by (by apply negb_true_iff, N.eqb_neq in Hln).
    by destruct l; simpl in *; subst.
  - unfold recognize. cbn [first_rule rules]. rewrite render_location_eq, rule_drive_declines; try done.
    + rewrite <- render_location_eq, rule_plain_render; [done | | done].
      apply andb_true_iff. split; [by apply negb_true_iff, String.eqb_neq | done].
    + destruct (digits_head (line l)) as (dg & t & Hd & Hdg). rewrite Hd. by eexists _, _.
Qed.

(** *** Lines *)

Lemma split_nl_app x s : str_has nl x = false -> split_nl (x +:+ String nl s) = x :: split_nl s.
Proof.
  induction x as [|c x IH]; rewrite ?string_app_nil_l, ?string_app_cons; simpl; [done |].
  intros [Hc Hx]%orb_false_iff. rewrite IH, char_eqb_sym, Hc by done. done.
Qed.

Lemma lines_of_unlines xs : Forall (fun x => str_has nl x = false) xs -> lines_of (unlines xs) = xs.
Proof.
  intros Hxs. unfold lines_of.
  assert (split_nl (unlines xs) = xs ++ [""]) as ->.
  { induction Hxs as [|x xs Hx _ IH]; [done |]. cbn [unlines foldr].
    rewrite split_nl_app by done. fold (unlines xs). by rewrite IH. }
  by rewrite rev_unit, rev_involutive.
Qed.

Lemma str_has_app c a b : str_has c (a +:+ b) = str_has c a || str_has c b.
Proof.
  induction a as [|d a IH]; rewrite ?string_app_nil_l, ?string_app_cons; simpl; [done |].
  by rewrite IH, orb_assoc.
Qed.

Lemma str_has_digits c n : is_digit c = false -> str_has c (digits_of_N n) = false.
Proof.
  intros Hc. unfold digits_of_N. induction (N.to_uint n); simpl; rewrite ?IHu; try done;
    (rewrite orb_false_r; destruct (char_eqb c _) eqn:E; [apply char_eqb_true in E as ->; done | done]).
Qed.

Lemma render_location_nl l : location_ok l = true -> str_has nl (render_location l) = false.
Proof.
  unfold location_ok, path_ok. intros [[[[_ Hp]%andb_true_iff _]%andb_true_iff _]%andb_true_iff Hm]%andb_true_iff.
  apply negb_true_iff in Hp, Hm. unfold render_location.
  rewrite !str_has_app, Hp, Hm, !str_has_digits by done.
  by destruct (column l); rewrite ?str_has_app, ?str_has_digits.
Qed.

(** *** The parser's loop *)

Lemma parse_lines_render ls acc :
  Forall (fun l => location_ok l = true) ls ->
  parse_lines (map render_location ls) acc = rev acc ++ ls.
Proof.
  intros Hls. revert acc. induction Hls as [|l ls Hl _ IH]; intros acc; simpl.
  - by rewrite List.app_nil_r.
  - rewrite recognize_render, IH by done. simpl. by rewrite <- List.app_assoc.
Qed.

Lemma parse_lines_keys ls acc :
  map key (parse_lines ls acc) = map key (rev acc) ++ map key (omap recognize ls).
Proof.
  revert acc. induction ls as [|s ls IH]; intros acc; simpl.
  - by rewrite List.app_nil_r.
  - destruct (recognize s) as [l|]; [| destruct acc as [|a acc]]; rewrite IH; simpl;
      rewrite ?map_app, <- ?List.app_assoc; done.
Qed.

(** A location comes from one rule, through [after_path]. *)
Lemma after_path_line p s l : after_path p s = Some l -> line l <> 0%N.
Proof.
  unfold after_path. destruct (number s) as [[ln [|c r]]|]; try discriminate.
  destruct (char_eqb c ":" && negb (N.eqb ln 0)) eqn:E; [| discriminate].
  apply andb_true_iff in E as [_ E]. apply negb_true_iff, N.eqb_neq in E.
  repeat case_match; by intros [= <-].
Qed.

#[export] Instance rule_drive_lawful : LawfulRule rule_drive.
Proof. intros s l. unfold rule_drive. repeat case_match; try discriminate. apply after_path_line. Qed.

#[export] Instance rule_plain_lawful : LawfulRule rule_plain.
Proof. intros s l. unfold rule_plain. repeat case_match; try discriminate; apply after_path_line. Qed.

#[export] Instance rules_nil_lawful : LawfulRules [].
Proof. by intros s l. Qed.

#[export] Instance rules_cons_lawful r rs : LawfulRule r -> LawfulRules rs -> LawfulRules (r :: rs).
Proof.
  intros Hr Hrs s l. cbn [first_rule]. destruct (r s) as [l'|] eqn:E; [intros [= <-] | apply Hrs].
  by eapply Hr.
Qed.

Lemma recognize_line s l : recognize s = Some l -> line l <> 0%N.
Proof. apply rules_line_pos. Qed.

Lemma append_message_key a s : key (append_message a s) = key a.
Proof. reflexivity. Qed.

Lemma parse_lines_unrecognized ls acc :
  Forall (fun s => recognize s = None) ls ->
  parse_lines ls acc = match acc with [] => [] | a :: acc' => rev (foldl append_message a ls :: acc') end.
Proof.
  intros Hls. revert acc. induction Hls as [|s ls Hs _ IH]; intros acc; simpl; rewrite ?Hs.
  - by destruct acc.
  - destruct acc; by rewrite IH.
Qed.

Lemma parse_lines_line ls acc :
  Forall (fun l => line l <> 0%N) acc -> Forall (fun l => line l <> 0%N) (parse_lines ls acc).
Proof.
  revert acc. induction ls as [|s ls IH]; intros acc Hacc; simpl.
  - by apply Forall_rev.
  - destruct (recognize s) as [l|] eqn:E; [| destruct acc as [|a acc]]; apply IH; try done.
    + constructor; [by eapply recognize_line | done].
    + inversion Hacc. by constructor.
Qed.

(** ** Theorems *)

(** round trip of [extract-sources]: parsing the printed lines of
    well-formed locations gives back the same locations, in the same
    order, duplicates and Windows drive paths included. *)
Theorem parse_render_all (ls : list location) :
  Forall (fun l => location_ok l = true) ls -> parse (render_all ls) = ls.
Proof.
  intros Hls. unfold parse, render_all. rewrite lines_of_unlines.
  - by rewrite parse_lines_render.
  - apply Forall_map. eapply Forall_impl; [apply render_location_nl | exact Hls].
Qed.

Lemma parse_render_all_witness :
  Forall (fun l => location_ok l = true) demo_locations /\
  parse (render_all demo_locations) = demo_locations.
Proof.
  assert (H : Forall (fun l => location_ok l = true) demo_locations) by (repeat constructor).
  split; [exact H | exact (parse_render_all demo_locations H)].
Defined.

(** the locations of a text are the locations its lines yield, in the
    order of the lines: the path, line and column of the [n]-th location
    are those the rules recognize in the [n]-th recognized line;
    unrecognized lines only extend messages. *)
Theorem parse_keys (text : string) :
  map key (parse text) = map key (omap recognize (lines_of text)).
Proof. unfold parse. by rewrite parse_lines_keys. Qed.

(** a text with no recognizable [path:line] (a linker error, an empty
    text) yields no location, and [extract-sources] prints nothing. *)
Theorem parse_no_location (text : string) :
  Forall (fun s => recognize s = None) (lines_of text) ->
  parse text = [] /\ render_all (parse text) = "".
Proof.
  intros Hs. unfold parse. by rewrite parse_lines_unrecognized.
Qed.

Lemma parse_no_location_witness :
  Forall (fun s => recognize s = None)
    (lines_of (unlines ["Undefined symbols for architecture arm64:";
                        "ld: symbol(s) not found"; "collect2: error: ld returned 1 exit status"])) /\
  (parse (unlines ["Undefined symbols for architecture arm64:";
                   "ld: symbol(s) not found"; "collect2: error: ld returned 1 exit status"]) = [] /\
   render_all (parse (unlines ["Undefined symbols for architecture arm64:";
                   "ld: symbol(s) not found"; "collect2: error: ld returned 1 exit status"])) = "").
Proof.
  assert (H : Forall (fun s => recognize s = None)
    (lines_of (unlines ["Undefined symbols for architecture arm64:";
                        "ld: symbol(s) not found"; "collect2: error: ld returned 1 exit status"]))).
  { rewrite lines_of_unlines by (repeat (apply Forall_cons; [vm_compute; reflexivity |]); apply Forall_nil).
    repeat (apply Forall_cons; [vm_compute; reflexivity |]); apply Forall_nil. }
  split; [exact H | exact (parse_no_location _ H)].
Defined.

(** every parsed location has a line number of at least 1
    ([SourceLocation.line >= 1], spec.md section 3). *)
Theorem parse_line_pos (text : string) : Forall (fun l => line l <> 0%N) (parse text).
Proof. apply parse_lines_line. constructor. Qed.

(** lines that no rule recognizes are continuation text: each is
    appended, after a newline, to the message of the location before
    them. *)
Theorem parse_continuation (l : location) (cs : list string) :
  location_ok l = true ->
  Forall (fun c => recognize c = None /\ str_has nl c = false) cs ->
  parse (unlines (render_location l :: cs)) = [foldl append_message l cs].
Proof.
  intros Hl Hcs. unfold parse. rewrite lines_of_unlines.
  - simpl. rewrite recognize_render by done. rewrite parse_lines_unrecognized; [done |].
    eapply Forall_impl; [| exact Hcs]; by intros ? [].
  - constructor; [by apply render_location_nl |]. eapply Forall_impl; [| exact Hcs]; by intros ? [].
Qed.

Lemma parse_continuation_witness :
  parse (unlines [render_location (Loc "a.cpp" 4 (Some 9%N) "error: no match");
                  "    4 |   f(x);"; "      |   ^"]) =
  [foldl append_message (Loc "a.cpp" 4 (Some 9%N) "error: no match") ["    4 |   f(x);"; "      |   ^"]].
Proof.
  apply parse_continuation; [reflexivity |]. repeat constructor.
Defined.

(** the example of spec.md section 8: one location
    [{path="/tmp/a.cpp", line=10, column=5, message="error: foo"}],
    printed back by [extract-sources] as the same line. *)
Example parse_spec_example :
  parse "/tmp/a.cpp:10:5: error: foo" = [Loc "/tmp/a.cpp" 10 (Some 5%N) "error: foo"] /\
  render_all (parse "/tmp/a.cpp:10:5: error: foo") = "/tmp/a.cpp:10:5: error: foo" +:+ String nl "".
Proof. split; vm_compute; reflexivity. Qed.

End Locations.
