(* ===== verification/Context.v ===== *)
(** * Context: the ContextAssembler of spec.md section 4.2

    Modelled from the specification.  [assemble loc window] reads
    [loc.path] through the [World]'s [read_file]; when the file is there
    and the line is within it, the snippet holds the lines
    [line - window .. line + window] clipped to the file, numbered from 1
    ([enumerate(lines[lo-1:hi], start=lo)]), and is [truncated] when the
    window was clipped on a side; a missing file, or a line past the end,
    gives an empty truncated snippet.  The [FileNotFoundError] of the read
    is caught: assembling never raises. *)

From S2P Require Import Prelude PyBuiltins Format World Locations.
Import World Locations.

Module Context.

(** [ContextSnippet] (spec.md section 3). *)
Record snippet : Type := Snippet {
  s_location : location;
  s_lines : list (N * string);
  truncated : bool
}.

(** The fixed window of the design: the statement and three lines on
    each side. *)
Definition window : nat := 3.

(** [enumerate(ls, start=i)] *)
Fixpoint number_from (i : nat) (ls : list string) : list (N * string) :=
  match ls with
  | [] => []
  | t :: r => (N.of_nat i, t) :: number_from (S i) r
  end.

(** The lines of the window around line [ln] of a file of lines [ls],
    and whether the window was clipped. *)
Definition extract (ls : list string) (ln w : nat) : list (N * string) * bool :=
  let n := length ls in
  if (ln =? 0)%nat || (n <? ln)%nat then ([], true)
  else
    let lo := Nat.max 1 (ln - w) in
    let hi := Nat.min n (ln + w) in
    (number_from lo (firstn (hi - (lo - 1)) (skipn (lo - 1) ls)),
     (ln <=? w)%nat || (n <? ln + w)%nat).

(** [assemble(location, window)] *)
Definition assemble (loc : location) (w : nat) : io snippet :=
  try_catch
    (text <- read_file (path loc) ;;
     let '(ls, tr) := extract (lines_of text) (N.to_nat (line loc)) w in
     ret (Snippet loc ls tr))
    (fun e => match e with
              | FileNotFound _ => Some (ret (Snippet loc [] true))
              | _ => None
              end).

(** A world with the given files, for the witnesses. *)
Definition demo_world (files : list (string * string)) : world :=
  World "" files "/tmp/tmpk3x9" "0.4.2" (fun _ => TimedOut) [].

(** ** Lemmas *)

Lemma number_from_fst i ls : map fst (number_from i ls) = map N.of_nat (seq i (length ls)).
Proof. revert i. induction ls as [|t ls IH]; intros i; simpl; [done |]. by rewrite IH. Qed.

Lemma number_from_lookup i ls :
  Forall (fun '(k, t) => i <= N.to_nat k /\ ls !! (N.to_nat k - i) = Some t) (number_from i ls).
Proof.
  revert i. induction ls as [|t ls IH]; intros i; simpl; constructor.
  - rewrite Nat2N.id, Nat.sub_diag. split; [lia | done].
  - eapply Forall_impl; [| apply IH]. intros [k u] [Hk Hu]. split; [lia |].
    replace (N.to_nat k - i) with (S (N.to_nat k - S i)) by lia. done.
Qed.

Lemma number_from_length i ls : length (number_from i ls) = length ls.
Proof. revert i. induction ls; intros i; simpl; auto. Qed.

(** The window of a line within the file. *)
Lemma extract_in ls ln w :
  1 <= ln <= length ls ->
  let lo := Nat.max 1 (ln - w) in let hi := Nat.min (length ls) (ln + w) in
  map fst (fst (extract ls ln w)) = map N.of_nat (seq lo (S hi - lo)) /\
  Forall (fun '(k, t) => ls !! (N.to_nat k - 1) = Some t) (fst (extract ls ln w)) /\
  snd (extract ls ln w) = (ln <=? w)%nat || (length ls <? ln + w)%nat.
Proof.
  intros Hln lo hi. unfold extract.
  replace ((ln =? 0)%nat || (length ls <? ln)%nat) with false
    by (symmetry; apply orb_false_iff; split; [apply Nat.eqb_neq | apply Nat.ltb_ge]; lia).
  cbn [fst snd]. fold lo hi. split; [| split; [| done]].
  - rewrite number_from_fst, length_take, length_drop. f_equal. f_equal. lia.
  - eapply Forall_impl; [| apply number_from_lookup]. intros [k t] [Hk Ht].
    apply lookup_take_Some in Ht as [Ht _]. rewrite lookup_drop in Ht.
    replace (lo - 1 + (N.to_nat k - lo)) with (N.to_nat k - 1) in Ht by lia. done.
Qed.

Lemma extract_length ls ln w : length (fst (extract ls ln w)) <= 2 * w + 1.
Proof.
  unfold extract. destruct (_ || _); simpl; [lia |].
  rewrite number_from_length, length_take. lia.
Qed.

(** What [assemble] does to the world: it reads the file, nothing else,
    and yields the snippet the text gives. *)
Lemma assemble_run loc w wd :
  assemble loc w wd =
  (Ok (match file_lookup (w_files wd) (path loc) with
       | Some text => let '(ls, tr) := extract (lines_of text) (N.to_nat (line loc)) w in
                      Snippet loc ls tr
       | None => Snippet loc [] true
       end),
   with_trace wd (w_trace wd ++ [ReadFile (path loc)])).
Proof.
  unfold assemble, try_catch, read_file, bind, emit. cbn [w_files with_trace].
  destruct (file_lookup _ _) as [text|]; [| done].
  by destruct (extract _ _ _).
Qed.

Lemma assemble_ok loc w wd :
  exists sn, assemble loc w wd = (Ok sn, with_trace wd (w_trace wd ++ [ReadFile (path loc)])) /\
             s_location sn = loc.
Proof.
  rewrite assemble_run. destruct (file_lookup _ _); [destruct (extract _ _ _) |]; by eexists.
Qed.

(** ** Theorems *)

(** assembling never raises and only reads: for every location and
    world it returns a snippet of the location with at most
    [2 * window + 1] lines, and the world changes only by the read of
    [loc.path] in the trace. *)
Theorem assemble_total (loc : location) (w : nat) (wd : world) :
  exists sn, assemble loc w wd = (Ok sn, with_trace wd (w_trace wd ++ [ReadFile (path loc)])) /\
             s_location sn = loc /\ length (s_lines sn) <= 2 * w + 1.
Proof.
  rewrite assemble_run. destruct (file_lookup _ _) as [text|].
  - pose proof (extract_length (lines_of text) (N.to_nat (line loc)) w) as Hl.
    destruct (extract _ _ _) as [ls tr]. by eexists.
  - eexists. split_and!; [done | done | simpl; lia].
Qed.

(** [ContextUnavailable] (spec.md sections 4.2 and 7): a missing file,
    or a line past the end of the file, gives an empty snippet marked
    [truncated], and is not an error. *)
Theorem assemble_unavailable (loc : location) (w : nat) (wd : world) :
  (file_lookup (w_files wd) (path loc) = None \/
   exists text, file_lookup (w_files wd) (path loc) = Some text /\
                length (lines_of text) < N.to_nat (line loc)) ->
  assemble loc w wd = (Ok (Snippet loc [] true), with_trace wd (w_trace wd ++ [ReadFile (path loc)])).
Proof.
  rewrite assemble_run. intros [-> | (text & -> & Hlt)]; [done |].
  unfold extract. replace (length (lines_of text) <? N.to_nat (line loc))%nat with true
    by (symmetry; apply Nat.ltb_lt; lia). by rewrite orb_true_r.
Qed.

Lemma assemble_unavailable_witness :
  assemble (Loc "/usr/include/gen.h" 40 None "note") window (demo_world []) =
  (Ok (Snippet (Loc "/usr/include/gen.h" 40 None "note") [] true),
   with_trace (demo_world []) ([] ++ [ReadFile "/usr/include/gen.h"])).
Proof. apply assemble_unavailable. by left. Defined.

(** the window of a line within a readable file: the snippet holds the
    lines [max 1 (line - w) .. min n (line + w)] of the file, in order,
    each with its own text, and is [truncated] exactly when the window
    was clipped at the start or at the end of the file. *)
Theorem assemble_window (loc : location) (w : nat) (wd : world) (text : string) :
  file_lookup (w_files wd) (path loc) = Some text ->
  1 <= N.to_nat (line loc) <= length (lines_of text) ->
  let ls := lines_of text in let ln := N.to_nat (line loc) in
  let lo := Nat.max 1 (ln - w) in let hi := Nat.min (length ls) (ln + w) in
  exists sn, assemble loc w wd = (Ok sn, with_trace wd (w_trace wd ++ [ReadFile (path loc)])) /\
    s_location sn = loc /\
    map fst (s_lines sn) = map N.of_nat (seq lo (S hi - lo)) /\
    Forall (fun '(k, t) => ls !! (N.to_nat k - 1) = Some t) (s_lines sn) /\
    truncated sn = (ln <=? w)%nat || (length ls <? ln + w)%nat.
Proof.
  intros Hf Hln ls ln lo hi. rewrite assemble_run, Hf.
  destruct (extract_in (lines_of text) (N.to_nat (line loc)) w Hln) as (H1 & H2 & H3).
  destruct (extract _ _ _) as [l tr]. by eexists.
Qed.

Lemma assemble_window_witness :
  exists sn, assemble (Loc "main.c" 2 (Some 5%N) "error: x") window
               (demo_world [("main.c", unlines ["int f(void);"; "int main() {"; "  return f()"; "}"])]) =
             (Ok sn, with_trace (demo_world [("main.c", unlines ["int f(void);"; "int main() {"; "  return f()"; "}"])])
                       ([] ++ [ReadFile "main.c"])) /\
    s_location sn = Loc "main.c" 2 (Some 5%N) "error: x" /\
    map fst (s_lines sn) = map N.of_nat (seq 1 4) /\
    Forall (fun '(k, t) => lines_of (unlines ["int f(void);"; "int main() {"; "  return f()"; "}"])
                             !! (N.to_nat k - 1) = Some t) (s_lines sn) /\
    truncated sn = true.
Proof.
  apply (assemble_window (Loc "main.c" 2 (Some 5%N) "error: x") window
           (demo_world [("main.c", unlines ["int f(void);"; "int main() {"; "  return f()"; "}"])])
           (unlines ["int f(void);"; "int main() {"; "  return f()"; "}"])); vm_compute; [done | lia].
Defined.

End Context.
