(* ===== verification/Prompt.v ===== *)
(** * Prompt: the PromptBuilder of spec.md section 4.3

    Modelled from the specification.  The invocation configuration
    ([config]) and the payload ([payload]) of spec.md section 3;
    [build] assembles a snippet for every location, in order (every file
    is read), then keeps the first [max_context] of them; the
    instructions are fixed per mode.  [messages] is the conversation sent
    to the completion primitive: the instructions as the system message,
    the diagnostic text followed by the retained snippets as the user
    message. *)

From S2P Require Import Prelude PyBuiltins Format World Locations Context.
Import World Locations Context.

Module Prompt.

(** ** Data *)

(** The modes that ask the model. *)
Inductive ask : Type := Explain | Fix.

Inductive run_mode : Type := Ask (a : ask) | ExtractSources.

#[export] Instance ask_eq_dec : EqDecision ask.
Proof. solve_decision. Defined.

#[export] Instance run_mode_eq_dec : EqDecision run_mode.
Proof. solve_decision. Defined.

(** The invocation configuration (spec.md section 3), with the
    [--show-prompt] flag of the command line (src lines 49-53). *)
Record config : Type := Config {
  model : string;
  timeout_seconds : Z;
  max_context : Z;
  mode : run_mode;
  show_prompt : bool
}.

(** [PromptPayload] *)
Record payload : Type := Payload {
  instructions : string;
  diagnostic_text : string;
  snippets : list snippet;
  budget : Z
}.

(** ** Operations *)

Definition instructions_for (a : ask) : string :=
  match a with
  | Explain => "Explain the following compiler diagnostic and its root cause."
  | Fix => "Propose a concrete fix, as a patch, for the following compiler diagnostic."
  end.

Definition mode_instructions (m : run_mode) : string :=
  match m with Ask a => instructions_for a | ExtractSources => "" end.

(** A snippet for every location, in order. *)
Fixpoint assemble_all (locs : list location) : io (list snippet) :=
  match locs with
  | [] => ret []
  | l :: r => s <- assemble l window ;; ss <- assemble_all r ;; ret (s :: ss)
  end.

(** [build(diagnostic_text, locations, cfg)]: a negative [max_context]
    keeps nothing. *)
Definition build (diag : string) (locs : list location) (cfg : config) : io payload :=
  ss <- assemble_all locs ;;
  ret (Payload (mode_instructions (mode cfg)) diag (firstn (Z.to_nat (max_context cfg)) ss)
               (max_context cfg)).

(** A snippet in the user message: its location, then its numbered
    lines. *)
Definition snippet_text (sn : snippet) : string :=
  unlines ((path (s_location sn) +:+ ":" +:+ digits_of_N (line (s_location sn))) ::
           map (fun '(k, t) => digits_of_N k +:+ ": " +:+ t) (s_lines sn)).

Definition messages (p : payload) : list World.message :=
  [Message "system" (instructions p);
   Message "user" (diagnostic_text p +:+ foldr (fun sn acc => snippet_text sn +:+ acc) "" (snippets p))].

(** ** Lemmas *)

(** Every location is assembled, in order, each read showing in the
    trace. *)
Lemma assemble_all_run locs wd :
  exists ss, assemble_all locs wd =
             (Ok ss, with_trace wd (w_trace wd ++ map (fun l => ReadFile (path l)) locs)) /\
             map s_location ss = locs.
Proof.
  revert wd. induction locs as [|l locs IH]; intros wd.
  - exists []. by rewrite List.app_nil_r, with_trace_same.
  - destruct (assemble_ok l window wd) as (sn & Hs & Hl).
    destruct (IH (with_trace wd (w_trace wd ++ [ReadFile (path l)]))) as (ss & Hss & Hm).
    exists (sn :: ss). cbn [assemble_all]. unfold bind at 1. rewrite Hs. unfold bind. rewrite Hss.
    cbn. rewrite <- List.app_assoc. by rewrite Hl, Hm.
Qed.

Lemma build_run diag locs cfg wd :
  exists ss, build diag locs cfg wd =
    (Ok (Payload (mode_instructions (mode cfg)) diag (firstn (Z.to_nat (max_context cfg)) ss)
                 (max_context cfg)),
     with_trace wd (w_trace wd ++ map (fun l => ReadFile (path l)) locs)) /\
    map s_location ss = locs.
Proof.
  destruct (assemble_all_run locs wd) as (ss & Hss & Hm). exists ss.
  unfold build, bind. by rewrite Hss.
Qed.

(** ** Theorems *)

(** the payload keeps the snippets of exactly the first [max_context]
    locations, in the order of the diagnostic (the cap drops the later
    ones); every location's file is read, in order; the payload carries
    the diagnostic text and the instructions of the mode; building never
    raises. *)
Theorem build_first (diag : string) (locs : list location) (cfg : config) (wd : world) :
  exists p, build diag locs cfg wd =
            (Ok p, with_trace wd (w_trace wd ++ map (fun l => ReadFile (path l)) locs)) /\
    map s_location (snippets p) = firstn (Z.to_nat (max_context cfg)) locs /\
    diagnostic_text p = diag /\ instructions p = mode_instructions (mode cfg).
Proof.
  destruct (build_run diag locs cfg wd) as (ss & Hb & Hm). rewrite Hb.
  eexists. split_and!; [done | | done | done]. cbn. by rewrite <- firstn_map, Hm.
Qed.

(** the number of snippets never exceeds [max_context] (nor the
    number of locations). *)
Theorem build_budget (diag : string) (locs : list location) (cfg : config) (wd : world) (p : payload) :
  fst (build diag locs cfg wd) = Ok p ->
  length (snippets p) <= Z.to_nat (max_context cfg) /\ length (snippets p) <= length locs.
Proof.
  destruct (build_run diag locs cfg wd) as (ss & Hb & Hm). rewrite Hb. intros [= <-]. cbn.
  rewrite length_take, <- Hm, length_map. lia.
Qed.

Lemma build_budget_witness :
  length (snippets (Payload (instructions_for Explain) "a.c:1: e" [] 0)) <= Z.to_nat 0 /\
  length (snippets (Payload (instructions_for Explain) "a.c:1: e" [] 0)) <= length [Loc "a.c" 1 None "e"].
Proof.
  apply (build_budget "a.c:1: e" [Loc "a.c" 1 None "e"] (Config "gpt-4" 60 0 (Ask Explain) false)
           (demo_world [])).
  reflexivity.
Defined.

(** with zero locations the conversation is the instructions and the
    diagnostic text alone. *)
Theorem build_no_locations (diag : string) (cfg : config) (wd : world) :
  exists p, fst (build diag [] cfg wd) = Ok p /\
    messages p = [Message "system" (mode_instructions (mode cfg)); Message "user" diag].
Proof.
  destruct (build_run diag [] cfg wd) as ([|sn ss] & Hb & Hm); [| done]. rewrite Hb.
  eexists. split; [done |]. unfold messages. cbn. rewrite firstn_nil. cbn.
  by rewrite string_app_nil_r.
Qed.

(** the scenario of spec.md section 8: two locations in the same file
    on adjacent lines with [max_context = 1]: the payload retains only
    the first location's snippet, not merged with the second. *)
Example build_adjacent_cap :
  fst (build "m.c:2:3: error: a\nm.c:3:1: error: b"
             [Loc "m.c" 2 (Some 3%N) "error: a"; Loc "m.c" 3 (Some 1%N) "error: b"]
             (Config "gpt-3.5-turbo" 60 1 (Ask Explain) false)
             (demo_world [("m.c", unlines ["int x;"; "int y = z;"; "int w = v;"])])) =
  Ok (Payload (instructions_for Explain) "m.c:2:3: error: a\nm.c:3:1: error: b"
        [Snippet (Loc "m.c" 2 (Some 3%N) "error: a")
                 [(1%N, "int x;"); (2%N, "int y = z;"); (3%N, "int w = v;")] true] 1).
Proof. vm_compute. reflexivity. Qed.

End Prompt.
