(* ===== verification/Dispatch.v ===== *)
(** * Dispatch: the LLMDispatcher of spec.md section 4.4

    Modelled from the specification.  [dispatch] sends the payload's
    conversation, with the model name and the timeout, to the completion
    primitive of the [World] exactly once, and turns what the transport
    signals into a value of [dispatch_result]: the exception of the call
    is caught and classified, nothing is retried, nothing is cached.  The
    timeout is carried by the request; how long the transport waits is
    the transport's, so the model has no clock. *)

From S2P Require Import Prelude PyBuiltins Format World Locations Context Prompt.
Import World Prompt.

Module Dispatch.

(** [DispatchResult] (spec.md section 3). *)
Inductive dispatch_result : Type :=
| Success (text : string)
| Timeout
| TransportError (detail : string)
| ModelError (detail : string).

#[export] Instance dispatch_result_eq_dec : EqDecision dispatch_result.
Proof. solve_decision. Defined.

Definition classify_reply (r : reply) : dispatch_result :=
  match r with
  | Completed t => Success t
  | TimedOut => Timeout
  | TransportFailed d => TransportError d
  | ModelFailed d => ModelError d
  end.

Definition request_of (p : payload) (model : string) (timeout : Z) : request :=
  Request (messages p) model timeout.

(** [dispatch(payload, model, timeout_seconds)] *)
Definition dispatch (p : payload) (model : string) (timeout : Z) : io dispatch_result :=
  try_catch
    (t <- complete (request_of p model timeout) ;; ret (Success t))
    (fun e => match e with
              | TransportExn r => Some (ret (classify_reply r))
              | _ => None
              end).

(** ** Lemmas *)

(** One request, one result (spec.md section 4.4): [dispatch] calls
    the completion primitive exactly once, with the payload's messages,
    the model and the timeout; it never raises; its result is what the
    transport signalled ([Success] carrying the text verbatim,
    [Timeout], [TransportError], [ModelError]); nothing else changes. *)
Lemma dispatch_run (p : payload) (model : string) (timeout : Z) (wd : world) :
  dispatch p model timeout wd =
    (Ok (classify_reply (w_llm wd (request_of p model timeout))),
     with_trace wd (w_trace wd ++ [Call (request_of p model timeout)])).
Proof.
  unfold dispatch, try_catch, complete, bind, emit. cbn [w_llm with_trace].
  by destruct (w_llm wd _).
Qed.

End Dispatch.
