(* ===== verification/Render.v ===== *)
(** * Render: the ModeRenderer of spec.md section 4.5

    Modelled from the specification.  [render_locations] is the
    [extract-sources] mode: each location printed on its own line.
    [render_result] is the [explain] and [fix] modes: the model's text is
    printed verbatim; a failed dispatch prints a line naming the failure
    kind on standard error and exits with status 1 ([sys.exit(1)]). *)

From S2P Require Import Prelude PyBuiltins Format World Locations Context Prompt Dispatch.
Import World Locations Dispatch.

Module Render.

(** [print] each string, in order. *)
Fixpoint print_all (ls : list string) : io unit :=
  match ls with
  | [] => ret tt
  | s :: r => print s ;; print_all r
  end.

(** [extract-sources] *)
Definition render_locations (locs : list location) : io unit :=
  print_all (map render_location locs).

(** The failure kinds of spec.md section 7. *)
Definition failure_message (r : dispatch_result) : string :=
  match r with
  | Success _ => ""
  | Timeout => "cwhy: DispatchTimeout: the model did not answer in time"
  | TransportError d => "cwhy: DispatchTransportError: " +:+ d
  | ModelError d => "cwhy: DispatchModelError: " +:+ d
  end.

(** [explain] and [fix] *)
Definition render_result (r : dispatch_result) : io unit :=
  match r with
  | Success t => print t
  | _ => eprint (failure_message r) ;; raise (SystemExit 1)
  end.

(** ** Lemmas *)

Lemma print_all_run ls wd :
  print_all ls wd = (Ok tt, with_trace wd (w_trace wd ++ map (fun s => Stdout (s +:+ String nl "")) ls)).
Proof.
  revert wd. induction ls as [|s ls IH]; intros wd; cbn [print_all map].
  - by rewrite List.app_nil_r, with_trace_same.
  - unfold bind at 1. cbn. rewrite IH. cbn. by rewrite <- List.app_assoc.
Qed.

Lemma stdout_of_lines ls : stdout_of (map (fun s => Stdout (s +:+ String nl "")) ls) = unlines ls.
Proof.
  induction ls as [|s ls IH]; [done |]. cbn [map stdout_of]. rewrite IH.
  by rewrite string_app_assoc, string_app_cons, string_app_nil_l.
Qed.

(** ** Theorems *)

(** [extract-sources] prints one line per location, in order, and
    nothing else: its standard output is [render_all locs] (empty for no
    location), it reads nothing and calls nothing, and it returns
    normally. *)
Theorem render_locations_stdout (locs : list location) (wd : world) :
  fst (render_locations locs wd) = Ok tt /\
  w_trace (snd (render_locations locs wd)) =
    w_trace wd ++ map (fun l => Stdout (render_location l +:+ String nl "")) locs /\
  stdout_of (w_trace (snd (render_locations locs wd))) = stdout_of (w_trace wd) +:+ render_all locs.
Proof.
  unfold render_locations. rewrite print_all_run. cbn.
  split_and!; [done | by rewrite map_map | by rewrite stdout_of_app, stdout_of_lines].
Qed.

End Render.
