(* ===== verification/Pipeline.v ===== *)
(** * Pipeline: [cwhy.evaluate] and the whole program

    Modelled from the specification (spec.md sections 2, 5 and 7), the
    evaluator [main()] calls on a non-empty input: the configuration is
    read from the namespace dict ([args["llm"]], [args["timeout"]],
    [args["max_context"]], [args["subcommand"]], [args["show_prompt"]]);
    the input is parsed into locations; [extract-sources] prints them and
    stops; [explain] and [fix] build the payload, then either print the
    conversation and stop ([--show-prompt]: "only print prompt and exit",
    src line 52) or dispatch it once and render the result.
    [cwhy] is [main()] of src/cwhy/__main__.py with this evaluator, the
    whole program from the command line to the exit status. *)

From S2P Require Import Prelude PyBuiltins Argparse Cli Format World Main Locations Context Prompt Dispatch Render.
Import World Locations Context Prompt Dispatch Render.

Module Pipeline.

(** ** The configuration *)

(** [args[k]], a string. *)
Definition get_str (args : dict) (k : string) : result exn string :=
  match dict_get args k with
  | Some (PyStr s) => Ok s
  | Some _ => Err (TypeErr k)
  | None => Err (KeyErr k)
  end.

(** [args[k]], an int. *)
Definition get_int (args : dict) (k : string) : result exn Z :=
  match dict_get args k with
  | Some (PyInt z) => Ok z
  | Some _ => Err (TypeErr k)
  | None => Err (KeyErr k)
  end.

(** [args[k]], a Boolean flag. *)
Definition get_bool (args : dict) (k : string) : result exn bool :=
  match dict_get args k with
  | Some (PyBool b) => Ok b
  | Some _ => Err (TypeErr k)
  | None => Err (KeyErr k)
  end.

(** The mode a sub-command selects. *)
Definition mode_of (sc : string) : result exn run_mode :=
  if String.eqb sc "explain" then Ok (Ask Explain)
  else if String.eqb sc "fix" then Ok (Ask Fix)
  else if String.eqb sc "extract-sources" then Ok ExtractSources
  else Err (KeyErr sc).

Definition config_of (args : dict) : result exn config :=
  let* m := get_str args "llm" in
  let* t := get_int args "timeout" in
  let* mc := get_int args "max_context" in
  let* sc := get_str args "subcommand" in
  let* md := mode_of sc in
  let* sp := get_bool args "show_prompt" in
  Ok (Config m t mc md sp).

(** ** The evaluator *)

(** [cwhy.evaluate(args, stdin)] *)
Definition evaluate (args : dict) (stdin : string) : io unit :=
  match config_of args with
  | Err e => raise e
  | Ok cfg =>
      let locs := parse stdin in
      match mode cfg with
      | ExtractSources => render_locations locs
      | Ask _ =>
          p <- build stdin locs cfg ;;
          if show_prompt cfg then print_all (map content (messages p))
          else r <- dispatch p (model cfg) (timeout_seconds cfg) ;; render_result r
      end
  end.

(** The program: [main()] with this evaluator. *)
Definition cwhy (argv : list string) : io unit := Main.main evaluate argv.

(** ** Concrete inputs, for the witnesses *)

(** Two errors in one file, on adjacent lines. *)
Definition demo_input : string := unlines ["m.c:2:3: error: 'z' undeclared"; "m.c:3:1: error: 'v' undeclared"].

Definition demo_files : list (string * string) :=
  [("m.c", unlines ["int x;"; "int y = z;"; "int w = v;"])].

Definition pipe_world (stdin : string) (llm : request -> reply) : world :=
  World stdin demo_files "/tmp/tmpk3x9" "0.4.2" llm [].

Definition fix_args : dict := dict_set Cli.cwhy_defaults "subcommand" (PyStr "fix").
Definition fix_config : config := Config "gpt-3.5-turbo" 60 30 (Ask Fix) false.

(** ** Lemmas *)

(** The reads of the assembler write nothing and call nothing. *)
Lemma reads_silent (locs : list location) :
  stdout_of (map (fun l => ReadFile (path l)) locs) = "" /\
  stderr_of (map (fun l => ReadFile (path l)) locs) = "" /\
  calls_of (map (fun l => ReadFile (path l)) locs) = [].
Proof. induction locs as [|l locs IH]; [done |]. exact IH. Qed.

(** Split the observations of a trace along its appends. *)
Ltac trace_simpl :=
  repeat progress (rewrite ?stdout_of_app, ?stderr_of_app, ?calls_of_app;
                   cbn [stdout_of stderr_of calls_of]);
  try match goal with
  | |- context [map (fun l => ReadFile (path l)) ?ls] =>
      let H1 := fresh in let H2 := fresh in let H3 := fresh in
      destruct (reads_silent ls) as (H1 & H2 & H3); rewrite ?H1, ?H2, ?H3; clear H1 H2 H3
  end;
  rewrite ?string_app_nil_l, ?string_app_nil_r, ?List.app_nil_r.

(** An [explain] or [fix] run of the evaluator: the payload of the
    parsed locations, the reads, one call, and the rendering of what the
    transport answered. *)
Lemma evaluate_ask args stdin cfg a wd :
  config_of args = Ok cfg -> mode cfg = Ask a -> show_prompt cfg = false ->
  exists p,
    map s_location (snippets p) = firstn (Z.to_nat (max_context cfg)) (parse stdin) /\
    diagnostic_text p = stdin /\ instructions p = instructions_for a /\
    evaluate args stdin wd =
      render_result (classify_reply (w_llm wd (request_of p (model cfg) (timeout_seconds cfg))))
        (with_trace wd (w_trace wd ++ map (fun l => ReadFile (path l)) (parse stdin) ++
                        [Call (request_of p (model cfg) (timeout_seconds cfg))])).
Proof.
  intros Hc Hm Hsp. unfold evaluate. rewrite Hc, Hm.
  destruct (build_run stdin (parse stdin) cfg wd) as (ss & Hb & Hl).
  exists (Payload (mode_instructions (mode cfg)) stdin (firstn (Z.to_nat (max_context cfg)) ss)
                  (max_context cfg)).
  split_and!; [| done | cbn; by rewrite Hm |].
  - cbn. by rewrite <- firstn_map, Hl.
  - unfold bind at 1. rewrite Hb. cbn [Prompt.show_prompt]. rewrite Hsp.
    unfold bind. rewrite dispatch_run. cbn. by rewrite <- List.app_assoc.
Qed.

(** The whole program on a non-empty input in [explain] or [fix] mode. *)
Lemma cwhy_ask_run argv args cfg a wd :
  Argparse.parse_args Cli.cwhy_parser argv = Argparse.Parsed args ->
  dict_get args "wrapper" = Some (PyBool false) ->
  dict_get args "version" = Some (PyBool false) ->
  config_of args = Ok cfg -> mode cfg = Ask a -> show_prompt cfg = false -> w_stdin wd <> "" ->
  exists p,
    map s_location (snippets p) = firstn (Z.to_nat (max_context cfg)) (parse (w_stdin wd)) /\
    diagnostic_text p = w_stdin wd /\ instructions p = instructions_for a /\
    cwhy argv wd =
      render_result (classify_reply (w_llm wd (request_of p (model cfg) (timeout_seconds cfg))))
        (World "" (w_files wd) (w_tmpname wd) (w_version wd) (w_llm wd)
           (w_trace wd ++ [ReadStdin] ++ map (fun l => ReadFile (path l)) (parse (w_stdin wd)) ++
            [Call (request_of p (model cfg) (timeout_seconds cfg))])).
Proof.
  intros Hp Hw Hv Hc Hm Hsp Hs. unfold cwhy. rewrite (Main.main_run_stdin _ _ _ _ Hp Hw Hv).
  apply String.eqb_neq in Hs. rewrite Hs.
  destruct (evaluate_ask args (w_stdin wd) cfg a
              (World "" (w_files wd) (w_tmpname wd) (w_version wd) (w_llm wd) (w_trace wd ++ [ReadStdin])) Hc Hm Hsp)
    as (p & H1 & H2 & H3 & ->).
  exists p. split_and!; [done .. |]. cbn. by rewrite <- List.app_assoc.
Qed.

(** The evaluator reads the namespace only through [args[k]]: it gives
    the same run on namespaces Python's [==] identifies, whatever the
    order of their keys. *)
#[export] Instance config_of_proper : Proper (dict_equiv ==> eq) config_of.
Proof. intros a b H. unfold config_of, get_str, get_int, get_bool. by rewrite !H. Qed.

#[export] Instance evaluate_proper : Proper (dict_equiv ==> eq ==> eq) evaluate.
Proof. intros a b H s ? <-. unfold evaluate. by rewrite H. Qed.

Lemma prints_no_calls ls : calls_of (map (fun s => Stdout (s +:+ String nl "")) ls) = [].
Proof. induction ls; [done | assumption]. Qed.

(** The whole program in [extract-sources] mode on a non-empty input. *)
Lemma cwhy_extract_run argv args cfg wd :
  Argparse.parse_args Cli.cwhy_parser argv = Argparse.Parsed args ->
  dict_get args "wrapper" = Some (PyBool false) ->
  dict_get args "version" = Some (PyBool false) ->
  config_of args = Ok cfg -> mode cfg = ExtractSources -> w_stdin wd <> "" ->
  cwhy argv wd =
    (Ok tt, World "" (w_files wd) (w_tmpname wd) (w_version wd) (w_llm wd)
              ((w_trace wd ++ [ReadStdin]) ++
               map (fun s => Stdout (s +:+ String nl "")) (map render_location (parse (w_stdin wd))))).
Proof.
  intros Hp Hw Hv Hc Hm Hs. unfold cwhy. rewrite (Main.main_run_stdin _ _ _ _ Hp Hw Hv).
  apply String.eqb_neq in Hs. rewrite Hs. unfold evaluate. rewrite Hc, Hm.
  unfold render_locations. by rewrite print_all_run.
Qed.

(** The command line [cwhy extract-sources]. *)
Lemma extract_sources_args :
  Argparse.parse_args Cli.cwhy_parser ["extract-sources"] =
    Argparse.Parsed (dict_set Cli.cwhy_defaults "subcommand" (PyStr "extract-sources")) /\
  config_of (dict_set Cli.cwhy_defaults "subcommand" (PyStr "extract-sources")) =
    Ok (Config "gpt-3.5-turbo" 60 30 ExtractSources false).
Proof. split; vm_compute; reflexivity. Qed.

Lemma unlines_not_empty x xs : unlines (x :: xs) <> "".
Proof. cbn. destruct x; discriminate. Qed.

(** The world after [sys.stdin.read()]. *)
Definition after_stdin (wd : world) : world :=
  World "" (w_files wd) (w_tmpname wd) (w_version wd) (w_llm wd) (w_trace wd ++ [ReadStdin]).

(** The whole program with [--show-prompt] in [explain] or [fix] mode:
    the snippets of every location are assembled (every file read), and
    the conversation of the payload [build] makes from them is printed. *)
Lemma cwhy_show_run argv args cfg a wd :
  Argparse.parse_args Cli.cwhy_parser argv = Argparse.Parsed args ->
  dict_get args "wrapper" = Some (PyBool false) ->
  dict_get args "version" = Some (PyBool false) ->
  config_of args = Ok cfg -> mode cfg = Ask a -> show_prompt cfg = true -> w_stdin wd <> "" ->
  exists ss,
    fst (assemble_all (parse (w_stdin wd)) (after_stdin wd)) = Ok ss /\
    map s_location ss = parse (w_stdin wd) /\
    cwhy argv wd =
      print_all (map content (messages (Payload (mode_instructions (Ask a)) (w_stdin wd)
                                         (firstn (Z.to_nat (max_context cfg)) ss) (max_context cfg))))
        (World "" (w_files wd) (w_tmpname wd) (w_version wd) (w_llm wd)
           ((w_trace wd ++ [ReadStdin]) ++ map (fun l => ReadFile (path l)) (parse (w_stdin wd)))).
Proof.
  intros Hp Hw Hv Hc Hm Hsp Hs. unfold cwhy. rewrite (Main.main_run_stdin _ _ _ _ Hp Hw Hv).
  apply String.eqb_neq in Hs. rewrite Hs. unfold evaluate. rewrite Hc, Hm.
  destruct (assemble_all_run (parse (w_stdin wd)) (after_stdin wd)) as (ss & Ha & Hl).
  exists ss. split_and!; [by rewrite Ha | exact Hl |].
  unfold bind at 1, build, bind at 1. unfold after_stdin in Ha. rewrite Ha.
  cbn [Prompt.show_prompt]. rewrite Hsp, Hm. reflexivity.
Qed.

(** Events of a [map] that are none of them file writes. *)
Lemma map_no_writes {A} (f : A -> event) (l : list A) :
  (forall x, writes_file (f x) = false) -> Forall (fun e => writes_file e = false) (map f l).
Proof. intros Hf. apply Forall_forall. intros e (x & <- & _)%in_map_iff. apply Hf. Qed.

(** [print] of each string writes no file and raises nothing. *)
Lemma print_all_footprint ls : appends (fun e => writes_file e = false) (print_all ls).
Proof. intros w. rewrite print_all_run. eexists. split; [done | by apply map_no_writes]. Qed.

(** The evaluator reads files, prints and calls the model, but never
  creates, writes or changes the mode of a file. *)
Lemma evaluate_footprint a s : appends (fun e => writes_file e = false) (evaluate a s).
Proof.
  unfold evaluate. destruct (config_of a) as [cfg|e]; [| apply appends_raise].
  case_match; [| apply print_all_footprint]. apply appends_bind.
  - intros w. destruct (build_run s (parse s) cfg w) as (ss & -> & _).
    eexists. split; [done | by apply map_no_writes].
  - intros p. case_match; [apply print_all_footprint |]. apply appends_bind.
    + intros w. rewrite dispatch_run. eexists. split; [done | by repeat constructor].
    + intros r. unfold render_result. footprint_with ltac:(reflexivity).
Qed.

(** ** Theorems *)

(** C2: exactly one call of the model per [explain] or [fix] run on a
    non-empty input (spec.md sections 4.4 and 5), and it carries what the
    specification says: the instructions of the mode, the diagnostic text
    with the snippets of the first [max_context] locations in order of
    appearance, the model of [--llm] and the timeout of [--timeout]. *)
Theorem cwhy_one_call (argv : list string) (args : dict) (cfg : config) (a : ask) (wd : world) :
  Argparse.parse_args Cli.cwhy_parser argv = Argparse.Parsed args ->
  dict_get args "wrapper" = Some (PyBool false) ->
  dict_get args "version" = Some (PyBool false) ->
  config_of args = Ok cfg -> mode cfg = Ask a -> show_prompt cfg = false -> w_stdin wd <> "" ->
  exists p r w',
    cwhy argv wd = (r, w') /\
    calls_of (w_trace w') = calls_of (w_trace wd) ++ [Request (messages p) (model cfg) (timeout_seconds cfg)] /\
    map s_location (snippets p) = firstn (Z.to_nat (max_context cfg)) (parse (w_stdin wd)) /\
    diagnostic_text p = w_stdin wd /\ instructions p = instructions_for a.
Proof.
  intros Hp Hw Hv Hc Hm Hsp Hs.
  destruct (cwhy_ask_run argv args cfg a wd Hp Hw Hv Hc Hm Hsp Hs) as (p & H1 & H2 & H3 & ->).
  exists p. destruct (classify_reply _); cbn; eexists _, _; (split_and!; [reflexivity | | done ..]);
    cbn; trace_simpl; done.
Qed.

(** C1: the four outcomes of an [explain] or [fix] run (spec.md sections
    4.5 and 7): when the transport answers the one request with a text,
    the text is printed verbatim on standard output and the run exits 0;
    on a timeout, a transport failure or a model failure, nothing is
    printed on standard output (no partial text), one line naming the
    failure kind goes to standard error, and the run exits with status 1. *)
Theorem cwhy_ask_outcome (argv : list string) (args : dict) (cfg : config) (a : ask) (wd : world) :
  Argparse.parse_args Cli.cwhy_parser argv = Argparse.Parsed args ->
  dict_get args "wrapper" = Some (PyBool false) ->
  dict_get args "version" = Some (PyBool false) ->
  config_of args = Ok cfg -> mode cfg = Ask a -> show_prompt cfg = false -> w_stdin wd <> "" ->
  exists req w',
    calls_of (w_trace w') = calls_of (w_trace wd) ++ [req] /\
    match w_llm wd req with
    | Completed t =>
        cwhy argv wd = (Ok tt, w') /\
        stdout_of (w_trace w') = stdout_of (w_trace wd) +:+ t +:+ String nl "" /\
        stderr_of (w_trace w') = stderr_of (w_trace wd)
    | r =>
        cwhy argv wd = (Err (SystemExit 1), w') /\
        stdout_of (w_trace w') = stdout_of (w_trace wd) /\
        stderr_of (w_trace w') = stderr_of (w_trace wd) +:+ failure_message (classify_reply r) +:+ String nl ""
    end.
Proof.
  intros Hp Hw Hv Hc Hm Hsp Hs.
  destruct (cwhy_ask_run argv args cfg a wd Hp Hw Hv Hc Hm Hsp Hs) as (p & _ & _ & _ & ->).
  exists (request_of p (model cfg) (timeout_seconds cfg)).
  destruct (w_llm wd _); cbn [classify_reply render_result]; eexists;
    (split; [| split_and!; [reflexivity | ..]]); cbn; trace_simpl; done.
Qed.

(** C11: [extract-sources] never calls the model (spec.md section 4.5): on
    a non-empty input it prints one line per parsed location, in order,
    and exits 0; with no recognizable location it prints nothing. *)
Theorem cwhy_extract_sources (argv : list string) (args : dict) (cfg : config) (wd : world) :
  Argparse.parse_args Cli.cwhy_parser argv = Argparse.Parsed args ->
  dict_get args "wrapper" = Some (PyBool false) ->
  dict_get args "version" = Some (PyBool false) ->
  config_of args = Ok cfg -> mode cfg = ExtractSources -> w_stdin wd <> "" ->
  exists w',
    cwhy argv wd = (Ok tt, w') /\
    calls_of (w_trace w') = calls_of (w_trace wd) /\
    stdout_of (w_trace w') = stdout_of (w_trace wd) +:+ render_all (parse (w_stdin wd)).
Proof.
  intros Hp Hw Hv Hc Hm Hs. rewrite (cwhy_extract_run _ _ _ _ Hp Hw Hv Hc Hm Hs).
  eexists. split_and!; [reflexivity | |]; cbn; trace_simpl.
  - by rewrite prints_no_calls, List.app_nil_r.
  - by rewrite stdout_of_lines.
Qed.

(** C12: [cwhy extract-sources] is a fixed point on its own output: fed
    the lines it printed for well-formed locations, it prints exactly the
    same text again, and calls nothing. *)
Theorem cwhy_extract_roundtrip (ls : list location) (wd : world) :
  Forall (fun l => location_ok l = true) ls -> ls <> [] -> w_stdin wd = render_all ls ->
  exists w', cwhy ["extract-sources"] wd = (Ok tt, w') /\
    calls_of (w_trace w') = calls_of (w_trace wd) /\
    stdout_of (w_trace w') = stdout_of (w_trace wd) +:+ w_stdin wd.
Proof.
  intros Hok Hne Hs. destruct extract_sources_args as [Hp Hc].
  assert (Hs' : w_stdin wd <> "").
  { rewrite Hs. destruct ls as [|l ls]; [exfalso; by apply Hne |]. unfold render_all. rewrite map_cons.
    apply unlines_not_empty. }
  rewrite (cwhy_extract_run _ _ _ _ Hp eq_refl eq_refl Hc eq_refl Hs').
  eexists. split_and!; [reflexivity | |]; cbn; trace_simpl.
  - by rewrite prints_no_calls, List.app_nil_r.
  - by rewrite stdout_of_lines, Hs, parse_render_all.
Qed.

Lemma cwhy_extract_roundtrip_witness :
  exists w', cwhy ["extract-sources"] (pipe_world (render_all demo_locations) (fun _ => TimedOut)) = (Ok tt, w') /\
    calls_of (w_trace w') = calls_of [] /\
    stdout_of (w_trace w') = stdout_of [] +:+ render_all demo_locations.
Proof.
  apply (cwhy_extract_roundtrip demo_locations (pipe_world (render_all demo_locations) (fun _ => TimedOut)));
    [repeat constructor | discriminate | reflexivity].
Defined.

(** C13: the first testable property of spec.md section 8: a diagnostic
    with no recognizable [path:line] (a linker error, say) makes
    [cwhy extract-sources] print nothing and exit 0. *)
Theorem cwhy_no_location (wd : world) :
  w_stdin wd <> "" -> Forall (fun s => recognize s = None) (lines_of (w_stdin wd)) ->
  exists w', cwhy ["extract-sources"] wd = (Ok tt, w') /\
    calls_of (w_trace w') = calls_of (w_trace wd) /\ stdout_of (w_trace w') = stdout_of (w_trace wd).
Proof.
  intros Hs Hn. destruct extract_sources_args as [Hp Hc].
  rewrite (cwhy_extract_run _ _ _ _ Hp eq_refl eq_refl Hc eq_refl Hs).
  unfold parse. rewrite parse_lines_unrecognized by done.
  eexists. split_and!; [reflexivity | |]; cbn; trace_simpl; done.
Qed.

Lemma cwhy_no_location_witness :
  exists w', cwhy ["extract-sources"] (pipe_world "ld: symbol(s) not found for architecture arm64" (fun _ => TimedOut)) = (Ok tt, w') /\
    calls_of (w_trace w') = calls_of [] /\ stdout_of (w_trace w') = stdout_of [].
Proof.
  apply (cwhy_no_location (pipe_world "ld: symbol(s) not found for architecture arm64" (fun _ => TimedOut)));
    [discriminate |].
  cbn [w_stdin pipe_world]. unfold lines_of. vm_compute split_nl. cbn.
  apply Forall_cons; [vm_compute; reflexivity | apply Forall_nil].
Defined.

(** C14: [--show-prompt] "only print[s] prompt and exit[s]" (src line 52):
    in [explain] or [fix] mode the run prints the conversation it would
    send and nothing else, calls nothing, and exits 0.  The conversation
    is that of the payload of the mode's instructions, the whole input
    as the diagnostic text, and the first [max_context] of the snippets
    the assembler gives for the parsed locations, in order. *)
Theorem cwhy_show_prompt (argv : list string) (args : dict) (cfg : config) (a : ask) (wd : world) :
  Argparse.parse_args Cli.cwhy_parser argv = Argparse.Parsed args ->
  dict_get args "wrapper" = Some (PyBool false) ->
  dict_get args "version" = Some (PyBool false) ->
  config_of args = Ok cfg -> mode cfg = Ask a -> show_prompt cfg = true -> w_stdin wd <> "" ->
  exists ss w',
    fst (assemble_all (parse (w_stdin wd)) (after_stdin wd)) = Ok ss /\
    map s_location ss = parse (w_stdin wd) /\
    cwhy argv wd = (Ok tt, w') /\
    calls_of (w_trace w') = calls_of (w_trace wd) /\
    stdout_of (w_trace w') =
      stdout_of (w_trace wd) +:+
      unlines (map content (messages (Payload (mode_instructions (Ask a)) (w_stdin wd)
                                        (firstn (Z.to_nat (max_context cfg)) ss) (max_context cfg)))).
Proof.
  intros Hp Hw Hv Hc Hm Hsp Hs.
  destruct (cwhy_show_run argv args cfg a wd Hp Hw Hv Hc Hm Hsp Hs) as (ss & Ha & Hl & ->).
  rewrite print_all_run. exists ss. eexists. split_and!; [done | done | reflexivity | |];
    cbn [w_trace with_trace]; trace_simpl; [done | by rewrite stdout_of_lines].
Qed.

Lemma cwhy_show_prompt_witness :
  exists ss w',
    fst (assemble_all (parse demo_input) (after_stdin (pipe_world demo_input (fun _ => TimedOut)))) = Ok ss /\
    map s_location ss = parse demo_input /\
    cwhy ["--show-prompt"] (pipe_world demo_input (fun _ => TimedOut)) = (Ok tt, w') /\
    calls_of (w_trace w') = calls_of [] /\
    stdout_of (w_trace w') =
      stdout_of [] +:+
      unlines (map content (messages (Payload (mode_instructions (Ask Explain)) demo_input
                                        (firstn (Z.to_nat 30) ss) 30))).
Proof.
  apply (cwhy_show_prompt ["--show-prompt"] (dict_set Cli.cwhy_defaults "show_prompt" (PyBool true))
           (Config "gpt-3.5-turbo" 60 30 (Ask Explain) true) Explain
           (pipe_world demo_input (fun _ => TimedOut)));
    [vm_compute; reflexivity | reflexivity | reflexivity | vm_compute; reflexivity | reflexivity |
     reflexivity | discriminate].
Defined.

(** C3: empty input is a no-op (spec.md sections 7 and 8): with an empty
    standard input and neither [--wrapper] nor [--version], the run reads
    the input, prints nothing, calls nothing, and exits 0. *)
Theorem cwhy_empty_input (argv : list string) (args : dict) (wd : world) :
  Argparse.parse_args Cli.cwhy_parser argv = Argparse.Parsed args ->
  dict_get args "wrapper" = Some (PyBool false) ->
  dict_get args "version" = Some (PyBool false) ->
  w_stdin wd = "" ->
  cwhy argv wd =
    (Ok tt, World "" (w_files wd) (w_tmpname wd) (w_version wd) (w_llm wd) (w_trace wd ++ [ReadStdin])).
Proof.
  intros Hp Hw Hv Hs. unfold cwhy. rewrite (Main.main_run_stdin _ _ _ _ Hp Hw Hv), Hs. done.
Qed.

(** C4: The program touches the file system only when asked for the wrapper:
    every run only appends to the trace, and each event it appends
    creates, writes or changes the mode of no file unless the command
    line has [--wrapper]. *)
Theorem cwhy_footprint (argv : list string) :
  appends (fun e => writes_file e = false \/ Main.wrapper_requested argv) (cwhy argv).
Proof. apply Main.main_footprint, evaluate_footprint. Qed.

Lemma cwhy_one_call_witness :
  exists p r w',
    cwhy ["fix"] (pipe_world demo_input (fun _ => Completed "add 'int z;'")) = (r, w') /\
    calls_of (w_trace w') = calls_of [] ++ [Request (messages p) "gpt-3.5-turbo" 60] /\
    map s_location (snippets p) = firstn (Z.to_nat 30) (parse demo_input) /\
    diagnostic_text p = demo_input /\ instructions p = instructions_for Fix.
Proof.
  apply (cwhy_one_call ["fix"] fix_args fix_config Fix
           (pipe_world demo_input (fun _ => Completed "add 'int z;'")));
    [vm_compute; reflexivity | reflexivity | reflexivity | vm_compute; reflexivity | reflexivity |
     reflexivity | discriminate].
Defined.

(** The timeout scenario of spec.md section 8. *)
Lemma cwhy_ask_outcome_witness :
  exists req w',
    calls_of (w_trace w') = calls_of [] ++ [req] /\
    match w_llm (pipe_world demo_input (fun _ => TimedOut)) req with
    | Completed t =>
        cwhy ["fix"] (pipe_world demo_input (fun _ => TimedOut)) = (Ok tt, w') /\
        stdout_of (w_trace w') = stdout_of [] +:+ t +:+ String nl "" /\
        stderr_of (w_trace w') = stderr_of []
    | r =>
        cwhy ["fix"] (pipe_world demo_input (fun _ => TimedOut)) = (Err (SystemExit 1), w') /\
        stdout_of (w_trace w') = stdout_of [] /\
        stderr_of (w_trace w') = stderr_of [] +:+ failure_message (classify_reply r) +:+ String nl ""
    end.
Proof.
  apply (cwhy_ask_outcome ["fix"] fix_args fix_config Fix (pipe_world demo_input (fun _ => TimedOut)));
    [vm_compute; reflexivity | reflexivity | reflexivity | vm_compute; reflexivity | reflexivity |
     reflexivity | discriminate].
Defined.

Lemma cwhy_extract_sources_witness :
  exists w',
    cwhy ["extract-sources"] (pipe_world demo_input (fun _ => TimedOut)) = (Ok tt, w') /\
    calls_of (w_trace w') = calls_of [] /\
    stdout_of (w_trace w') = stdout_of [] +:+ render_all (parse demo_input).
Proof.
  apply (cwhy_extract_sources ["extract-sources"]
           (dict_set Cli.cwhy_defaults "subcommand" (PyStr "extract-sources"))
           (Config "gpt-3.5-turbo" 60 30 ExtractSources false) (pipe_world demo_input (fun _ => TimedOut)));
    [vm_compute; reflexivity | reflexivity | reflexivity | vm_compute; reflexivity | reflexivity |
     discriminate].
Defined.

Lemma cwhy_empty_input_witness :
  cwhy [] (pipe_world "" (fun _ => TimedOut)) =
    (Ok tt, World "" demo_files "/tmp/tmpk3x9" "0.4.2" (fun _ => TimedOut) ([] ++ [ReadStdin])).
Proof.
  apply (cwhy_empty_input [] Cli.cwhy_defaults (pipe_world "" (fun _ => TimedOut)));
    [vm_compute; reflexivity | reflexivity | reflexivity | reflexivity].
Defined.

End Pipeline.
